(** * coinbase_csv: a shallow embedding of [src/coinbase_csv.py]

    The script walks backward through history one day at a time, asks the
    exchange for the candles of each day, accumulates one record per candle
    and writes the accumulated records to a CSV file in its [finally] block.

    The embedding follows the source statement by statement.  Everything the
    script observes from outside (the two clock readings, what the exchange
    answers to the i-th request) is collected in a [world], and what becomes
    of the file it writes is told by a [disk]; everything the script does to
    the outside (log lines, requests, the CSV file) and its one mutable list
    [candle_data] are collected in a [state] that is threaded through a
    small state-and-exception monad. *)

From Stdlib Require Import ZArith NArith List String Ascii Bool Lia.
From Stdlib Require Import Floats.PrimFloat Floats.FloatOps Floats.SpecFloat.
From Equations Require Import Equations.
Import ListNotations.

Open Scope string_scope.
Open Scope list_scope.
Open Scope Z_scope.

(** A decimal float literal denotes the nearest double, as it does in
    Python. *)
#[local] Set Warnings "-inexact-float".

(* ===================================================================== *)
(** * Python exceptions *)
(* ===================================================================== *)

(** The exception classes that can travel through [fetch_and_store_candles].
    [KeyboardInterrupt] and [SystemExit] derive from [BaseException] only;
    every other class below derives from [Exception]. *)
Inductive exc : Type :=
| KeyboardInterrupt
| SystemExit
| Exception_ (status : Z) (reason : string)
    (* raise Exception(f"Error fetching data: {status} {reason}") *)
| ValueError_granularity (granularity : Z)
    (* raise ValueError(f"Invalid granularity: {granularity}") *)
| ValueError
| TypeError
| IndexError
| KeyError
| OverflowError
| OSError.

(** [isinstance(e, Exception)] *)
Definition isinstance_Exception (e : exc) : bool :=
  match e with
  | KeyboardInterrupt | SystemExit => false
  | _ => true
  end.

(** [isinstance(e, KeyboardInterrupt)] *)
Definition isinstance_KeyboardInterrupt (e : exc) : bool :=
  match e with
  | KeyboardInterrupt => true
  | _ => false
  end.

(* ===================================================================== *)
(** * Dates and times *)
(* ===================================================================== *)

(** A timezone-aware UTC [datetime] is represented by the number of
    microseconds since 1970-01-01T00:00:00+00:00.  UTC has no daylight
    saving and Python's [datetime] has no leap seconds, so the
    representation is exact. *)
Definition datetime := Z.

Definition us_per_second : Z := 1000000.
Definition seconds_per_day : Z := 86400.
Definition us_per_day : Z := seconds_per_day * us_per_second.

(** [timedelta(days=d)] *)
Definition timedelta (days : Z) : Z := days * us_per_day.

Module Calendar.

(** The proleptic Gregorian calendar of Python's [datetime] module
    ([_is_leap], [_days_before_year], [_days_before_month], [_ymd2ord],
    [_ord2ymd]); an ordinal counts days, 0001-01-01 being day 1. *)

Definition is_leap (year : Z) : bool :=
  (year mod 4 =? 0) && (negb (year mod 100 =? 0) || (year mod 400 =? 0)).

Definition days_in_month_table : list Z :=
  [31; 28; 31; 30; 31; 30; 31; 31; 30; 31; 30; 31].

Definition days_in_month_common (month : Z) : Z :=
  nth (Z.to_nat (month - 1)) days_in_month_table 0.

Definition days_before_month_common (month : Z) : Z :=
  fold_right Z.add 0 (firstn (Z.to_nat (month - 1)) days_in_month_table).

Definition days_before_year (year : Z) : Z :=
  let y := year - 1 in
  y * 365 + y / 4 - y / 100 + y / 400.

Definition days_before_month (year month : Z) : Z :=
  days_before_month_common month
  + (if (2 <? month) && is_leap year then 1 else 0).

Definition ymd2ord (year month day : Z) : Z :=
  days_before_year year + days_before_month year month + day.

Definition DI400Y : Z := 146097.
Definition DI100Y : Z := 36524.
Definition DI4Y : Z := 1461.

Definition ord2ymd (ordinal : Z) : Z * Z * Z :=
  let n := ordinal - 1 in
  let n400 := n / DI400Y in
  let n := n mod DI400Y in
  let year := n400 * 400 + 1 in
  let n100 := n / DI100Y in
  let n := n mod DI100Y in
  let n4 := n / DI4Y in
  let n := n mod DI4Y in
  let n1 := n / 365 in
  let n := n mod 365 in
  let year := year + n100 * 100 + n4 * 4 + n1 in
  if (n1 =? 4) || (n100 =? 4) then (year - 1, 12, 31)
  else
    let leapyear := (n1 =? 3) && (negb (n4 =? 24) || (n100 =? 3)) in
    let month := Z.shiftr (n + 50) 5 in
    let preceding :=
      days_before_month_common month
      + (if (2 <? month) && leapyear then 1 else 0) in
    if n <? preceding then
      let month := month - 1 in
      let preceding :=
        preceding
        - (days_in_month_common month
           + (if (month =? 2) && leapyear then 1 else 0)) in
      (year, month, n - preceding + 1)
    else (year, month, n - preceding + 1).

(** The ordinal of 1970-01-01. *)
Definition epoch_ordinal : Z := ymd2ord 1970 1 1.

End Calendar.

(** The broken-down fields of an instant. *)
Record fields : Type := mk_fields {
  f_year : Z; f_month : Z; f_day : Z;
  f_hour : Z; f_minute : Z; f_second : Z; f_microsecond : Z
}.

Definition fields_of (t : datetime) : fields :=
  let days := t / us_per_day in
  let rest := t mod us_per_day in
  let '(y, m, d) := Calendar.ord2ymd (days + Calendar.epoch_ordinal) in
  let secs := rest / us_per_second in
  {| f_year := y; f_month := m; f_day := d;
     f_hour := secs / 3600;
     f_minute := (secs / 60) mod 60;
     f_second := secs mod 60;
     f_microsecond := rest mod us_per_second |}.

(** [datetime(year, month, day, tzinfo=UTC)] *)
Definition datetime_utc (year month day : Z) : datetime :=
  (Calendar.ymd2ord year month day - Calendar.epoch_ordinal) * us_per_day.

(** [t.replace(hour=0, minute=0, second=0, microsecond=0)]: same date,
    time of day zero. *)
Definition replace_midnight (t : datetime) : datetime :=
  t - t mod us_per_day.

(** ** Rendering *)

Definition digit (d : Z) : ascii :=
  ascii_of_nat (48 + Z.to_nat (d mod 10)).

(** The [width] low decimal digits of the natural number [n], zero padded
    (["%0<width>d"] for a number that fits the width). *)
Fixpoint zero_padded (width : nat) (n : Z) : string :=
  match width with
  | O => EmptyString
  | S k => (zero_padded k (n / 10) ++ String (digit n) EmptyString)%string
  end.

(** [t.isoformat()] for an aware UTC datetime:
    [YYYY-MM-DDTHH:MM:SS+00:00], with [.ffffff] after the seconds when the
    microsecond field is not zero. *)
Definition isoformat (t : datetime) : string :=
  let f := fields_of t in
  (zero_padded 4 (f_year f) ++ "-" ++ zero_padded 2 (f_month f) ++ "-"
   ++ zero_padded 2 (f_day f) ++ "T"
   ++ zero_padded 2 (f_hour f) ++ ":" ++ zero_padded 2 (f_minute f) ++ ":"
   ++ zero_padded 2 (f_second f)
   ++ (if (f_microsecond f =? 0)%Z then ""
       else "." ++ zero_padded 6 (f_microsecond f))
   ++ "+00:00")%string.

(** [t.strftime("%Y%m%d_%H%M%S")] *)
Definition strftime_Ymd_HMS (t : datetime) : string :=
  let f := fields_of t in
  (zero_padded 4 (f_year f) ++ zero_padded 2 (f_month f)
   ++ zero_padded 2 (f_day f) ++ "_"
   ++ zero_padded 2 (f_hour f) ++ zero_padded 2 (f_minute f)
   ++ zero_padded 2 (f_second f))%string.

(** The date below which the script stops:
    [datetime(2015, 7, 20, tzinfo=UTC)]. *)
Definition floor_date : datetime := datetime_utc 2015 7 20.

(* ===================================================================== *)
(** * JSON values and the Python operations the script applies to them *)
(* ===================================================================== *)

(** What [json.loads] returns: [None], [bool], [int], [float], [str],
    [list] or [dict] (the keys of a [dict] are strings, each once, in
    insertion order). *)
#[warnings="-register-all"]
Inductive json : Type :=
| JNull
| JBool (b : bool)
| JInt (z : Z)
| JFloat (f : float)
| JStr (s : string)
| JArr (items : list json)
| JObj (members : list (string * json)).

(** A value computed by a step that may raise. *)
Definition result (A : Type) : Type := exc + A.

Definition ok {A} (a : A) : result A := inr a.
Definition error {A} (e : exc) : result A := inl e.

Definition and_then {A B} (r : result A) (k : A -> result B) : result B :=
  match r with
  | inl e => inl e
  | inr a => k a
  end.

Declare Scope result_scope.
Delimit Scope result_scope with result.
Notation "x <- r ;; k" := (and_then r (fun x => k))
  (at level 61, r at next level, right associativity) : result_scope.

(** [bool(x)], the truth value the test [if not data] looks at. *)
Definition truthy (x : json) : bool :=
  match x with
  | JNull => false
  | JBool b => b
  | JInt z => negb (z =? 0)
  | JFloat f => negb (PrimFloat.eqb f 0%float)
  | JStr s => negb (String.eqb s "")
  | JArr items => match items with [] => false | _ => true end
  | JObj members => match members with [] => false | _ => true end
  end.

(** The characters of a string, each as a string of length one. *)
Fixpoint characters (s : string) : list json :=
  match s with
  | EmptyString => []
  | String c rest => JStr (String c EmptyString) :: characters rest
  end.

(** The items [for candle in data] goes through: the elements of a list,
    the characters of a string, the keys of a dict; anything else is not
    iterable. *)
Definition iterate (x : json) : result (list json) :=
  match x with
  | JArr items => ok items
  | JStr s => ok (characters s)
  | JObj members => ok (map (fun kv => JStr (fst kv)) members)
  | _ => error TypeError
  end.

(** [x[i]] for a constant index [i >= 0]: list indexing, string indexing,
    dict lookup with an integer key (no key of a decoded object is an
    integer), and [TypeError] for what is not subscriptable. *)
Definition getitem (x : json) (i : nat) : result json :=
  match x with
  | JArr items =>
      match nth_error items i with
      | Some v => ok v
      | None => error IndexError
      end
  | JStr s =>
      match nth_error (characters s) i with
      | Some v => ok v
      | None => error IndexError
      end
  | JObj _ => error KeyError
  | _ => error TypeError
  end.

(** ** [datetime.fromtimestamp(x, UTC)] *)

(** As CPython computes it where [time_t] has 64 bits: an [int] (or a
    [bool], which is an [int]) is a number of seconds; a [float] is split
    into seconds and microseconds; anything else is a [TypeError]. *)
Module Timestamp.

(** [time_t] is a signed 64-bit integer. *)
Definition in_time_t (sec : Z) : bool :=
  (- 2 ^ 63 <=? sec) && (sec <? 2 ^ 63).

(** The value of a finite float rounded to the nearest integer, ties to
    the even one. *)
Definition round_half_even (x : float) : Z :=
  match Prim2SF x with
  | S754_finite s m e =>
      let magnitude :=
        if 0 <=? e then Z.pos m * 2 ^ e
        else
          let d := 2 ^ (- e) in
          let q := Z.pos m / d in
          let r := Z.pos m mod d in
          if (d <? 2 * r) || ((d =? 2 * r) && Z.odd q) then q + 1 else q in
      if s then - magnitude else magnitude
  | _ => 0
  end.

(** C's [modf] on a finite float: the integral part (here as an integer)
    and the fractional part, both with the sign of the argument. *)
Definition modf (d : float) : Z * float :=
  match Prim2SF d with
  | S754_finite s m e =>
      if 0 <=? e then
        ((if s then - (Z.pos m * 2 ^ e) else Z.pos m * 2 ^ e), 0%float)
      else
        let q := Z.pos m / 2 ^ (- e) in
        let ip := PrimFloat.of_uint63 (Uint63Axioms.of_Z q) in
        if s then (- q, PrimFloat.add d ip) else (q, PrimFloat.sub d ip)
  | _ => (0, d)
  end.

(** The range test of the float branch is made in double precision, where
    the greatest [time_t] is rounded to 2^63: it lets 2^63 through. *)
Definition in_time_t_double (sec : Z) : bool :=
  (- 2 ^ 63 <=? sec) && (sec <=? 2 ^ 63).

(** The conversion of a double in that range to [time_t]; 2^63 itself
    comes out as the least [time_t] (x86-64). *)
Definition to_time_t (sec : Z) : Z :=
  if sec =? 2 ^ 63 then - 2 ^ 63 else sec.

(** The float branch: seconds and microseconds of a float timestamp,
    the fraction scaled by 1e6 in floating point and then rounded half
    to even. *)
Definition of_float (d : float) : result (Z * Z) :=
  if PrimFloat.is_nan d then error ValueError
  else if PrimFloat.is_infinity d then error OverflowError
  else
    let '(intpart, floatpart) := modf d in
    let us := round_half_even (PrimFloat.mul floatpart 1000000%float) in
    let '(intpart, us) :=
      if 1000000 <=? us then (intpart + 1, us - 1000000)
      else if us <? 0 then (intpart - 1, us + 1000000)
      else (intpart, us) in
    if in_time_t_double intpart then ok (to_time_t intpart, us)
    else error OverflowError.

(** The integer branch: no fraction. *)
Definition of_int (z : Z) : result (Z * Z) :=
  if in_time_t z then ok (z, 0) else error OverflowError.

(** Seconds and microseconds to an aware UTC datetime: [gmtime] must be
    able to store the year in a C [int], and the year must be one a
    [datetime] can hold. *)
Definition to_datetime (sec us : Z) : result datetime :=
  let '(year, _, _) :=
    Calendar.ord2ymd (sec / seconds_per_day + Calendar.epoch_ordinal) in
  if (year - 1900 <? - 2 ^ 31) || (2 ^ 31 <=? year - 1900) then error OSError
  else if (year <? 1) || (9999 <? year) then error ValueError
  else ok (sec * us_per_second + us).

Definition fromtimestamp (x : json) : result datetime :=
  match x with
  | JInt z =>
      (p <- of_int z ;; to_datetime (fst p) (snd p))%result
  | JBool b =>
      (p <- of_int (if b then 1 else 0) ;; to_datetime (fst p) (snd p))%result
  | JFloat d =>
      (p <- of_float d ;; to_datetime (fst p) (snd p))%result
  | _ => error TypeError
  end.

End Timestamp.

(* ===================================================================== *)
(** * Candle records *)
(* ===================================================================== *)

(** One row of output: the dictionary built at lines 89-98.  The price and
    volume fields hold the decoded JSON values as they came. *)
Record candle_record : Type := mk_candle_record {
  Exchange : string;
  Pair : string;
  Close_Timestamp : string;
  Low : json;
  High : json;
  Open_ : json;
  Close_ : json;
  Volume : json
}.

(** The body of [for candle in data], up to the [append]: what it builds
    from one candle, or the exception it raises.  The subscripts are
    evaluated in the order of the source. *)
Definition make_candle_record (product_id : string) (candle : json)
  : result candle_record :=
  (c0 <- getitem candle 0 ;;
   close_timestamp <- Timestamp.fromtimestamp c0 ;;
   c1 <- getitem candle 1 ;;
   c2 <- getitem candle 2 ;;
   c3 <- getitem candle 3 ;;
   c4 <- getitem candle 4 ;;
   c5 <- getitem candle 5 ;;
   ok {| Exchange := "Coinbase";
         Pair := product_id;
         Close_Timestamp := isoformat close_timestamp;
         Low := c1; High := c2; Open_ := c3; Close_ := c4;
         Volume := c5 |})%result.

(* ===================================================================== *)
(** * The outside world *)
(* ===================================================================== *)

(** The body of a response is represented by what [json.loads] makes of
    it: the body is not JSON ([json.loads] raises [JSONDecodeError]), or
    [json.loads] raises something else on it (a [RecursionError] on a body
    nested too deep, a [ValueError] on a number of too many digits), or it
    decodes to a value. *)
Inductive body : Type :=
| NotJSON
| LoadsRaises (e : exc)
| Decodes (data : json).

(** [json.loads(response_body)] under the [try] of line 75: the data;
    nothing, when [JSONDecodeError] was raised, which the [except] clause of
    line 78 catches; or the exception that leaves the [try] statement. *)
Definition json_loads (b : body) : result (option json) :=
  match b with
  | NotJSON => ok None
  | LoadsRaises e => error e
  | Decodes data => ok (Some data)
  end.

(** What happens to one request: [conn.request] or [conn.getresponse]
    raises (a transport failure, or a signal delivered while the call
    blocks); or a response arrives and [response.read().decode()] raises
    (the connection breaks, the bytes are not UTF-8, a signal); or a
    response arrives and its body is read.  These calls and the write of
    the file are the places where the embedding lets an exception arrive
    from outside. *)
Inductive exchange : Type :=
| SendRaises (e : exc)
| ReadRaises (status : Z) (reason : string) (e : exc)
| Response (status : Z) (reason : string) (response_body : body).

(** One run's inputs from outside: the local wall clock read by
    [generate_unique_csv_filename], the UTC clock read at line 30 (both in
    microseconds since the epoch, which no clock precedes), and what the
    exchange does with the i-th request of the run. *)
Record world : Type := mk_world {
  local_now : N;
  utc_now : N;
  server : nat -> exchange
}.

(** ** The path of a request *)

(** [c in s] *)
Fixpoint contains (c : ascii) (s : string) : bool :=
  match s with
  | EmptyString => false
  | String x rest => (x =? c)%char || contains c rest
  end.

(** [s.split(c, 1)[0]]: what stands before the first [c]. *)
Fixpoint before (c : ascii) (s : string) : string :=
  match s with
  | EmptyString => EmptyString
  | String x rest =>
      if (x =? c)%char then EmptyString else String x (before c rest)
  end.

(** [urlsplit] first takes the tabs, carriage returns and line feeds out
    of the URL. *)
Definition unsafe_url_byte (c : ascii) : bool :=
  (c =? "009")%char || (c =? "013")%char || (c =? "010")%char.

Fixpoint remove_unsafe (s : string) : string :=
  match s with
  | EmptyString => EmptyString
  | String x rest =>
      if unsafe_url_byte x then remove_unsafe rest
      else String x (remove_unsafe rest)
  end.

(** [_splitparams(url)[0]] for a [url] that holds a slash: the URL up to
    the first semicolon that follows its last slash, all of it when there is
    none. *)
Fixpoint before_params (url : string) : string :=
  match url with
  | EmptyString => EmptyString
  | String x rest =>
      if contains "/" rest then String x (before_params rest)
      else if (x =? ";")%char then EmptyString
      else String x (before_params rest)
  end.

(** [urlparse(base_url).path] for the [base_url] of line 24,
    [f"https://api.exchange.coinbase.com/products/{product_id}/candles"].
    The scheme and the host are written out in the source and hold none of
    the characters [urlparse] looks for: it takes them off as they are, and
    the host is [api.exchange.coinbase.com] whatever the product.  What
    follows the host is cut at the first [#], then at the first [?], and
    parameters are split off its last segment. *)
Definition url_path (product_id : string) : string :=
  before_params
    (before "?"
       (before "#"
          (remove_unsafe ("/products/" ++ product_id ++ "/candles")))).

(** A request: the GET on the path of the base URL, whose query carries
    [start], [end] (sent in [isoformat]) and [granularity]. *)
Record request : Type := mk_request {
  req_path : string;
  req_start : datetime;
  req_end : datetime;
  req_granularity : Z
}.

(** ** Logging *)

Inductive level : Type := DEBUG | INFO | ERROR.

(** One constructor per logging call of the source, with the values its
    f-string interpolates. *)
Inductive message : Type :=
| InvalidGranularity (granularity : Z)                       (* line 20 *)
| CsvFileWillBeSavedAs (csv_filename : string)               (* line 27 *)
| StartingDataFetch (end_time : datetime)                    (* line 31 *)
| FetchingCandles (start_time end_time : datetime)           (* line 36 *)
| BuiltURL (r : request)                                     (* line 48 *)
| RequestHeaders                                             (* line 57 *)
| SendingRequest (r : request)                               (* line 60 *)
| ReceivedResponse (status : Z) (reason : string)            (* line 63 *)
| FailedToSendRequest (e : exc)                              (* line 65 *)
| ResponseBody (b : body)                                    (* line 70 *)
| ReceivedData (data : json)                                 (* line 77 *)
| ErrorDecodingJSON                                          (* line 79 *)
| NoDataAvailable                                            (* line 83 *)
| FetchedCandles (count : nat) (end_time : datetime)         (* line 100 *)
| MovingToPreviousDay (end_time : datetime)                  (* line 104 *)
| ReachedStoppingDate                                        (* line 108 *)
| ErrorFetchingData (e : exc)                                (* line 112 *)
| KeyboardInterruptDetected                                  (* line 115 *)
| WritingRecords (count : nat)                               (* line 120 *)
| SuccessfullyWrote (count : nat) (csv_filename : string)    (* line 126 *)
| NoDataToWrite                                              (* line 128 *)
| StartingProcess                                            (* line 133 *)
| UnexpectedError (e : exc).                                 (* line 136 *)

(** ** Files *)

Record csv_file : Type := mk_csv_file {
  file_name : string;
  fieldnames : list string;
  rows : list candle_record
}.

(** What [open(csv_filename, 'w')] and the [csv] writer do with a file of
    a given name, columns and rows (lines 121-125): they write it, or one of
    the calls raises ([open] an [OSError], [writerows] a
    [UnicodeEncodeError] on a value of the exchange that cannot be encoded,
    a signal arrives) and leaves behind what it leaves: nothing when the
    file could not be opened, the rows written until then otherwise. *)
Inductive write_outcome : Type :=
| Written
| WriteRaises (e : exc) (left_behind : list csv_file).

Definition disk : Type :=
  string -> list string -> list candle_record -> write_outcome.

(** A disk on which every file can be written. *)
Definition writable : disk := fun _ _ _ => Written.

(** ** State *)

(** The script's effects so far, oldest first, and its accumulation list. *)
Record state : Type := mk_state {
  log : list (level * message);
  requests : list request;
  files : list csv_file;
  candle_data : list candle_record
}.

Definition initial_state : state :=
  {| log := []; requests := []; files := []; candle_data := [] |}.

(* ===================================================================== *)
(** * Statements: state and exceptions *)
(* ===================================================================== *)

(** A statement runs from a state and either completes with a value or
    raises; the state it leaves is kept in both cases. *)
Definition stmt (A : Type) : Type := state -> result A * state.

Definition ret {A} (a : A) : stmt A := fun st => (inr a, st).

Definition raise {A} (e : exc) : stmt A := fun st => (inl e, st).

Definition bind {A B} (m : stmt A) (k : A -> stmt B) : stmt B :=
  fun st =>
    match m st with
    | (inl e, st') => (inl e, st')
    | (inr a, st') => k a st'
    end.

(** A pure step that may raise. *)
Definition lift {A} (r : result A) : stmt A := fun st => (r, st).

Declare Scope stmt_scope.
Delimit Scope stmt_scope with stmt.
Notation "x <- m ;; k" := (bind m (fun x => k))
  (at level 61, m at next level, right associativity) : stmt_scope.
Notation "m ;; k" := (bind m (fun _ => k))
  (at level 61, right associativity) : stmt_scope.

(** [try: body  except Exception: ...  except KeyboardInterrupt: ...]
    with the two handlers of the source; an exception of neither class
    keeps travelling. *)
Definition try_except (body : stmt unit)
    (on_Exception : exc -> stmt unit) (on_KeyboardInterrupt : stmt unit)
  : stmt unit :=
  fun st =>
    match body st with
    | (inr tt, st') => (inr tt, st')
    | (inl e, st') =>
        if isinstance_Exception e then on_Exception e st'
        else if isinstance_KeyboardInterrupt e then on_KeyboardInterrupt st'
        else (inl e, st')
    end.

(** [try: body  finally: cleanup]: the cleanup runs on every way out of
    the body; the body's outcome stands unless the cleanup raises. *)
Definition try_finally (body : stmt unit) (cleanup : stmt unit) : stmt unit :=
  fun st =>
    match body st with
    | (r, st') =>
        match cleanup st' with
        | (inr tt, st'') => (r, st'')
        | (inl e, st'') => (inl e, st'')
        end
    end.

(** ** Primitive effects *)

Definition logging (l : level) (m : message) : stmt unit :=
  fun st =>
    (inr tt,
     {| log := log st ++ [(l, m)]; requests := requests st;
        files := files st; candle_data := candle_data st |}).

Definition logging_debug := logging DEBUG.
Definition logging_info := logging INFO.
Definition logging_error := logging ERROR.

(** [candle_data = []] *)
Definition candle_data_new : stmt unit :=
  fun st =>
    (inr tt,
     {| log := log st; requests := requests st;
        files := files st; candle_data := [] |}).

(** [candle_data.append(candle_record)] *)
Definition candle_data_append (r : candle_record) : stmt unit :=
  fun st =>
    (inr tt,
     {| log := log st; requests := requests st;
        files := files st; candle_data := candle_data st ++ [r] |}).

(** [len(candle_data)] and the list itself, for the [finally] block. *)
Definition candle_data_get : stmt (list candle_record) :=
  fun st => (inr (candle_data st), st).

(** [conn.request("GET", ...); conn.getresponse()]: the request goes on
    record as the i-th of the run, and the world answers it. *)
Definition send (w : world) (r : request) : stmt exchange :=
  fun st =>
    (inr (server w (List.length (requests st))),
     {| log := log st; requests := requests st ++ [r];
        files := files st; candle_data := candle_data st |}).

(** [with open(csv_filename, 'w') as file: DictWriter(...); writeheader();
    writerows(candle_data)], on a given disk: the file is written, or the
    exception of the call that failed leaves the [with] statement. *)
Definition write_csv_on (d : disk) (name : string) (columns : list string)
    (data : list candle_record) : stmt unit :=
  fun st =>
    match d name columns data with
    | Written =>
        (inr tt,
         {| log := log st; requests := requests st;
            files := files st
                     ++ [{| file_name := name; fieldnames := columns;
                            rows := data |}];
            candle_data := candle_data st |})
    | WriteRaises e left_behind =>
        (inl e,
         {| log := log st; requests := requests st;
            files := files st ++ left_behind;
            candle_data := candle_data st |})
    end.

(** The same when the file can be written. *)
Definition write_csv
  : string -> list string -> list candle_record -> stmt unit :=
  write_csv_on writable.

(* ===================================================================== *)
(** * The script *)
(* ===================================================================== *)

(** [generate_unique_csv_filename()] *)
Definition generate_unique_csv_filename (w : world) : string :=
  let now := strftime_Ymd_HMS (Z.of_N (local_now w)) in
  ("hourly_candles_" ++ now ++ ".csv")%string.

(** [granularity in [60, 300, 900, 3600, 21600, 86400]] *)
Definition allowed_granularities : list Z := [60; 300; 900; 3600; 21600; 86400].

Definition granularity_allowed (granularity : Z) : bool :=
  existsb (Z.eqb granularity) allowed_granularities.

(** The column order handed to [csv.DictWriter]. *)
Definition csv_fieldnames : list string :=
  ["Exchange"; "Pair"; "Close Timestamp"; "Low"; "High"; "Open"; "Close";
   "Volume"].

(** Lines 87-99: [for candle in data: ... candle_data.append(candle_record)].
    Each record is appended as soon as it is built. *)
Fixpoint for_candle_in (product_id : string) (data : list json) : stmt unit :=
  match data with
  | [] => ret tt
  | candle :: rest =>
      (candle_record <- lift (make_candle_record product_id candle) ;;
       candle_data_append candle_record ;;
       for_candle_in product_id rest)%stmt
  end.

(** How one pass through the body of [while True] ends when it does not
    raise: at the bottom, with the new [end_time], or at a [break]. *)
Inductive control : Type :=
| Continue (end_time : datetime)
| Break.

(** Lines 35-109: the body of [while True]. *)
Definition iteration (w : world) (product_id : string) (granularity : Z)
    (end_time : datetime) : stmt control :=
  let start_time := end_time - timedelta 1 in
  (logging_info (FetchingCandles start_time end_time) ;;
   let r := {| req_path := url_path product_id;
               req_start := start_time;
               req_end := end_time;
               req_granularity := granularity |} in
   logging_debug (BuiltURL r) ;;
   logging_debug RequestHeaders ;;
   logging_debug (SendingRequest r) ;;
   answer <- send w r ;;
   match answer with
   | SendRaises e =>
       (* except Exception as e: ... break *)
       if isinstance_Exception e then
         logging_error (FailedToSendRequest e) ;; ret Break
       else raise e
   | ReadRaises status reason e =>
       logging_info (ReceivedResponse status reason) ;;
       raise e
   | Response status reason response_body =>
       logging_info (ReceivedResponse status reason) ;;
       logging_debug (ResponseBody response_body) ;;
       if negb (status =? 200) then raise (Exception_ status reason)
       else
         decoded <- lift (json_loads response_body) ;;
         match decoded with
         | None =>
             (* except json.JSONDecodeError as e: ... break *)
             logging_error ErrorDecodingJSON ;; ret Break
         | Some data =>
             logging_debug (ReceivedData data) ;;
             if negb (truthy data) then
               logging_info NoDataAvailable ;; ret Break
             else
               candles <- lift (iterate data) ;;
               for_candle_in product_id candles ;;
               logging_info (FetchedCandles (List.length candles) end_time) ;;
               let end_time := start_time in
               logging_info (MovingToPreviousDay end_time) ;;
               if end_time <? floor_date then
                 logging_info ReachedStoppingDate ;; ret Break
               else ret (Continue end_time)
         end
   end)%stmt.

(** A pass that reaches the bottom of the body has moved the cursor back
    by exactly one day, to a date that is not before the floor date: the
    cursor's distance to the floor date is what the loop runs down. *)
Lemma iteration_Continue w product_id granularity end_time st end_time' st' :
  iteration w product_id granularity end_time st = (inr (Continue end_time'), st') ->
  end_time' = end_time - timedelta 1 /\ floor_date <= end_time'.
Proof.
  unfold iteration, bind, logging_info, logging_debug, logging_error, logging,
    send, raise, ret, lift; cbn.
  destruct (server w _) as [e | status reason e | status reason b].
  - destruct (isinstance_Exception e); cbn; discriminate.
  - cbn. discriminate.
  - cbn. destruct (negb (status =? 200)); cbn; [discriminate |].
    destruct (json_loads b) as [e | [data |]]; cbn;
      [discriminate | | discriminate].
    destruct (negb (truthy data)); cbn; [discriminate |].
    destruct (iterate data) as [e | candles]; cbn; [discriminate |].
    destruct (for_candle_in product_id candles _) as [[e | []] st1]; cbn;
      [discriminate |].
    destruct (_ <? floor_date) eqn:Hfloor; cbn;
      [discriminate |].
    intros H; injection H as <- _.
    apply Z.ltb_ge in Hfloor. split; [reflexivity | exact Hfloor].
Qed.

Definition inspect {A} (a : A) : {b : A | a = b} := exist _ a eq_refl.

(** Lines 34-109: [while True: <body>].  The loop has no condition of its
    own; it ends at a [break] or at an exception. *)
Equations? fetch_loop (w : world) (product_id : string) (granularity : Z)
    (end_time : datetime) (st : state) : result unit * state
    by wf (Z.to_nat ((end_time - floor_date) / us_per_day + 1)) lt :=
  fetch_loop w product_id granularity end_time st
    with inspect (iteration w product_id granularity end_time st) := {
    | exist _ (inl e, st') _ => (inl e, st')
    | exist _ (inr Break, st') _ => (inr tt, st')
    | exist _ (inr (Continue end_time'), st') H =>
        fetch_loop w product_id granularity end_time' st' }.
Proof.
  apply iteration_Continue in H. destruct H as [-> Hfloor].
  unfold timedelta in *.
  assert (Hday : 0 < us_per_day) by reflexivity.
  replace (end_time - floor_date)
    with (end_time - 1 * us_per_day - floor_date + 1 * us_per_day) by ring.
  rewrite Z.div_add by lia.
  assert (0 <= (end_time - 1 * us_per_day - floor_date) / us_per_day)
    by (apply Z.div_pos; lia).
  lia.
Qed.

(** Lines 119-128: the [finally] block. *)
Definition finalization_on (d : disk) (csv_filename : string) : stmt unit :=
  (data <- candle_data_get ;;
   match data with
   | _ :: _ =>
       logging_info (WritingRecords (List.length data)) ;;
       write_csv_on d csv_filename csv_fieldnames data ;;
       logging_info (SuccessfullyWrote (List.length data) csv_filename)
   | [] => logging_info NoDataToWrite
   end)%stmt.

(** [fetch_and_store_candles(product_id, granularity)], on a given disk. *)
Definition fetch_and_store_candles_on (d : disk) (w : world)
    (product_id : string) (granularity : Z) : stmt unit :=
  if negb (granularity_allowed granularity) then
    (logging_error (InvalidGranularity granularity) ;;
     raise (ValueError_granularity granularity))%stmt
  else
    (candle_data_new ;;
     let csv_filename := generate_unique_csv_filename w in
     logging_info (CsvFileWillBeSavedAs csv_filename) ;;
     let end_time := replace_midnight (Z.of_N (utc_now w)) in
     logging_info (StartingDataFetch end_time) ;;
     try_finally
       (try_except
          (fetch_loop w product_id granularity end_time)
          (fun e => logging_error (ErrorFetchingData e))
          (logging_info KeyboardInterruptDetected))
       (finalization_on d csv_filename))%stmt.

(** The [finally] block and the function when the file can be written. *)
Definition finalization : string -> stmt unit := finalization_on writable.

Definition fetch_and_store_candles : world -> string -> Z -> stmt unit :=
  fetch_and_store_candles_on writable.

(** The script's entry point (lines 131-136), on a given disk; and when
    the file can be written. *)
Definition main_on (d : disk) (w : world) : stmt unit :=
  fun st =>
    match (logging_info StartingProcess ;;
           fetch_and_store_candles_on d w "BTC-USD" 3600)%stmt st with
    | (inr tt, st') => (inr tt, st')
    | (inl e, st') =>
        if isinstance_Exception e then logging_error (UnexpectedError e) st'
        else (inl e, st')
    end.

Definition main : world -> stmt unit := main_on writable.

(** One run of the function, from nothing, on a given disk; and when the
    file can be written. *)
Definition run_on (d : disk) (w : world) (product_id : string)
    (granularity : Z) : result unit * state :=
  fetch_and_store_candles_on d w product_id granularity initial_state.

Definition run (w : world) (product_id : string) (granularity : Z)
  : result unit * state :=
  fetch_and_store_candles w product_id granularity initial_state.

(* ===================================================================== *)
(** * Observations on a run *)
(* ===================================================================== *)

(** The window requested when the cursor stands at [end_time]. *)
Definition window (product_id : string) (granularity : Z)
    (end_time : datetime) : request :=
  {| req_path := url_path product_id;
     req_start := end_time - timedelta 1;
     req_end := end_time;
     req_granularity := granularity |}.

(** The windows of [n] consecutive passes, the first with the cursor at
    [end_time]. *)
Definition windows (product_id : string) (granularity : Z)
    (end_time : datetime) (n : nat) : list request :=
  map (fun i => window product_id granularity (end_time - timedelta (Z.of_nat i)))
      (seq 0 n).

(** The two log lines only the [finally] block writes as it starts. *)
Definition opens_finalization (entry : level * message) : bool :=
  match snd entry with
  | WritingRecords _ | NoDataToWrite => true
  | _ => false
  end.

(** How many times the run entered the [finally] block. *)
Definition finalizations (l : list (level * message)) : nat :=
  List.length (filter opens_finalization l).

(** The cursor and the state with which a run enters [while True]. *)
Definition loop_entry (w : world) : datetime * state :=
  (replace_midnight (Z.of_N (utc_now w)),
   {| log := [(INFO, CsvFileWillBeSavedAs (generate_unique_csv_filename w));
              (INFO, StartingDataFetch (replace_midnight (Z.of_N (utc_now w))))];
      requests := []; files := []; candle_data := [] |}).

(** The cursor and the state at the top of pass [k] of the loop started
    with [end_time] and [st], when the loop gets that far. *)
Fixpoint pass (w : world) (product_id : string) (granularity : Z) (k : nat)
    (end_time : datetime) (st : state) : option (datetime * state) :=
  match k with
  | O => Some (end_time, st)
  | S k' =>
      match iteration w product_id granularity end_time st with
      | (inr (Continue end_time'), st') =>
          pass w product_id granularity k' end_time' st'
      | _ => None
      end
  end.

(** The top of pass [k] (counted from 0) in a run. *)
Definition pass_of_run (w : world) (product_id : string) (granularity : Z)
    (k : nat) : option (datetime * state) :=
  pass w product_id granularity k (fst (loop_entry w)) (snd (loop_entry w)).

(** What the [finally] block adds to the log and to the files when the
    accumulation list is [data]. *)
Definition finalization_log (csv_filename : string)
    (data : list candle_record) : list (level * message) :=
  match data with
  | [] => [(INFO, NoDataToWrite)]
  | _ :: _ =>
      [(INFO, WritingRecords (List.length data));
       (INFO, SuccessfullyWrote (List.length data) csv_filename)]
  end.

Definition finalization_files (csv_filename : string)
    (data : list candle_record) : list csv_file :=
  match data with
  | [] => []
  | _ :: _ =>
      [{| file_name := csv_filename; fieldnames := csv_fieldnames;
          rows := data |}]
  end.

(** The four lines every pass logs before it sends its request. *)
Definition announcement (product_id : string) (granularity : Z)
    (end_time : datetime) : list (level * message) :=
  [(INFO, FetchingCandles (end_time - timedelta 1) end_time);
   (DEBUG, BuiltURL (window product_id granularity end_time));
   (DEBUG, RequestHeaders);
   (DEBUG, SendingRequest (window product_id granularity end_time))].

(** A world that answers from a script, request by request, and fails to
    connect once the script is used up. *)
Definition scripted (local utc : N) (answers : list exchange) : world :=
  {| local_now := local; utc_now := utc;
     server := fun i => nth i answers (SendRaises OSError) |}.

(** What the two [except] clauses make of the way the loop ended: how the
    function goes on, and the line the handler logs. *)
Definition handled (r : result unit) : result unit * list (level * message) :=
  match r with
  | inr tt => (inr tt, [])
  | inl e =>
      if isinstance_Exception e then (inr tt, [(ERROR, ErrorFetchingData e)])
      else if isinstance_KeyboardInterrupt e then
        (inr tt, [(INFO, KeyboardInterruptDetected)])
      else (inl e, [])
  end.

(** Extending a state: more log lines, more requests, more records. *)
Definition extend (st : state) (lines : list (level * message))
    (sent : list request) (records : list candle_record) : state :=
  {| log := log st ++ lines;
     requests := requests st ++ sent;
     files := files st;
     candle_data := candle_data st ++ records |}.

(** The first and the last second a [datetime] can hold:
    0001-01-01T00:00:00Z and 9999-12-31T23:59:59Z. *)
Definition min_timestamp : Z := -62135596800.
Definition max_timestamp : Z := 253402300799.

(** A clock reading used in the examples: 2026-11-03T12:00:00Z. *)
Definition noon_2026_11_03 : N := 1793707200000000.

(** The candle of the specification and its record, for the examples. *)
Definition candle_2021 : json :=
  JArr [JInt 1609459200; JInt 29000; JInt 29500; JInt 29200; JInt 29400;
        JFloat 123.4].

Definition record_2021 : candle_record :=
  {| Exchange := "Coinbase"; Pair := "BTC-USD";
     Close_Timestamp := "2021-01-01T00:00:00+00:00";
     Low := JInt 29000; High := JInt 29500; Open_ := JInt 29200;
     Close_ := JInt 29400; Volume := JFloat 123.4 |}.

(** A run at noon of 2026-11-03 against a given script. *)
Definition run_2026_11_03 (answers : list exchange) : result unit * state :=
  run (scripted noon_2026_11_03 noon_2026_11_03 answers) "BTC-USD" 3600.

(** The answer [a] to a request has [e] arrive from outside: while the
    request is sent, while the body of the response is read, or in
    [json.loads]. *)
Definition lets_in (a : exchange) (e : exc) : Prop :=
  match a with
  | SendRaises x => x = e
  | ReadRaises _ _ x => x = e
  | Response status _ (LoadsRaises x) => status = 200 /\ x = e
  | Response _ _ _ => False
  end.

(** The state [st], had [lines] been in the log before everything it
    holds. *)
Definition after_lines (lines : list (level * message)) (st : state) : state :=
  {| log := lines ++ log st; requests := requests st;
     files := files st; candle_data := candle_data st |}.

(** A statement that does not read the log: run with more lines in front
    of the log, it does the same and leaves those lines in front. *)
Definition log_blind {A} (m : stmt A) : Prop :=
  forall lines st,
    m (after_lines lines st) = (fst (m st), after_lines lines (snd (m st))).

(** ** Reading ISO 8601 *)

(** A reader takes what it reads off the front of a text. *)
Definition reader (A : Type) : Type := string -> option (A * string).

Definition read_ret {A} (a : A) : reader A := fun s => Some (a, s).

Definition read_bind {A B} (m : reader A) (k : A -> reader B) : reader B :=
  fun s =>
    match m s with
    | Some (a, rest) => k a rest
    | None => None
    end.

Declare Scope reader_scope.
Delimit Scope reader_scope with reader.
Notation "x <- m ;; k" := (read_bind m (fun x => k))
  (at level 61, m at next level, right associativity) : reader_scope.
Notation "m ;; k" := (read_bind m (fun _ => k))
  (at level 61, right associativity) : reader_scope.

(** The value of a decimal digit. *)
Definition digit_value (c : ascii) : option Z :=
  let n := Z.of_nat (nat_of_ascii c) in
  if (48 <=? n) && (n <=? 57) then Some (n - 48) else None.

(** The number a string of decimal digits writes, after the digits that
    gave [acc]. *)
Fixpoint decimal (s : string) (acc : Z) : option Z :=
  match s with
  | EmptyString => Some acc
  | String c rest =>
      match digit_value c with
      | Some d => decimal rest (10 * acc + d)
      | None => None
      end
  end.

(** The first [n] characters of a text, and what follows them. *)
Fixpoint split_at (n : nat) (s : string) : option (string * string) :=
  match n, s with
  | O, _ => Some (EmptyString, s)
  | S k, String c rest =>
      match split_at k rest with
      | Some (a, b) => Some (String c a, b)
      | None => None
      end
  | S _, EmptyString => None
  end.

(** A field of exactly [n] decimal digits. *)
Definition digits (n : nat) : reader Z :=
  fun s =>
    match split_at n s with
    | Some (a, rest) =>
        match decimal a 0 with
        | Some v => Some (v, rest)
        | None => None
        end
    | None => None
    end.

(** The character [c]. *)
Definition separator (c : ascii) : reader unit :=
  fun s =>
    match s with
    | String x rest => if (x =? c)%char then Some (tt, rest) else None
    | EmptyString => None
    end.

(** An optional fraction of a second, in microseconds: a point and six
    digits. *)
Definition fraction : reader Z :=
  fun s =>
    match separator "." s with
    | Some (_, rest) => digits 6 rest
    | None => Some (0, s)
    end.

(** The days of a month of the Gregorian calendar. *)
Definition days_in_month (year month : Z) : Z :=
  Calendar.days_in_month_common month
  + (if (month =? 2) && Calendar.is_leap year then 1 else 0).

(** What a text [YYYY-MM-DDThh:mm:ss+00:00], with or without a fraction
    [.ffffff] after the seconds, denotes in ISO 8601: the instant of that
    date of the Gregorian calendar and that time of day, in UTC; no other
    text is accepted.  The text is read field by field, whatever wrote
    it. *)
Definition iso8601_utc (text : string) : option datetime :=
  match (year <- digits 4 ;; separator "-" ;;
         month <- digits 2 ;; separator "-" ;;
         day <- digits 2 ;; separator "T" ;;
         hour <- digits 2 ;; separator ":" ;;
         minute <- digits 2 ;; separator ":" ;;
         second <- digits 2 ;;
         microsecond <- fraction ;;
         read_ret (year, month, day, hour, minute, second, microsecond))%reader
          text with
  | Some ((year, month, day, hour, minute, second, microsecond), offset) =>
      if (offset =? "+00:00")%string
         && (1 <=? year)
         && (1 <=? month) && (month <=? 12)
         && (1 <=? day) && (day <=? days_in_month year month)
         && (hour <=? 23) && (minute <=? 59) && (second <=? 59)
      then Some (datetime_utc year month day
                 + ((hour * 60 + minute) * 60 + second) * us_per_second
                 + microsecond)
      else None
  | None => None
  end.

(* ===================================================================== *)
(** * Basic facts *)
(* ===================================================================== *)

(** ** The calendar *)

Module CalendarFacts.
Import Calendar.

Ltac tables :=
  repeat match goal with
         | |- context [days_before_month_common ?k] =>
             let v := eval vm_compute in (days_before_month_common k) in
             change (days_before_month_common k) with v
         | |- context [days_in_month_common ?k] =>
             let v := eval vm_compute in (days_in_month_common k) in
             change (days_in_month_common k) with v
         end.

Ltac tests :=
  repeat match goal with
         | |- context [?a =? ?b] => destruct (Z.eqb_spec a b)
         | |- context [?a <? ?b] => destruct (Z.ltb_spec a b)
         end.

(** The day [n] (from 0) of a year, leap or not, as a month and a day:
    lines "month = (n + 50) >> 5" to the end of [_ord2ymd]. *)
Lemma month_and_day (leap : bool) (n : Z) :
  0 <= n < 365 ->
  let month := Z.shiftr (n + 50) 5 in
  let preceding :=
    days_before_month_common month + (if (2 <? month) && leap then 1 else 0) in
  let '(m, d) :=
    if n <? preceding then
      (month - 1,
       n - (preceding
            - (days_in_month_common (month - 1)
               + (if (month - 1 =? 2) && leap then 1 else 0))) + 1)
    else (month, n - preceding + 1) in
  days_before_month_common m + (if (2 <? m) && leap then 1 else 0) + d = n + 1
  /\ 1 <= m <= 12
  /\ 1 <= d <= days_in_month_common m + (if (m =? 2) && leap then 1 else 0).
Proof.
  intros Hn. cbv zeta. rewrite Z.shiftr_div_pow2 by lia.
  change (2 ^ 5) with 32.
  remember ((n + 50) / 32) as month eqn:Hmonth.
  assert (Hm : month = 1 \/ month = 2 \/ month = 3 \/ month = 4 \/ month = 5
               \/ month = 6 \/ month = 7 \/ month = 8 \/ month = 9
               \/ month = 10 \/ month = 11 \/ month = 12)
    by (subst month; Z.div_mod_to_equations; lia).
  assert (Hrange : 32 * month - 50 <= n < 32 * month - 18)
    by (subst month; Z.div_mod_to_equations; lia).
  clear Hmonth.
  repeat (destruct Hm as [Hm | Hm]); subst month; destruct leap;
    cbn [andb Z.ltb Z.eqb Z.compare Z.sub Z.add Z.opp Z.pos_sub Pos.compare
         Pos.compare_cont Pos.pred_double Z.succ_double Z.pred_double
         Z.double Pos.add Pos.succ];
    tables;
    match goal with
    | |- context [n <? ?p] => destruct (Z.ltb_spec n p)
    end; tables;
    cbn [andb Z.eqb Pos.eqb Z.ltb Z.compare Pos.compare Pos.compare_cont];
    lia.
Qed.

(** [ord2ymd] finds the date whose ordinal it was given: [ymd2ord] puts the
    date back on the ordinal, and the month and the day are a month of the
    year and a day of that month. *)
Lemma ymd2ord_ord2ymd ordinal :
  let '(y, m, d) := ord2ymd ordinal in
  ymd2ord y m d = ordinal
  /\ 1 <= m <= 12
  /\ 1 <= d <= days_in_month_common m + (if (m =? 2) && is_leap y then 1 else 0).
Proof.
  unfold ord2ymd, DI400Y, DI100Y, DI4Y. cbv zeta.
  remember (ordinal - 1) as n0 eqn:Hn0.
  remember (n0 / 146097) as n400 eqn:Hn400.
  remember (n0 mod 146097) as r400 eqn:Hr400.
  remember (r400 / 36524) as n100 eqn:Hn100.
  remember (r400 mod 36524) as r100 eqn:Hr100.
  remember (r100 / 1461) as n4 eqn:Hn4.
  remember (r100 mod 1461) as r4 eqn:Hr4.
  remember (r4 / 365) as n1 eqn:Hn1.
  remember (r4 mod 365) as n eqn:Hn.
  assert (H400 : n0 = 146097 * n400 + r400 /\ 0 <= r400 < 146097)
    by (subst n400 r400; Z.div_mod_to_equations; lia).
  assert (H100 : r400 = 36524 * n100 + r100 /\ 0 <= r100 < 36524)
    by (subst n100 r100; Z.div_mod_to_equations; lia).
  assert (H4 : r100 = 1461 * n4 + r4 /\ 0 <= r4 < 1461)
    by (subst n4 r4; Z.div_mod_to_equations; lia).
  assert (H1 : r4 = 365 * n1 + n /\ 0 <= n < 365)
    by (subst n1 n; Z.div_mod_to_equations; lia).
  clear Hn400 Hr400 Hn100 Hr100 Hn4 Hr4 Hn1 Hn.
  remember (n400 * 400 + 1 + n100 * 100 + n4 * 4 + n1) as year eqn:Hyear.
  destruct ((n1 =? 4) || (n100 =? 4)) eqn:Hedge.
  - apply orb_true_iff in Hedge. rewrite !Z.eqb_eq in Hedge.
    assert (Hleap : is_leap (year - 1) = true).
    { unfold is_leap. tests; cbn [andb orb negb]; try reflexivity;
        exfalso; Z.div_mod_to_equations; lia. }
    assert (Hdays : days_before_year (year - 1) = ordinal - 366).
    { unfold days_before_year. cbv zeta. Z.div_mod_to_equations. lia. }
    unfold ymd2ord, days_before_month. rewrite Hleap, Hdays.
    vm_compute (days_before_month_common 12).
    vm_compute (days_in_month_common 12). cbn [andb Z.ltb Z.eqb Z.compare
      Pos.compare Pos.compare_cont Pos.eqb]. lia.
  - apply orb_false_iff in Hedge. rewrite !Z.eqb_neq in Hedge.
    assert (Hleap : is_leap year
                    = ((n1 =? 3) && (negb (n4 =? 24) || (n100 =? 3)))).
    { unfold is_leap. tests; cbn [andb orb negb]; try reflexivity;
        exfalso; Z.div_mod_to_equations; lia. }
    assert (Hdays : days_before_year year = ordinal - 1 - n).
    { unfold days_before_year. cbv zeta. Z.div_mod_to_equations. lia. }
    rewrite <- Hleap.
    pose proof (month_and_day (is_leap year) n (proj2 H1)) as Hmd.
    cbv zeta in Hmd.
    destruct (n <? _);
      unfold ymd2ord, days_before_month; rewrite Hdays; lia.
Qed.

End CalendarFacts.

(** The fields [isoformat] prints are those of the instant: the date is the
    day the instant falls on, and the time of day adds up to what is left of
    the instant within that day. *)
Lemma fields_of_sound (t : datetime) :
  let f := fields_of t in
  datetime_utc (f_year f) (f_month f) (f_day f)
  + ((f_hour f * 60 + f_minute f) * 60 + f_second f) * us_per_second
  + f_microsecond f = t
  /\ 1 <= f_month f <= 12 /\ 1 <= f_day f <= 31
  /\ 0 <= f_hour f < 24 /\ 0 <= f_minute f < 60 /\ 0 <= f_second f < 60
  /\ 0 <= f_microsecond f < 1000000.
Proof.
  unfold fields_of, datetime_utc. cbv zeta.
  pose proof (CalendarFacts.ymd2ord_ord2ymd
                (t / us_per_day + Calendar.epoch_ordinal)) as Hdate.
  destruct (Calendar.ord2ymd _) as [[y m] d]. cbn [f_year f_month f_day f_hour
    f_minute f_second f_microsecond].
  destruct Hdate as (Hord & Hm & Hd). rewrite Hord.
  assert (Hday : 1 <= d <= 31).
  { split; [lia |].
    assert (Calendar.days_in_month_common m
            + (if (m =? 2) && Calendar.is_leap y then 1 else 0) <= 31);
      [| lia].
    assert (Hcases : m = 1 \/ m = 2 \/ m = 3 \/ m = 4 \/ m = 5 \/ m = 6
                     \/ m = 7 \/ m = 8 \/ m = 9 \/ m = 10 \/ m = 11
                     \/ m = 12) by lia.
    repeat (destruct Hcases as [Hcases | Hcases]); subst m;
      destruct (Calendar.is_leap y); vm_compute; discriminate. }
  change us_per_day with 86400000000. change us_per_second with 1000000.
  repeat split; try lia; Z.div_mod_to_equations; lia.
Qed.


Arguments timedelta : simpl never.
Arguments url_path : simpl never.
Arguments iteration : simpl never.
Arguments fetch_loop : simpl never.

Ltac unfold_stmt :=
  unfold bind, ret, raise, lift, logging_info, logging_debug, logging_error,
    logging, send, candle_data_append, candle_data_new, candle_data_get,
    write_csv, write_csv_on, writable.

Lemma fetch_loop_eq w product_id granularity end_time st :
  fetch_loop w product_id granularity end_time st =
  match iteration w product_id granularity end_time st with
  | (inl e, st') => (inl e, st')
  | (inr Break, st') => (inr tt, st')
  | (inr (Continue end_time'), st') =>
      fetch_loop w product_id granularity end_time' st'
  end.
Proof.
  funelim (fetch_loop w product_id granularity end_time st);
    try rewrite <- Heqcall;
    match goal with
    | H : iteration _ _ _ _ _ = _ |- _ => rewrite H
    end; reflexivity.
Qed.

(** The loop from the start is the loop from any pass it gets to. *)
Lemma fetch_loop_pass w product_id granularity k :
  forall end_time st end_time' st',
    pass w product_id granularity k end_time st = Some (end_time', st') ->
    fetch_loop w product_id granularity end_time st
    = fetch_loop w product_id granularity end_time' st'.
Proof.
  induction k as [| k IH]; intros end_time st end_time' st' H; cbn in H.
  - injection H as <- <-. reflexivity.
  - rewrite fetch_loop_eq.
    destruct (iteration w product_id granularity end_time st)
      as [[e | [e1 |]] st1]; try discriminate.
    apply IH; exact H.
Qed.

(** ** The inner loop over the candles of one response *)

Lemma for_candle_in_frame product_id data :
  forall st,
    let st' := snd (for_candle_in product_id data st) in
    log st' = log st /\ requests st' = requests st /\ files st' = files st
    /\ exists added, candle_data st' = candle_data st ++ added.
Proof.
  induction data as [| candle rest IH]; intros st; cbn.
  - repeat split; try reflexivity. exists []. symmetry; apply app_nil_r.
  - unfold_stmt.
    destruct (make_candle_record product_id candle) as [e | r]; cbn.
    + repeat split; try reflexivity. exists []. symmetry; apply app_nil_r.
    + specialize (IH {| log := log st; requests := requests st;
                        files := files st;
                        candle_data := candle_data st ++ [r] |}).
      cbn in IH. destruct IH as (Hl & Hr & Hf & added & Hc).
      repeat split; try assumption.
      exists (r :: added). rewrite Hc, <- app_assoc. reflexivity.
Qed.

(** Every candle yields its record: all of them are appended, in order. *)
Lemma for_candle_in_all product_id data records :
  Forall2 (fun c r => make_candle_record product_id c = inr r) data records ->
  forall st,
    for_candle_in product_id data st
    = (inr tt, {| log := log st; requests := requests st; files := files st;
                  candle_data := candle_data st ++ records |}).
Proof.
  induction 1 as [| c r data records Hc _ IH]; intros st; cbn.
  - unfold ret. rewrite app_nil_r. destruct st; reflexivity.
  - unfold_stmt. rewrite Hc. rewrite IH. cbn.
    rewrite <- app_assoc. reflexivity.
Qed.

(** A candle fails after some that succeeded: the exception leaves the
    loop, and the records built before it stay in the list. *)
Lemma for_candle_in_raises product_id good records bad e rest :
  Forall2 (fun c r => make_candle_record product_id c = inr r) good records ->
  make_candle_record product_id bad = inl e ->
  forall st,
    for_candle_in product_id (good ++ bad :: rest) st
    = (inl e, {| log := log st; requests := requests st; files := files st;
                 candle_data := candle_data st ++ records |}).
Proof.
  intros Hgood Hbad.
  induction Hgood as [| c r good records Hc _ IH]; intros st; cbn.
  - unfold_stmt. rewrite Hbad. rewrite app_nil_r. destruct st; reflexivity.
  - unfold_stmt. rewrite Hc.
    change (for_candle_in product_id (good ++ bad :: rest)
              {| log := log st; requests := requests st; files := files st;
                 candle_data := candle_data st ++ [r] |}
            = (inl e, {| log := log st; requests := requests st;
                         files := files st;
                         candle_data := candle_data st ++ r :: records |})).
    rewrite IH. cbn. rewrite <- app_assoc. reflexivity.
Qed.

(** ** One pass of the loop *)

Arguments finalizations : simpl never.

Lemma finalizations_app l l' :
  finalizations (l ++ l') = (finalizations l + finalizations l')%nat.
Proof.
  unfold finalizations. rewrite filter_app, length_app. reflexivity.
Qed.

Ltac count_finalizations :=
  repeat rewrite finalizations_app; unfold finalizations; cbn; lia.

(** Whatever the world answers, a pass sends exactly one request, the one
    for its window, writes no file, does not enter the [finally] block and
    only appends to the accumulation list. *)
Lemma iteration_frame w product_id granularity end_time st :
  let st' := snd (iteration w product_id granularity end_time st) in
  requests st' = requests st ++ [window product_id granularity end_time]
  /\ files st' = files st
  /\ finalizations (log st') = finalizations (log st)
  /\ exists added, candle_data st' = candle_data st ++ added.
Proof.
  assert (Hnil : forall l : list candle_record, exists added, l = l ++ added)
    by (intros l; exists []; symmetry; apply app_nil_r).
  unfold iteration. unfold_stmt. cbn.
  destruct (server w _) as [e | status reason e | status reason b]; cbn.
  - destruct (isinstance_Exception e); cbn;
      repeat split; auto; count_finalizations.
  - repeat split; auto; count_finalizations.
  - destruct (negb (status =? 200)); cbn;
      [repeat split; auto; count_finalizations |].
    destruct (json_loads b) as [e | [data |]]; cbn;
      [repeat split; auto; count_finalizations
      | | repeat split; auto; count_finalizations].
    destruct (negb (truthy data)); cbn;
      [repeat split; auto; count_finalizations |].
    destruct (iterate data) as [e | candles]; cbn;
      [repeat split; auto; count_finalizations |].
    match goal with
    | |- context [for_candle_in product_id candles ?s] =>
        pose proof (for_candle_in_frame product_id candles s) as Hframe;
        destruct (for_candle_in product_id candles s) as [[e | []] st1]
    end; cbn in Hframe; destruct Hframe as (Hl & Hr & Hf & added & Hc); cbn.
    + rewrite Hl, Hr, Hf, Hc. repeat split; eauto; count_finalizations.
    + destruct (_ <? floor_date); cbn; rewrite ?Hl, Hr, Hf, Hc;
        repeat split; eauto; count_finalizations.
Qed.

Ltac state_eq :=
  unfold extend, announcement, window; cbn [log requests files candle_data];
  repeat rewrite <- app_assoc; rewrite ?app_nil_r; reflexivity.

Arguments truthy : simpl never.
Arguments make_candle_record : simpl never.

Section OnePass.

Variables (w : world) (product_id : string) (granularity : Z).
Variables (end_time : datetime) (st : state).

Let answer := server w (List.length (requests st)).
Let announced := announcement product_id granularity end_time.
Let asked := [window product_id granularity end_time].

(** A signal (anything that is not an [Exception]) raised while the
    request is sent leaves the loop as it is. *)
Lemma iteration_signal e :
  answer = SendRaises e -> isinstance_Exception e = false ->
  iteration w product_id granularity end_time st
  = (inl e, extend st announced asked []).
Proof.
  unfold answer, iteration. unfold_stmt. cbn. intros -> ->.
  f_equal. state_eq.
Qed.

(** An [Exception] raised while the request is sent is logged and the
    loop is left by [break]. *)
Lemma iteration_send_failed e :
  answer = SendRaises e -> isinstance_Exception e = true ->
  iteration w product_id granularity end_time st
  = (inr Break,
     extend st (announced ++ [(ERROR, FailedToSendRequest e)]) asked []).
Proof.
  unfold answer, iteration. unfold_stmt. cbn. intros -> ->. cbn.
  f_equal. state_eq.
Qed.

(** A status that is not 200 raises [Exception] out of the loop. *)
Lemma iteration_bad_status status reason b :
  answer = Response status reason b -> status <> 200 ->
  iteration w product_id granularity end_time st
  = (inl (Exception_ status reason),
     extend st (announced ++ [(INFO, ReceivedResponse status reason);
                              (DEBUG, ResponseBody b)]) asked []).
Proof.
  unfold answer, iteration. unfold_stmt. cbn. intros -> Hstatus. cbn.
  apply Z.eqb_neq in Hstatus. rewrite Hstatus. cbn.
  f_equal. state_eq.
Qed.

(** A body that is not JSON is logged and the loop is left by [break]. *)
Lemma iteration_not_json reason :
  answer = Response 200 reason NotJSON ->
  iteration w product_id granularity end_time st
  = (inr Break,
     extend st (announced ++ [(INFO, ReceivedResponse 200 reason);
                              (DEBUG, ResponseBody NotJSON);
                              (ERROR, ErrorDecodingJSON)]) asked []).
Proof.
  unfold answer, iteration. unfold_stmt. cbn. intros ->. cbn.
  f_equal. state_eq.
Qed.

(** Decoded data that is false in a boolean context ends the loop. *)
Lemma iteration_no_data reason data :
  answer = Response 200 reason (Decodes data) -> truthy data = false ->
  iteration w product_id granularity end_time st
  = (inr Break,
     extend st (announced ++ [(INFO, ReceivedResponse 200 reason);
                              (DEBUG, ResponseBody (Decodes data));
                              (DEBUG, ReceivedData data);
                              (INFO, NoDataAvailable)]) asked []).
Proof.
  unfold answer, iteration. unfold_stmt. cbn. intros -> Hfalse. cbn.
  rewrite Hfalse. cbn. f_equal. state_eq.
Qed.

(** A non-empty array whose candles all yield records: the records are
    appended in order, the cursor moves back one day, and the loop goes
    on unless the cursor is now before the floor date. *)
Lemma iteration_candles reason candles records :
  answer = Response 200 reason (Decodes (JArr candles)) ->
  candles <> [] ->
  Forall2 (fun c r => make_candle_record product_id c = inr r)
    candles records ->
  iteration w product_id granularity end_time st
  = let lines :=
      announced
      ++ [(INFO, ReceivedResponse 200 reason);
          (DEBUG, ResponseBody (Decodes (JArr candles)));
          (DEBUG, ReceivedData (JArr candles));
          (INFO, FetchedCandles (List.length candles) end_time);
          (INFO, MovingToPreviousDay (end_time - timedelta 1))] in
    if end_time - timedelta 1 <? floor_date then
      (inr Break,
       extend st (lines ++ [(INFO, ReachedStoppingDate)]) asked records)
    else
      (inr (Continue (end_time - timedelta 1)),
       extend st lines asked records).
Proof.
  unfold answer, iteration. unfold_stmt. cbn. intros -> Hne Hall. cbn.
  assert (Htruthy : truthy (JArr candles) = true)
    by (destruct candles; [contradiction | reflexivity]).
  rewrite Htruthy. cbn.
  rewrite (for_candle_in_all _ _ _ Hall). cbn.
  destruct (_ <? floor_date); cbn; f_equal; state_eq.
Qed.

(** A candle of the array fails after some that yielded records: the
    exception leaves the loop, the earlier records are in the list. *)
Lemma iteration_candle_raises reason good bad rest records e :
  answer = Response 200 reason (Decodes (JArr (good ++ bad :: rest))) ->
  Forall2 (fun c r => make_candle_record product_id c = inr r)
    good records ->
  make_candle_record product_id bad = inl e ->
  iteration w product_id granularity end_time st
  = (inl e,
     extend st
       (announced
        ++ [(INFO, ReceivedResponse 200 reason);
            (DEBUG, ResponseBody (Decodes (JArr (good ++ bad :: rest))));
            (DEBUG, ReceivedData (JArr (good ++ bad :: rest)))])
       asked records).
Proof.
  unfold answer, iteration. unfold_stmt. cbn. intros -> Hgood Hbad. cbn.
  assert (Htruthy : truthy (JArr (good ++ bad :: rest)) = true)
    by (destruct good; reflexivity).
  rewrite Htruthy. cbn.
  rewrite (for_candle_in_raises _ _ _ _ _ _ Hgood Hbad). cbn.
  f_equal. state_eq.
Qed.

End OnePass.

(** ** Windows *)

Lemma timedelta_0 : timedelta (Z.of_nat 0) = 0.
Proof. reflexivity. Qed.

Lemma timedelta_succ (i : nat) :
  timedelta (Z.of_nat (S i)) = timedelta 1 + timedelta (Z.of_nat i).
Proof. unfold timedelta. lia. Qed.

Lemma timedelta_1_pos : 0 < timedelta 1.
Proof. reflexivity. Qed.

Lemma timedelta_mono (i j : nat) :
  (i < j)%nat -> timedelta (Z.of_nat i) < timedelta (Z.of_nat j).
Proof.
  intros H. unfold timedelta.
  apply Z.mul_lt_mono_pos_r; [reflexivity | lia].
Qed.

Lemma windows_S product_id granularity end_time n :
  windows product_id granularity end_time (S n)
  = window product_id granularity end_time
    :: windows product_id granularity (end_time - timedelta 1) n.
Proof.
  unfold windows. cbn [seq map]. rewrite timedelta_0, Z.sub_0_r. f_equal.
  rewrite <- seq_shift, map_map. apply map_ext. intros i.
  rewrite timedelta_succ. f_equal. lia.
Qed.

Lemma windows_length product_id granularity end_time n :
  List.length (windows product_id granularity end_time n) = n.
Proof. unfold windows. rewrite length_map, length_seq. reflexivity. Qed.

Lemma windows_nth product_id granularity end_time n i r :
  nth_error (windows product_id granularity end_time n) i = Some r ->
  (i < n)%nat
  /\ r = window product_id granularity (end_time - timedelta (Z.of_nat i)).
Proof.
  intros H.
  assert (Hi : (i < n)%nat).
  { rewrite <- (windows_length product_id granularity end_time n).
    apply nth_error_Some. congruence. }
  split; [exact Hi |].
  unfold windows in H. rewrite nth_error_map in H.
  rewrite nth_error_seq in H.
  destruct (Nat.ltb_spec i n); [| lia].
  cbn in H. injection H as <-. reflexivity.
Qed.

(** ** The loop as a whole *)

(** The state at the top of pass [k]: [k] requests were sent, for the [k]
    consecutive windows behind the start; nothing else was done to the
    outside, and from the second pass on the cursor is not before the floor
    date. *)
Lemma pass_frame w product_id granularity k :
  forall end_time st end_time' st',
    pass w product_id granularity k end_time st = Some (end_time', st') ->
    end_time' = end_time - timedelta (Z.of_nat k)
    /\ requests st' = requests st ++ windows product_id granularity end_time k
    /\ files st' = files st
    /\ finalizations (log st') = finalizations (log st)
    /\ ((1 <= k)%nat -> floor_date <= end_time').
Proof.
  induction k as [| k IH]; intros end_time st end_time' st' H; cbn [pass] in H.
  - injection H as <- <-. rewrite timedelta_0, Z.sub_0_r.
    cbn. rewrite app_nil_r. repeat split; lia.
  - pose proof (iteration_frame w product_id granularity end_time st) as F.
    destruct (iteration w product_id granularity end_time st)
      as [[e | [e1 |]] st1] eqn:Hit; try discriminate.
    cbn in F. destruct F as (Fr & Ff & Fl & _).
    apply iteration_Continue in Hit. destruct Hit as [-> Hfloor].
    apply IH in H. destruct H as (He & Hr & Hf & Hl & Hfl).
    rewrite timedelta_succ, windows_S.
    rewrite Hr, Fr, Hf, Ff, Hl, Fl, <- app_assoc.
    repeat split; try reflexivity; try lia.
    intros _. destruct k as [| k].
    + rewrite He, timedelta_0. lia.
    + apply Hfl. lia.
Qed.

(** Whatever the world does, the loop sends its requests for [n >= 1]
    consecutive windows and then ends; every window after the first ends
    no earlier than the floor date; the loop writes no file and does not
    enter the [finally] block. *)
Lemma fetch_loop_frame w product_id granularity end_time st :
  exists n,
    (1 <= n)%nat
    /\ requests (snd (fetch_loop w product_id granularity end_time st))
       = requests st ++ windows product_id granularity end_time n
    /\ (forall i, (1 <= i < n)%nat ->
                  floor_date <= end_time - timedelta (Z.of_nat i))
    /\ files (snd (fetch_loop w product_id granularity end_time st)) = files st
    /\ finalizations
         (log (snd (fetch_loop w product_id granularity end_time st)))
       = finalizations (log st).
Proof.
  funelim (fetch_loop w product_id granularity end_time st);
    try rewrite <- Heqcall;
    pose proof (iteration_frame w product_id granularity end_time st) as F;
    cbv zeta in F;
    match goal with
    | Hit : iteration _ _ _ _ _ = _ |- _ => rewrite Hit in F
    end;
    cbn [snd] in F; destruct F as (Fr & Ff & Fl & _).
  - exists 1%nat. rewrite windows_S. cbn.
    repeat split; auto; intros; lia.
  - match goal with
    | Hit : iteration _ _ _ _ _ = _ |- _ =>
        destruct (iteration_Continue _ _ _ _ _ _ _ Hit) as [Hcursor Hfloor]
    end.
    rewrite Hcursor in *.
    match goal with
    | IH : exists n, _ |- _ => destruct IH as (n & Hn & Hr & Hfl & Hf & Hl)
    end.
    exists (S n). rewrite windows_S, Hr, Fr, Hf, Ff, Hl, Fl, <- app_assoc.
    repeat split; auto; try lia.
    intros i Hi. destruct i as [| i]; [lia |].
    rewrite timedelta_succ.
    destruct i as [| i].
    + rewrite timedelta_0. lia.
    + specialize (Hfl (S i)). lia.
  - exists 1%nat. rewrite windows_S. cbn.
    repeat split; auto; intros; lia.
Qed.

(** ** The run as a whole *)

Arguments generate_unique_csv_filename : simpl never.
Arguments replace_midnight : simpl never.

Lemma granularity_allowed_spec granularity :
  granularity_allowed granularity = true
  <-> In granularity [60; 300; 900; 3600; 21600; 86400].
Proof.
  unfold granularity_allowed, allowed_granularities.
  rewrite existsb_exists. split.
  - intros (x & Hin & Heq). apply Z.eqb_eq in Heq. subst x. exact Hin.
  - intros Hin. exists granularity. split; [exact Hin | apply Z.eqb_refl].
Qed.

(** A run with a granularity that is not allowed: one error line, the
    [ValueError], and nothing else. *)
Lemma run_refused w product_id granularity :
  granularity_allowed granularity = false ->
  run w product_id granularity
  = (inl (ValueError_granularity granularity),
     {| log := [(ERROR, InvalidGranularity granularity)];
        requests := []; files := []; candle_data := [] |}).
Proof.
  intros H. unfold run, fetch_and_store_candles, fetch_and_store_candles_on.
  rewrite H. reflexivity.
Qed.

(** A run with an allowed granularity: the loop from [loop_entry], then
    the handler that fits the loop's outcome, then the [finally] block. *)
Lemma run_allowed w product_id granularity r st :
  granularity_allowed granularity = true ->
  fetch_loop w product_id granularity
    (fst (loop_entry w)) (snd (loop_entry w)) = (r, st) ->
  run w product_id granularity
  = (fst (handled r),
     {| log := log st ++ snd (handled r)
               ++ finalization_log (generate_unique_csv_filename w)
                    (candle_data st);
        requests := requests st;
        files := files st
                 ++ finalization_files (generate_unique_csv_filename w)
                      (candle_data st);
        candle_data := candle_data st |}).
Proof.
  intros Hg Hloop.
  unfold run, fetch_and_store_candles, fetch_and_store_candles_on.
  rewrite Hg.
  cbn [negb]. unfold_stmt. cbn [initial_state log requests files candle_data app].
  unfold try_finally, try_except.
  change (fetch_loop w product_id granularity _ _)
    with (fetch_loop w product_id granularity
            (fst (loop_entry w)) (snd (loop_entry w))).
  rewrite Hloop.
  unfold handled, finalization, finalization_on, finalization_log,
    finalization_files. unfold_stmt.
  destruct r as [e | []];
    [destruct (isinstance_Exception e);
       [| destruct (isinstance_KeyboardInterrupt e)] |];
    cbn; destruct (candle_data st) eqn:Hdata; cbn; rewrite ?Hdata;
    repeat rewrite <- app_assoc; rewrite ?app_nil_r; reflexivity.
Qed.

(** The state at the top of pass [k] of a run. *)
Lemma pass_of_run_frame w product_id granularity k end_time st :
  pass_of_run w product_id granularity k = Some (end_time, st) ->
  end_time = replace_midnight (Z.of_N (utc_now w)) - timedelta (Z.of_nat k)
  /\ requests st
     = windows product_id granularity
         (replace_midnight (Z.of_N (utc_now w))) k
  /\ List.length (requests st) = k
  /\ files st = []
  /\ finalizations (log st) = 0%nat.
Proof.
  unfold pass_of_run. intros H. apply pass_frame in H.
  cbn [loop_entry fst snd requests files log] in H.
  destruct H as (He & Hr & Hf & Hl & _). cbn [app] in Hr.
  repeat split; try assumption.
  rewrite Hr. apply windows_length.
Qed.

(** A run whose loop gets to pass [k] ends as the loop from there ends. *)
Lemma run_from_pass w product_id granularity k end_time st r st' :
  granularity_allowed granularity = true ->
  pass_of_run w product_id granularity k = Some (end_time, st) ->
  (let (signal, st1) := iteration w product_id granularity end_time st in
   match signal with
   | inl e => (inl e, st1)
   | inr Break => (inr tt, st1)
   | inr (Continue end_time') =>
       fetch_loop w product_id granularity end_time' st1
   end) = (r, st') ->
  run w product_id granularity
  = (fst (handled r),
     {| log := log st' ++ snd (handled r)
               ++ finalization_log (generate_unique_csv_filename w)
                    (candle_data st');
        requests := requests st';
        files := files st'
                 ++ finalization_files (generate_unique_csv_filename w)
                      (candle_data st');
        candle_data := candle_data st' |}).
Proof.
  intros Hg Hpass Hend. apply run_allowed; [exact Hg |].
  rewrite (fetch_loop_pass _ _ _ _ _ _ _ _ Hpass), fetch_loop_eq.
  exact Hend.
Qed.

(** The requests of a run, whatever the world does: the windows of [n]
    consecutive days behind the midnight the run starts from, at least one
    when the granularity is allowed, and every one after the first ending
    no earlier than the floor date. *)
Lemma run_requests w product_id granularity :
  exists n,
    requests (snd (run w product_id granularity))
    = windows product_id granularity
        (replace_midnight (Z.of_N (utc_now w))) n
    /\ (granularity_allowed granularity = true -> (1 <= n)%nat)
    /\ (forall i, (1 <= i < n)%nat ->
          floor_date
          <= replace_midnight (Z.of_N (utc_now w)) - timedelta (Z.of_nat i)).
Proof.
  destruct (granularity_allowed granularity) eqn:Hg.
  - destruct (fetch_loop w product_id granularity
                (fst (loop_entry w)) (snd (loop_entry w)))
      as [r st] eqn:Hloop.
    rewrite (run_allowed _ _ _ _ _ Hg Hloop). cbn [snd requests].
    destruct (fetch_loop_frame w product_id granularity
                (fst (loop_entry w)) (snd (loop_entry w)))
      as (n & Hn & Hr & Hfl & _).
    rewrite Hloop in Hr. cbn in Hr.
    exists n. repeat split; auto.
  - rewrite (run_refused _ _ _ Hg). exists 0%nat. cbn.
    repeat split; try reflexivity; try discriminate. intros; lia.
Qed.

(** A run sends a request beyond its first only for a day that is not
    before the floor date: a script longer than the days between the start
    of the run and the floor date is not used up. *)
Lemma run_requests_floor w product_id granularity i :
  (1 <= i < List.length (requests (snd (run w product_id granularity))))%nat ->
  floor_date
  <= replace_midnight (Z.of_N (utc_now w)) - timedelta (Z.of_nat i).
Proof.
  destruct (run_requests w product_id granularity) as (n & Hr & _ & Hfl).
  rewrite Hr, windows_length. apply Hfl.
Qed.

(** The floor date is a midnight, so a clock that reads no earlier than the
    floor date reads a day whose midnight is no earlier either. *)
Lemma replace_midnight_floor t :
  floor_date <= t -> floor_date <= replace_midnight t.
Proof.
  unfold replace_midnight. intros H.
  assert (Hfloor : floor_date = 16636 * us_per_day) by reflexivity.
  assert (Hday : us_per_day = 86400000000) by reflexivity.
  rewrite Hfloor, Hday in *. Z.div_mod_to_equations. lia.
Qed.

(** How often a run enters the [finally] block, whatever the world does:
    once when the granularity is allowed, never when it is refused. *)
Lemma finalizations_of_run w product_id granularity :
  finalizations (log (snd (run w product_id granularity)))
  = if granularity_allowed granularity then 1%nat else 0%nat.
Proof.
  destruct (granularity_allowed granularity) eqn:Hg.
  - destruct (fetch_loop w product_id granularity
                (fst (loop_entry w)) (snd (loop_entry w)))
      as [r st] eqn:Hloop.
    rewrite (run_allowed _ _ _ _ _ Hg Hloop). cbn [snd log].
    destruct (fetch_loop_frame w product_id granularity
                (fst (loop_entry w)) (snd (loop_entry w)))
      as (_ & _ & _ & _ & _ & Hl).
    rewrite Hloop in Hl. cbn [snd] in Hl.
    rewrite !finalizations_app, Hl.
    assert (Hhandled : finalizations (snd (handled r)) = 0%nat).
    { destruct r as [e | []]; cbn; [| reflexivity].
      destruct (isinstance_Exception e); [reflexivity |].
      destruct (isinstance_KeyboardInterrupt e); reflexivity. }
    rewrite Hhandled.
    destruct (candle_data st); reflexivity.
  - rewrite (run_refused _ _ _ Hg). reflexivity.
Qed.

(** ** Candle records *)

Lemma ord2ymd_year ordinal :
  1 <= ordinal <= 3652059 ->
  1 <= fst (fst (Calendar.ord2ymd ordinal)) <= 9999.
Proof.
  intros Hn.
  unfold Calendar.ord2ymd, Calendar.DI400Y, Calendar.DI100Y, Calendar.DI4Y.
  cbv zeta.
  destruct (_ || _) eqn:Hedge.
  - apply orb_true_iff in Hedge. rewrite !Z.eqb_eq in Hedge.
    cbn [fst]. Z.div_mod_to_equations. lia.
  - apply orb_false_iff in Hedge. rewrite !Z.eqb_neq in Hedge.
    destruct (_ <? _); cbn [fst]; Z.div_mod_to_equations; lia.
Qed.

(** An integer number of seconds that a [datetime] can hold is turned into
    the instant that many seconds after the epoch. *)
Lemma fromtimestamp_int t :
  min_timestamp <= t <= max_timestamp ->
  Timestamp.fromtimestamp (JInt t) = inr (t * us_per_second).
Proof.
  unfold min_timestamp, max_timestamp. intros Ht.
  unfold Timestamp.fromtimestamp, Timestamp.of_int, Timestamp.in_time_t.
  assert (Hin : (- 2 ^ 63 <=? t) && (t <? 2 ^ 63) = true).
  { apply andb_true_iff. split; [apply Z.leb_le | apply Z.ltb_lt];
      change (2 ^ 63) with 9223372036854775808; lia. }
  rewrite Hin. cbn [and_then ok fst snd]. unfold Timestamp.to_datetime.
  assert (Hord : 1 <= t / seconds_per_day + Calendar.epoch_ordinal <= 3652059).
  { change seconds_per_day with 86400.
    change Calendar.epoch_ordinal with 719163.
    Z.div_mod_to_equations. lia. }
  pose proof (ord2ymd_year _ Hord) as Hyear.
  destruct (Calendar.ord2ymd _) as [[year month] day]. cbn [fst] in Hyear.
  assert (H1 : (year - 1900 <? - 2 ^ 31) || (2 ^ 31 <=? year - 1900) = false).
  { apply orb_false_iff. split; [apply Z.ltb_ge | apply Z.leb_gt];
      change (2 ^ 31) with 2147483648; lia. }
  assert (H2 : (year <? 1) || (9999 <? year) = false).
  { apply orb_false_iff. split; apply Z.ltb_ge; lia. }
  rewrite H1, H2. unfold ok. f_equal. lia.
Qed.

(** The errors of building a record are all instances of [Exception]. *)
Lemma make_candle_record_error product_id candle e :
  make_candle_record product_id candle = inl e ->
  isinstance_Exception e = true.
Proof.
  assert (Hget : forall x i e', getitem x i = inl e' ->
                                isinstance_Exception e' = true).
  { intros x i e' H. unfold getitem in H.
    destruct x; try (injection H as <-; reflexivity);
      destruct (nth_error _ _); try discriminate;
      injection H as <-; reflexivity. }
  assert (Hts : forall x e', Timestamp.fromtimestamp x = inl e' ->
                             isinstance_Exception e' = true).
  { assert (Hto : forall s u e', Timestamp.to_datetime s u = inl e' ->
                                 isinstance_Exception e' = true).
    { intros s u e' H. unfold Timestamp.to_datetime in H.
      destruct (Calendar.ord2ymd _) as [[year month] day].
      destruct (_ || _); [injection H as <-; reflexivity |].
      destruct (_ || _); [injection H as <-; reflexivity | discriminate]. }
    assert (Hint : forall z e', Timestamp.of_int z = inl e' ->
                                isinstance_Exception e' = true).
    { intros z e' H. unfold Timestamp.of_int in H.
      destruct (Timestamp.in_time_t z); [discriminate |].
      injection H as <-; reflexivity. }
    intros x e' H. unfold Timestamp.fromtimestamp in H.
    destruct x; try (injection H as <-; reflexivity).
    - destruct (Timestamp.of_int _) as [e0 | p] eqn:Hp; cbn in H.
      + injection H as <-. eapply Hint; eassumption.
      + eapply Hto; eassumption.
    - destruct (Timestamp.of_int _) as [e0 | p] eqn:Hp; cbn in H.
      + injection H as <-. eapply Hint; eassumption.
      + eapply Hto; eassumption.
    - destruct (Timestamp.of_float f) as [e0 | p] eqn:Hp; cbn in H.
      + injection H as <-. unfold Timestamp.of_float in Hp.
        destruct (is_nan f); [injection Hp as <-; reflexivity |].
        destruct (is_infinity f); [injection Hp as <-; reflexivity |].
        destruct (Timestamp.modf f) as [intpart floatpart].
        destruct (if 1000000 <=? _ then _ else _) as [intpart' us].
        destruct (Timestamp.in_time_t_double intpart'); [discriminate |].
        injection Hp as <-; reflexivity.
      + eapply Hto; eassumption. }
  unfold make_candle_record. intros H.
  repeat match type of H with
         | and_then ?r _ = inl _ =>
             let Hr := fresh "Hr" in
             destruct r as [? | ?] eqn:Hr; cbn [and_then] in H;
             [injection H as <-; first [eapply Hget; eassumption
                                       | eapply Hts; eassumption] |]
         end.
  unfold ok in H. discriminate.
Qed.

(** A candle with fewer than six elements yields no record. *)
Lemma make_candle_record_short product_id items :
  (List.length items < 6)%nat ->
  exists e, make_candle_record product_id (JArr items) = inl e.
Proof.
  intros Hlen. unfold make_candle_record.
  assert (H5 : getitem (JArr items) 5 = inl IndexError).
  { unfold getitem. destruct (nth_error items 5) eqn:Hn; [| reflexivity].
    assert (nth_error items 5 <> None) as Hs by congruence.
    apply nth_error_Some in Hs. lia. }
  repeat match goal with
         | |- exists e, and_then ?r _ = inl e =>
             destruct r as [? | ?] eqn:?; cbn [and_then];
             [eexists; reflexivity |]
         end.
  congruence.
Qed.

Lemma firstn_snoc {A} (l : list A) :
  forall k x, nth_error l k = Some x -> firstn (S k) l = firstn k l ++ [x].
Proof.
  induction l as [| a l IH]; intros [| k] x H; cbn in H; try discriminate.
  - injection H as <-. reflexivity.
  - cbn [firstn app]. f_equal. apply IH. exact H.
Qed.

Lemma map_inr_injective {E A} (l l' : list A) :
  map (@inr E A) l = map (@inr E A) l' -> l = l'.
Proof.
  revert l'. induction l as [| a l IH]; intros [| a' l'] H; cbn in H;
    try discriminate; [reflexivity |].
  injection H as -> H. f_equal. apply IH. exact H.
Qed.

(** ** Runs that end at a given pass *)

Lemma pass_snoc w product_id granularity k :
  forall end_time st end_time' st' end_time'' st'',
    pass w product_id granularity k end_time st = Some (end_time', st') ->
    iteration w product_id granularity end_time' st'
    = (inr (Continue end_time''), st'') ->
    pass w product_id granularity (S k) end_time st = Some (end_time'', st'').
Proof.
  induction k as [| k IH]; intros end_time st end_time' st' end_time'' st''
    Hpass Hit.
  - cbn [pass] in Hpass. injection Hpass as <- <-.
    cbn [pass]. rewrite Hit. reflexivity.
  - cbn [pass] in Hpass. change (pass w product_id granularity (S (S k)) end_time st)
      with (match iteration w product_id granularity end_time st with
            | (inr (Continue e1), st1) =>
                pass w product_id granularity (S k) e1 st1
            | _ => None
            end).
    destruct (iteration w product_id granularity end_time st)
      as [[e | [e1 |]] st1]; try discriminate.
    eapply IH; eassumption.
Qed.

Lemma all_records product_id candles :
  Forall (fun c => exists r, make_candle_record product_id c = inr r) candles ->
  exists records,
    Forall2 (fun c r => make_candle_record product_id c = inr r)
      candles records.
Proof.
  induction 1 as [| c candles [r Hr] _ [records IH]].
  - exists []. constructor.
  - exists (r :: records). constructor; assumption.
Qed.

Lemma records_map product_id candles records :
  Forall2 (fun c r => make_candle_record product_id c = inr r)
    candles records ->
  map inr records = map (make_candle_record product_id) candles.
Proof.
  induction 1 as [| c r candles records Hc _ IH]; cbn; [reflexivity |].
  rewrite Hc, IH. reflexivity.
Qed.

Section RunEndsAtPass.

Variables (w : world) (product_id : string) (granularity : Z).
Variables (k : nat) (end_time : datetime) (st : state).

Hypothesis Hallowed : granularity_allowed granularity = true.
Hypothesis Hpass : pass_of_run w product_id granularity k = Some (end_time, st).

Let csv_filename := generate_unique_csv_filename w.

(** The loop raises in pass [k]. *)
Lemma run_raises_at_pass e st' :
  iteration w product_id granularity end_time st = (inl e, st') ->
  fetch_loop w product_id granularity end_time st = (inl e, st')
  /\ run w product_id granularity
     = (fst (handled (inl e)),
        {| log := log st' ++ snd (handled (inl e))
                  ++ finalization_log csv_filename (candle_data st');
           requests := requests st';
           files := finalization_files csv_filename (candle_data st');
           candle_data := candle_data st' |}).
Proof.
  intros Hit. split.
  - rewrite fetch_loop_eq, Hit. reflexivity.
  - rewrite (run_from_pass w product_id granularity k end_time st (inl e) st'
               Hallowed Hpass) by (rewrite Hit; reflexivity).
    pose proof (iteration_frame w product_id granularity end_time st) as F.
    cbv zeta in F. rewrite Hit in F. cbn [snd] in F.
    destruct F as (_ & Ff & _).
    destruct (pass_of_run_frame _ _ _ _ _ _ Hpass) as (_ & _ & _ & Hfiles & _).
    rewrite Ff, Hfiles. reflexivity.
Qed.

(** The loop is left by [break] in pass [k]. *)
Lemma run_breaks_at_pass st' :
  iteration w product_id granularity end_time st = (inr Break, st') ->
  fetch_loop w product_id granularity end_time st = (inr tt, st')
  /\ run w product_id granularity
     = (inr tt,
        {| log := log st' ++ finalization_log csv_filename (candle_data st');
           requests := requests st';
           files := finalization_files csv_filename (candle_data st');
           candle_data := candle_data st' |}).
Proof.
  intros Hit. split.
  - rewrite fetch_loop_eq, Hit. reflexivity.
  - rewrite (run_from_pass w product_id granularity k end_time st (inr tt) st'
               Hallowed Hpass) by (rewrite Hit; reflexivity).
    pose proof (iteration_frame w product_id granularity end_time st) as F.
    cbv zeta in F. rewrite Hit in F. cbn [snd] in F.
    destruct F as (_ & Ff & _).
    destruct (pass_of_run_frame _ _ _ _ _ _ Hpass) as (_ & _ & _ & Hfiles & _).
    rewrite Ff, Hfiles. reflexivity.
Qed.

(** The request of pass [k] is the [k]-th of the run. *)
Lemma answer_at_pass : server w (List.length (requests st)) = server w k.
Proof.
  destruct (pass_of_run_frame _ _ _ _ _ _ Hpass) as (_ & _ & Hlen & _).
  rewrite Hlen. reflexivity.
Qed.

End RunEndsAtPass.

Ltac tidy := rewrite ?app_nil_r; repeat rewrite <- app_assoc; reflexivity.

(** ** Midnights *)

Lemma replace_midnight_aligned t : replace_midnight t mod us_per_day = 0.
Proof.
  unfold replace_midnight. change us_per_day with 86400000000.
  Z.div_mod_to_equations. lia.
Qed.

Lemma replace_midnight_le t : replace_midnight t <= t < replace_midnight t + us_per_day.
Proof.
  unfold replace_midnight. change us_per_day with 86400000000.
  Z.div_mod_to_equations. lia.
Qed.

Lemma timedelta_aligned t i :
  t mod us_per_day = 0 -> (t - timedelta i) mod us_per_day = 0.
Proof.
  unfold timedelta. change us_per_day with 86400000000.
  intros H. Z.div_mod_to_equations. lia.
Qed.

(** ** Digits *)

Lemma length_append (a b : string) :
  String.length (a ++ b) = (String.length a + String.length b)%nat.
Proof.
  induction a as [| c a IH]; cbn; [reflexivity | rewrite IH; reflexivity].
Qed.

Lemma append_assoc (a b c : string) :
  ((a ++ b) ++ c)%string = (a ++ (b ++ c))%string.
Proof.
  induction a as [| x a IH]; cbn; [reflexivity | rewrite IH; reflexivity].
Qed.

Lemma length_zero_padded width :
  forall n, String.length (zero_padded width n) = width.
Proof.
  induction width as [| k IH]; intros n; [reflexivity |].
  cbn [zero_padded]. rewrite length_append, IH. cbn. lia.
Qed.

Lemma append_inj (a a' b b' : string) :
  String.length a = String.length a' ->
  (a ++ b)%string = (a' ++ b')%string -> a = a' /\ b = b'.
Proof.
  revert a'. induction a as [| c a IH]; intros [| c' a'] Hlen H;
    cbn in Hlen; try discriminate.
  - split; [reflexivity | exact H].
  - cbn in H. injection H as -> H. injection Hlen as Hlen.
    destruct (IH _ Hlen H) as [-> ->]. split; reflexivity.
Qed.

Lemma digit_inj n m : digit n = digit m -> n mod 10 = m mod 10.
Proof.
  unfold digit. intros H.
  apply (f_equal nat_of_ascii) in H.
  assert (Hn : 0 <= n mod 10 < 10) by (apply Z.mod_pos_bound; lia).
  assert (Hm : 0 <= m mod 10 < 10) by (apply Z.mod_pos_bound; lia).
  rewrite !nat_ascii_embedding in H by lia.
  lia.
Qed.

Lemma zero_padded_inj width :
  forall n m,
    0 <= n < 10 ^ Z.of_nat width -> 0 <= m < 10 ^ Z.of_nat width ->
    zero_padded width n = zero_padded width m -> n = m.
Proof.
  induction width as [| k IH]; intros n m Hn Hm H.
  - change (10 ^ Z.of_nat 0) with 1 in *. lia.
  - cbn [zero_padded] in H.
    apply append_inj in H; [| rewrite !length_zero_padded; reflexivity].
    destruct H as [Hhigh Hlow]. injection Hlow as Hlow.
    apply digit_inj in Hlow.
    rewrite Nat2Z.inj_succ, Z.pow_succ_r in Hn, Hm by lia.
    assert (Hdiv : n / 10 = m / 10).
    { apply IH; [| | exact Hhigh]; Z.div_mod_to_equations; lia. }
    Z.div_mod_to_equations. lia.
Qed.

(** The fields of an instant within the years a [datetime] can hold. *)
Lemma fields_of_range (t : datetime) :
  datetime_utc 1 1 1 <= t < datetime_utc 10000 1 1 ->
  1 <= f_year (fields_of t) <= 9999.
Proof.
  intros Ht. unfold fields_of. cbv zeta.
  pose proof (ord2ymd_year (t / us_per_day + Calendar.epoch_ordinal)) as Hyear.
  destruct (Calendar.ord2ymd _) as [[y m] d]. cbn [fst] in Hyear.
  cbn [f_year]. apply Hyear.
  change (datetime_utc 1 1 1) with (-62135596800000000) in Ht.
  change (datetime_utc 10000 1 1) with 253402300800000000 in Ht.
  change us_per_day with 86400000000.
  change Calendar.epoch_ordinal with 719163.
  Z.div_mod_to_equations. lia.
Qed.

Lemma microsecond_of (t : datetime) :
  f_microsecond (fields_of t) = t mod us_per_second.
Proof.
  unfold fields_of. cbv zeta.
  destruct (Calendar.ord2ymd _) as [[y m] d]. cbn [f_microsecond].
  change us_per_day with 86400000000. change us_per_second with 1000000.
  Z.div_mod_to_equations. lia.
Qed.

(** An instant from its fields. *)
Lemma fields_of_inj_second (t t' : datetime) :
  f_year (fields_of t) = f_year (fields_of t') ->
  f_month (fields_of t) = f_month (fields_of t') ->
  f_day (fields_of t) = f_day (fields_of t') ->
  f_hour (fields_of t) = f_hour (fields_of t') ->
  f_minute (fields_of t) = f_minute (fields_of t') ->
  f_second (fields_of t) = f_second (fields_of t') ->
  t - f_microsecond (fields_of t) = t' - f_microsecond (fields_of t').
Proof.
  intros Hy Hm Hd Hh Hmin Hs.
  destruct (fields_of_sound t) as [Ht _].
  destruct (fields_of_sound t') as [Ht' _].
  rewrite Hy, Hm, Hd, Hh, Hmin, Hs in Ht. lia.
Qed.

(** The fields other than the microsecond are those of the whole second. *)
Lemma fields_of_second (t t' : datetime) :
  t / us_per_second = t' / us_per_second ->
  strftime_Ymd_HMS t = strftime_Ymd_HMS t'.
Proof.
  intros H. unfold strftime_Ymd_HMS, fields_of. cbv zeta.
  assert (Hdays : t / us_per_day = t' / us_per_day).
  { change us_per_day with 86400000000.
    change us_per_second with 1000000 in H.
    Z.div_mod_to_equations. lia. }
  assert (Hsecs : t mod us_per_day / us_per_second
                  = t' mod us_per_day / us_per_second).
  { change us_per_day with 86400000000 in *.
    change us_per_second with 1000000 in *.
    Z.div_mod_to_equations. lia. }
  rewrite Hdays, Hsecs.
  destruct (Calendar.ord2ymd _) as [[y m] d].
  reflexivity.
Qed.

(** ** Runs of full days *)

(** As long as the responses are non-empty arrays of candles that all yield
    records and the cursor stays at or after the floor date, the loop goes
    on, and the accumulation list holds the records of the candles received
    so far. *)
Lemma passes_of_full_days w product_id granularity
    (responses : list (list json)) :
  Forall (fun candles =>
            candles <> []
            /\ Forall (fun c => exists r, make_candle_record product_id c = inr r)
                 candles)
    responses ->
  (forall i candles,
     nth_error responses i = Some candles ->
     exists reason, server w i = Response 200 reason (Decodes (JArr candles))) ->
  forall k,
    (k <= List.length responses)%nat ->
    (k = 0%nat
     \/ floor_date
        <= replace_midnight (Z.of_N (utc_now w)) - timedelta (Z.of_nat k)) ->
    exists st,
      pass_of_run w product_id granularity k
      = Some (replace_midnight (Z.of_N (utc_now w)) - timedelta (Z.of_nat k),
              st)
      /\ map inr (candle_data st)
         = map (make_candle_record product_id)
             (List.concat (firstn k responses)).
Proof.
  intros Hgood Hserver.
  induction k as [| k IH]; intros Hk Hfloor.
  - exists (snd (loop_entry w)). split; [| reflexivity].
    unfold pass_of_run. cbn [pass loop_entry fst snd].
    rewrite timedelta_0, Z.sub_0_r. reflexivity.
  - destruct Hfloor as [Hfloor | Hfloor]; [discriminate |].
    rewrite timedelta_succ in Hfloor.
    assert (Hnonneg : 0 <= timedelta (Z.of_nat k))
      by (unfold timedelta; apply Z.mul_nonneg_nonneg; [lia | discriminate]).
    pose proof timedelta_1_pos as Hday.
    destruct IH as (st & Hpass & Hdata); [lia | |].
    { destruct k as [| k]; [left; reflexivity | right].
      rewrite timedelta_succ in *. lia. }
    destruct (nth_error responses k) as [candles |] eqn:Hnth;
      [| apply nth_error_None in Hnth; lia].
    destruct (Hserver _ _ Hnth) as [reason Hanswer].
    rewrite <- (answer_at_pass _ _ _ _ _ _ Hpass) in Hanswer.
    pose proof (proj1 (Forall_forall _ _) Hgood candles
                  (nth_error_In _ _ Hnth)) as [Hne Hall].
    destruct (all_records _ _ Hall) as [records Hrecords].
    pose proof (iteration_candles w product_id granularity
                  (replace_midnight (Z.of_N (utc_now w))
                   - timedelta (Z.of_nat k))
                  st reason candles records Hanswer Hne Hrecords) as Hit.
    cbv zeta in Hit.
    assert (Hgo : (replace_midnight (Z.of_N (utc_now w))
                   - timedelta (Z.of_nat k) - timedelta 1
                   <? floor_date) = false)
      by (apply Z.ltb_ge; lia).
    rewrite Hgo in Hit.
    eexists. split.
    + unfold pass_of_run in *.
      rewrite (pass_snoc _ _ _ _ _ _ _ _ _ _ Hpass Hit).
      rewrite timedelta_succ.
      replace (replace_midnight (Z.of_N (utc_now w))
               - (timedelta 1 + timedelta (Z.of_nat k)))
        with (replace_midnight (Z.of_N (utc_now w))
              - timedelta (Z.of_nat k) - timedelta 1) by lia.
      reflexivity.
    + cbn [extend candle_data]. rewrite map_app, Hdata.
      rewrite (records_map _ _ _ Hrecords).
      rewrite <- map_app. f_equal.
      rewrite (firstn_snoc _ _ _ Hnth), concat_app. cbn [List.concat].
      rewrite app_nil_r. reflexivity.
Qed.

(** ** Dates *)

(** The midnight of an instant is the midnight of its date. *)
Lemma replace_midnight_date (t : datetime) :
  fields_of (replace_midnight t)
  = {| f_year := f_year (fields_of t); f_month := f_month (fields_of t);
       f_day := f_day (fields_of t);
       f_hour := 0; f_minute := 0; f_second := 0; f_microsecond := 0 |}
  /\ replace_midnight t
     = datetime_utc (f_year (fields_of t)) (f_month (fields_of t))
         (f_day (fields_of t)).
Proof.
  assert (Hfields :
    fields_of (replace_midnight t)
    = {| f_year := f_year (fields_of t); f_month := f_month (fields_of t);
         f_day := f_day (fields_of t);
         f_hour := 0; f_minute := 0; f_second := 0; f_microsecond := 0 |}).
  { unfold fields_of, replace_midnight. cbv zeta.
    assert (Hdays : (t - t mod us_per_day) / us_per_day = t / us_per_day).
    { change us_per_day with 86400000000. Z.div_mod_to_equations. lia. }
    assert (Hrest : (t - t mod us_per_day) mod us_per_day = 0).
    { change us_per_day with 86400000000. Z.div_mod_to_equations. lia. }
    rewrite Hdays, Hrest.
    destruct (Calendar.ord2ymd _) as [[y m] d].
    reflexivity. }
  split; [exact Hfields |].
  pose proof (fields_of_sound (replace_midnight t)) as Hsound.
  cbv zeta in Hsound. rewrite Hfields in Hsound.
  cbn [f_year f_month f_day f_hour f_minute f_second f_microsecond] in Hsound.
  destruct Hsound as [Hsound _]. lia.
Qed.

(** The day of an instant is a day of its month. *)
Lemma fields_of_day (t : datetime) :
  1 <= f_day (fields_of t)
  <= days_in_month (f_year (fields_of t)) (f_month (fields_of t)).
Proof.
  unfold fields_of, days_in_month. cbv zeta.
  pose proof (CalendarFacts.ymd2ord_ord2ymd
                (t / us_per_day + Calendar.epoch_ordinal)) as Hdate.
  destruct (Calendar.ord2ymd _) as [[y m] d].
  cbn [f_year f_month f_day]. destruct Hdate as (_ & _ & Hd). exact Hd.
Qed.

(** ** Reading what [isoformat] writes *)

Lemma digit_value_digit n : digit_value (digit n) = Some (n mod 10).
Proof.
  unfold digit_value, digit. cbv zeta.
  assert (Hn : 0 <= n mod 10 < 10) by (apply Z.mod_pos_bound; lia).
  rewrite nat_ascii_embedding by lia.
  rewrite Nat2Z.inj_add, Z2Nat.id by lia.
  change (Z.of_nat 48) with 48.
  destruct (Z.leb_spec 48 (48 + n mod 10)); [| lia].
  destruct (Z.leb_spec (48 + n mod 10) 57); [| lia].
  cbn [andb]. f_equal. lia.
Qed.

Lemma decimal_app (a b : string) :
  forall acc,
    decimal (a ++ b) acc
    = match decimal a acc with
      | Some v => decimal b v
      | None => None
      end.
Proof.
  induction a as [| c a IH]; intros acc; cbn [append decimal];
    [reflexivity |].
  destruct (digit_value c); [apply IH | reflexivity].
Qed.

Lemma decimal_zero_padded width :
  forall n acc,
    0 <= n < 10 ^ Z.of_nat width ->
    decimal (zero_padded width n) acc = Some (acc * 10 ^ Z.of_nat width + n).
Proof.
  induction width as [| k IH]; intros n acc Hn.
  - change (10 ^ Z.of_nat 0) with 1 in *. cbn [zero_padded decimal].
    f_equal. lia.
  - rewrite Nat2Z.inj_succ, Z.pow_succ_r in * by lia.
    cbn [zero_padded]. rewrite decimal_app, IH
      by (Z.div_mod_to_equations; lia).
    cbn [decimal]. rewrite digit_value_digit. f_equal.
    Z.div_mod_to_equations. nia.
Qed.

Lemma split_at_app (a b : string) :
  split_at (String.length a) (a ++ b) = Some (a, b).
Proof.
  induction a as [| c a IH]; cbn [String.length append split_at].
  - destruct b; reflexivity.
  - rewrite IH. reflexivity.
Qed.

Lemma digits_zero_padded width n rest :
  0 <= n < 10 ^ Z.of_nat width ->
  digits width (zero_padded width n ++ rest)%string = Some (n, rest).
Proof.
  intros Hn. unfold digits.
  rewrite <- (length_zero_padded width n) at 1.
  rewrite split_at_app, (decimal_zero_padded _ _ _ Hn).
  replace (0 * 10 ^ Z.of_nat width + n) with n by lia. reflexivity.
Qed.

Lemma separator_app c rest :
  separator c (String c EmptyString ++ rest)%string = Some (tt, rest).
Proof. cbn. rewrite Ascii.eqb_refl. reflexivity. Qed.

(** Read as ISO 8601, the text [isoformat] writes for an instant of the
    years 1 to 9999 denotes that instant. *)
Lemma iso8601_utc_isoformat (t : datetime) :
  datetime_utc 1 1 1 <= t < datetime_utc 10000 1 1 ->
  iso8601_utc (isoformat t) = Some t.
Proof.
  intros Ht.
  pose proof (fields_of_range t Ht) as Hyear.
  pose proof (fields_of_day t) as Hday.
  destruct (fields_of_sound t) as (Hsum & Hm & Hd & Hh & Hmin & Hs & Hus).
  unfold iso8601_utc, isoformat, read_bind, read_ret. cbv zeta.
  rewrite digits_zero_padded, separator_app by (cbn; lia).
  rewrite digits_zero_padded, separator_app by (cbn; lia).
  rewrite digits_zero_padded, separator_app by (cbn; lia).
  rewrite digits_zero_padded, separator_app by (cbn; lia).
  rewrite digits_zero_padded, separator_app by (cbn; lia).
  rewrite digits_zero_padded by (cbn; lia).
  assert (Hfraction :
    fraction ((if (f_microsecond (fields_of t) =? 0)%Z then ""
               else "." ++ zero_padded 6 (f_microsecond (fields_of t)))
              ++ "+00:00")%string
    = Some (f_microsecond (fields_of t), "+00:00")).
  { destruct (Z.eqb_spec (f_microsecond (fields_of t)) 0) as [Hz | Hz].
    - rewrite Hz. reflexivity.
    - rewrite append_assoc. unfold fraction. rewrite separator_app.
      apply digits_zero_padded. cbn; lia. }
  rewrite Hfraction.
  change (("+00:00" =? "+00:00")%string) with true.
  assert (H1 : (1 <=? f_year (fields_of t)) = true) by (apply Z.leb_le; lia).
  assert (H2 : (1 <=? f_month (fields_of t)) = true) by (apply Z.leb_le; lia).
  assert (H3 : (f_month (fields_of t) <=? 12) = true) by (apply Z.leb_le; lia).
  assert (H4 : (1 <=? f_day (fields_of t)) = true) by (apply Z.leb_le; lia).
  assert (H5 : (f_day (fields_of t)
                <=? days_in_month (f_year (fields_of t))
                      (f_month (fields_of t))) = true)
    by (apply Z.leb_le; lia).
  assert (H6 : (f_hour (fields_of t) <=? 23) = true) by (apply Z.leb_le; lia).
  assert (H7 : (f_minute (fields_of t) <=? 59) = true)
    by (apply Z.leb_le; lia).
  assert (H8 : (f_second (fields_of t) <=? 59) = true)
    by (apply Z.leb_le; lia).
  rewrite H1, H2, H3, H4, H5, H6, H7, H8. cbn [andb].
  f_equal. exact Hsum.
Qed.

(** The text [isoformat] writes for a whole second has no fraction: it is
    25 characters long. *)
Lemma isoformat_whole_second (seconds : Z) :
  String.length (isoformat (seconds * us_per_second)) = 25%nat.
Proof.
  unfold isoformat. cbv zeta.
  rewrite microsecond_of, Z.mod_mul by discriminate.
  change (0 =? 0) with true. cbv iota.
  repeat rewrite length_append. repeat rewrite length_zero_padded.
  reflexivity.
Qed.

(* ===================================================================== *)
(** * The properties of the specification *)
(* ===================================================================== *)

(** C1, as stated, fails: a run with granularity 61 raises [ValueError]
    at line 22, before the [try] statement is entered; its [finally] block
    does not run, nothing reports that there is no data to write. *)
Lemma C1_invalid_granularity_skips_finalization :
  let final := run (scripted noon_2026_11_03 noon_2026_11_03 []) "BTC-USD" 61 in
  fst final = inl (ValueError_granularity 61)
  /\ finalizations (log (snd final)) = 0%nat
  /\ ~ In (INFO, NoDataToWrite) (log (snd final)).
Proof.
  cbn. repeat split. intros [H | []]. discriminate.
Qed.

(** C1 (amended): a run whose granularity passes validation enters the
    [finally] block exactly once, whatever happens in the loop (a transport
    failure, a status other than 200, a body that is not JSON, a keyboard
    interrupt, or anything else the world does); a run whose granularity is
    refused does not enter it. *)
Theorem C1_finalization_exactly_once w product_id granularity :
  finalizations (log (snd (run w product_id granularity)))
  = if granularity_allowed granularity then 1%nat else 0%nat.
Proof. apply finalizations_of_run. Qed.

(** C2, as stated, fails: a script longer than the history the run walks
    is cut short.  A run started on 2015-07-21 (at noon) against three days
    of candles followed by the empty array asks for 2015-07-20 and for
    2015-07-19, and stops there at the floor date: it never receives the
    third response, nor the empty array, and its accumulation list holds
    the records of the first two responses only. *)
Lemma C2_script_cut_at_the_floor_date :
  let day := Response 200 "OK" (Decodes (JArr [candle_2021])) in
  let final :=
    run (scripted 1437480000000000 1437480000000000
           [day; day; day; Response 200 "OK" (Decodes (JArr []))])
      "BTC-USD" 3600 in
  fst final = inr tt
  /\ List.length (requests (snd final)) = 2%nat
  /\ candle_data (snd final) = [record_2021; record_2021]
  /\ In (INFO, ReachedStoppingDate) (log (snd final)).
Proof.
  vm_compute.
  split; [reflexivity |]. split; [reflexivity |]. split; [reflexivity |].
  repeat first [left; reflexivity | right].
Qed.

(** C2 (amended): when the requests of a run are answered, in order, with
    status 200 and the non-empty arrays [responses], each of candles that
    all yield a record, and then with status 200 and the empty array, and
    the script is not longer than the history the run walks (the request
    the empty array answers is the first of the run, or its window ends on
    2015-07-20 or later), the run receives all of it: it sends one request
    per response, the loop ends by [break] at the empty array, and the
    accumulation list holds exactly the records of all the candles of
    [responses], response after response in the order received, the candles
    of each response in their order. *)
Theorem C2_accumulation_in_order w product_id granularity
    (responses : list (list json)) :
  granularity_allowed granularity = true ->
  Forall (fun candles =>
            candles <> []
            /\ Forall (fun c => exists r, make_candle_record product_id c = inr r)
                 candles)
    responses ->
  (forall i candles,
     nth_error responses i = Some candles ->
     exists reason, server w i = Response 200 reason (Decodes (JArr candles))) ->
  (exists reason,
     server w (List.length responses) = Response 200 reason (Decodes (JArr []))) ->
  (responses = []
   \/ floor_date
      <= replace_midnight (Z.of_N (utc_now w))
         - timedelta (Z.of_nat (List.length responses))) ->
  fst (run w product_id granularity) = inr tt
  /\ List.length (requests (snd (run w product_id granularity)))
     = S (List.length responses)
  /\ In (INFO, NoDataAvailable) (log (snd (run w product_id granularity)))
  /\ map inr (candle_data (snd (run w product_id granularity)))
     = map (make_candle_record product_id) (List.concat responses).
Proof.
  intros Hallowed Hgood Hserver [reason_last Hlast] Hfloor.
  destruct (passes_of_full_days w product_id granularity responses
              Hgood Hserver (List.length responses) (le_n _))
    as (st & Hpass & Hdata).
  { destruct Hfloor as [-> | Hfloor]; [left; reflexivity | right; exact Hfloor]. }
  rewrite firstn_all in Hdata.
  rewrite <- (answer_at_pass _ _ _ _ _ _ Hpass) in Hlast.
  pose proof (iteration_no_data w product_id granularity
                (replace_midnight (Z.of_N (utc_now w))
                 - timedelta (Z.of_nat (List.length responses)))
                st reason_last (JArr []) Hlast eq_refl) as Hit.
  destruct (run_breaks_at_pass _ _ _ _ _ _ Hallowed Hpass _ Hit)
    as (_ & Hrun).
  destruct (pass_of_run_frame _ _ _ _ _ _ Hpass) as (_ & _ & Hlen & _).
  rewrite Hrun. cbn [fst snd log requests candle_data extend handled].
  split; [reflexivity |].
  split; [rewrite length_app, Hlen; cbn; lia |].
  split.
  { apply in_or_app. left. apply in_or_app. right.
    apply in_or_app. right. do 3 right. left. reflexivity. }
  rewrite app_nil_r. exact Hdata.
Qed.

(** An instance of C2: two days of candles, then the empty array. *)
Lemma C2_accumulation_in_order_witness :
  let final :=
    run_2026_11_03
      [Response 200 "OK" (Decodes (JArr [candle_2021; candle_2021]));
       Response 200 "OK" (Decodes (JArr [candle_2021]));
       Response 200 "OK" (Decodes (JArr []))] in
  fst final = inr tt
  /\ List.length (requests (snd final)) = 3%nat
  /\ candle_data (snd final) = [record_2021; record_2021; record_2021].
Proof.
  cbv zeta. unfold run_2026_11_03.
  set (w := scripted noon_2026_11_03 noon_2026_11_03
              [Response 200 "OK" (Decodes (JArr [candle_2021; candle_2021]));
               Response 200 "OK" (Decodes (JArr [candle_2021]));
               Response 200 "OK" (Decodes (JArr []))]).
  assert (Hc : make_candle_record "BTC-USD" candle_2021 = inr record_2021)
    by (vm_compute; reflexivity).
  assert (Hr : exists r, make_candle_record "BTC-USD" candle_2021 = inr r)
    by (exists record_2021; exact Hc).
  assert (Hgood :
    Forall (fun candles =>
              candles <> []
              /\ Forall (fun c => exists r,
                                    make_candle_record "BTC-USD" c = inr r)
                   candles)
      [[candle_2021; candle_2021]; [candle_2021]]).
  { apply Forall_cons;
      [split;
         [discriminate
         | apply Forall_cons;
             [exact Hr | apply Forall_cons; [exact Hr | apply Forall_nil]]]
      | apply Forall_cons;
          [split;
             [discriminate | apply Forall_cons; [exact Hr | apply Forall_nil]]
          | apply Forall_nil]]. }
  assert (Hserver :
    forall i candles,
      nth_error [[candle_2021; candle_2021]; [candle_2021]] i = Some candles ->
      exists reason, server w i = Response 200 reason (Decodes (JArr candles))).
  { intros [| [| i]] candles H; cbn [nth_error] in H.
    - injection H as <-. exists "OK". reflexivity.
    - injection H as <-. exists "OK". reflexivity.
    - destruct i; discriminate. }
  assert (Hlast :
    exists reason, server w 2 = Response 200 reason (Decodes (JArr [])))
    by (exists "OK"; reflexivity).
  assert (Hfloor :
    [[candle_2021; candle_2021]; [candle_2021]] = []
    \/ floor_date
       <= replace_midnight (Z.of_N (utc_now w))
          - timedelta
              (Z.of_nat
                 (List.length [[candle_2021; candle_2021]; [candle_2021]])))
    by (right; vm_compute; discriminate).
  pose proof (C2_accumulation_in_order w "BTC-USD" 3600
                [[candle_2021; candle_2021]; [candle_2021]]
                eq_refl Hgood Hserver Hlast Hfloor) as H.
  cbn [List.concat map app List.length] in H. rewrite Hc in H.
  destruct H as (Hreturns & Hsent & _ & Hdata).
  split; [exact Hreturns |]. split; [exact Hsent |].
  apply (@map_inr_injective exc). exact Hdata.
Defined.

(** C3: with a granularity among 60, 300, 900, 3600, 21600 and 86400 the
    validation raises nothing and the loop is entered (the first request of
    the run is sent, for the day before the midnight the run starts from);
    with any other granularity the run raises the [ValueError] for it, having
    logged the one error line and done nothing else: no request, no file, no
    record. *)
Theorem C3_granularity_validation w product_id granularity :
  (In granularity [60; 300; 900; 3600; 21600; 86400] ->
   fst (run w product_id granularity) <> inl (ValueError_granularity granularity)
   /\ exists more,
        requests (snd (run w product_id granularity))
        = window product_id granularity
            (replace_midnight (Z.of_N (utc_now w))) :: more)
  /\ (~ In granularity [60; 300; 900; 3600; 21600; 86400] ->
      run w product_id granularity
      = (inl (ValueError_granularity granularity),
         {| log := [(ERROR, InvalidGranularity granularity)];
            requests := []; files := []; candle_data := [] |})).
Proof.
  split; intros Hin.
  - apply granularity_allowed_spec in Hin.
    split.
    + destruct (fetch_loop w product_id granularity
                  (fst (loop_entry w)) (snd (loop_entry w)))
        as [r st] eqn:Hloop.
      rewrite (run_allowed _ _ _ _ _ Hin Hloop). cbn [fst].
      destruct r as [e | []]; cbn; [| discriminate].
      destruct e; cbn; discriminate.
    + destruct (run_requests w product_id granularity) as (n & Hr & Hn & _).
      specialize (Hn Hin). destruct n as [| n]; [lia |].
      rewrite Hr, windows_S. eexists; reflexivity.
  - apply run_refused.
    destruct (granularity_allowed granularity) eqn:Hg; [| reflexivity].
    apply granularity_allowed_spec in Hg. contradiction.
Qed.

(** C4, as stated, fails: a run started on 2015-07-19 (at noon) sends its
    first request for the window that ends on 2015-07-19T00:00:00Z, before
    the floor date; the test against the floor date comes only after the
    cursor has moved. *)
Lemma C4_first_window_before_floor :
  Exists (fun r => req_end r < floor_date)
    (requests
       (snd (run (scripted 1437307200000000 1437307200000000
                    [Response 200 "OK" (Decodes (JArr []))])
               "BTC-USD" 3600))).
Proof.
  apply Exists_cons_hd. reflexivity.
Qed.

(** C4 (amended): every request after the first of a run is for a window
    that ends no earlier than 2015-07-20T00:00:00Z, since the loop stops
    when the cursor, moved back one day, is before that date; the first
    request is for the window that ends at the midnight the run starts
    from, so when the clock reads no earlier than the floor date, no request
    of the run is for a window that ends before it. *)
Theorem C4_no_request_before_floor w product_id granularity :
  Forall (fun r => floor_date <= req_end r)
    (tl (requests (snd (run w product_id granularity))))
  /\ (floor_date <= Z.of_N (utc_now w) ->
      Forall (fun r => floor_date <= req_end r)
        (requests (snd (run w product_id granularity)))).
Proof.
  destruct (run_requests w product_id granularity) as (n & Hr & _ & Hfl).
  rewrite Hr.
  assert (Htl : Forall (fun r => floor_date <= req_end r)
                  (tl (windows product_id granularity
                         (replace_midnight (Z.of_N (utc_now w))) n))).
  { apply Forall_forall. intros r Hin.
    destruct n as [| n]; [contradiction |].
    rewrite windows_S in Hin. cbn [tl] in Hin.
    apply In_nth_error in Hin. destruct Hin as (i & Hi).
    apply windows_nth in Hi. destruct Hi as (Hi & ->). cbn [window req_end].
    specialize (Hfl (S i)). rewrite timedelta_succ in Hfl. lia. }
  split; [exact Htl |].
  intros Hclock. destruct n as [| n]; [constructor |].
  rewrite windows_S in *. cbn [tl] in Htl.
  constructor; [| exact Htl].
  cbn [window req_end]. apply replace_midnight_floor. exact Hclock.
Qed.

(** C5: the windows a run requests, in the order of the requests.  The
    first ends at the instant the run starts, truncated to midnight UTC:
    at a whole number of days since the epoch, no later than the instant
    and less than 24 hours before it, which is 00:00:00 of the instant's
    UTC date.  Each window starts exactly 24 hours before it ends; each
    next one ends where the one before it starts, which is strictly earlier
    than where that one ends. *)
Theorem C5_windows_contiguous w product_id granularity :
  let sent := requests (snd (run w product_id granularity)) in
  let now := Z.of_N (utc_now w) in
  (forall r, nth_error sent 0 = Some r ->
     req_end r = replace_midnight now
     /\ req_end r mod (24 * 3600 * us_per_second) = 0
     /\ req_end r <= now < req_end r + 24 * 3600 * us_per_second
     /\ req_end r
        = datetime_utc (f_year (fields_of now)) (f_month (fields_of now))
            (f_day (fields_of now)))
  /\ (forall i r, nth_error sent i = Some r ->
        req_start r = req_end r - 24 * 3600 * us_per_second)
  /\ (forall i r r',
        nth_error sent i = Some r -> nth_error sent (S i) = Some r' ->
        req_end r' = req_start r /\ req_end r' < req_end r).
Proof.
  destruct (run_requests w product_id granularity) as (n & Hr & _ & _).
  cbv zeta. rewrite Hr. split; [| split].
  - intros r H. apply windows_nth in H. destruct H as (_ & ->).
    cbn [window req_end]. rewrite timedelta_0, Z.sub_0_r.
    pose proof (replace_midnight_aligned (Z.of_N (utc_now w))) as Haligned.
    pose proof (replace_midnight_le (Z.of_N (utc_now w))) as Hle.
    destruct (replace_midnight_date (Z.of_N (utc_now w))) as [_ Hdate].
    change (24 * 3600 * us_per_second) with us_per_day.
    repeat split; try assumption; lia.
  - intros i r H. apply windows_nth in H. destruct H as (_ & ->).
    reflexivity.
  - intros i r r' Hr0 Hr1. apply windows_nth in Hr0. apply windows_nth in Hr1.
    destruct Hr0 as (_ & ->). destruct Hr1 as (_ & ->).
    cbn [window req_end req_start]. rewrite timedelta_succ.
    pose proof (timedelta_mono i (S i)). pose proof timedelta_1_pos.
    split; lia.
Qed.

(** An instance of C5: a run started at noon of 2026-11-03 that gets one
    day of candles and then the empty array asks for the day that ends at
    2026-11-03T00:00:00Z, then for the day that ends at
    2026-11-02T00:00:00Z. *)
Lemma C5_windows_contiguous_witness :
  let sent :=
    requests
      (snd (run_2026_11_03
              [Response 200 "OK" (Decodes (JArr [candle_2021]));
               Response 200 "OK" (Decodes (JArr []))])) in
  exists r r',
    sent = [r; r']
    /\ req_end r = datetime_utc 2026 11 3
    /\ req_start r = datetime_utc 2026 11 2
    /\ req_end r' = datetime_utc 2026 11 2
    /\ req_start r' = datetime_utc 2026 11 1.
Proof.
  cbv zeta. unfold run_2026_11_03.
  pose proof (C5_windows_contiguous
                (scripted noon_2026_11_03 noon_2026_11_03
                   [Response 200 "OK" (Decodes (JArr [candle_2021]));
                    Response 200 "OK" (Decodes (JArr []))])
                "BTC-USD" 3600) as H.
  cbv zeta in H. revert H.
  assert (Hsent :
    exists r r',
      requests
        (snd (run (scripted noon_2026_11_03 noon_2026_11_03
                     [Response 200 "OK" (Decodes (JArr [candle_2021]));
                      Response 200 "OK" (Decodes (JArr []))])
                "BTC-USD" 3600))
      = [r; r']).
  { vm_compute. eexists. eexists. reflexivity. }
  destruct Hsent as (r & r' & ->).
  assert (Hdate :
    datetime_utc
      (f_year (fields_of (Z.of_N (utc_now (scripted noon_2026_11_03
                                             noon_2026_11_03 [])))))
      (f_month (fields_of (Z.of_N (utc_now (scripted noon_2026_11_03
                                              noon_2026_11_03 [])))))
      (f_day (fields_of (Z.of_N (utc_now (scripted noon_2026_11_03
                                            noon_2026_11_03 [])))))
    = datetime_utc 2026 11 3) by (vm_compute; reflexivity).
  cbn [utc_now scripted] in *.
  intros (Hfirst & Hlength & Hnext).
  destruct (Hfirst r eq_refl) as (_ & _ & _ & Hend).
  pose proof (Hlength 0%nat r eq_refl) as Hstart.
  pose proof (Hlength 1%nat r' eq_refl) as Hstart'.
  destruct (Hnext 0%nat r r' eq_refl eq_refl) as [Hend' _].
  rewrite Hdate in Hend.
  exists r, r'. split; [reflexivity |].
  rewrite Hstart', Hend', Hstart, Hend.
  repeat split; reflexivity.
Defined.

(** C6: the record built from a candle [[t, low, high, open, close,
    volume]] has Exchange "Coinbase", the requested pair as Pair, the
    [isoformat] of the instant [fromtimestamp] makes of [t] as Close
    Timestamp, and the elements 1 to 5 as Low, High, Open, Close and Volume.
    For an integer [t] within the range of [datetime], the Close Timestamp
    is a text of 25 characters that, read as ISO 8601, denotes the instant
    [t] seconds after the epoch, in UTC.  The candle of the specification
    yields 2021-01-01T00:00:00+00:00; a candle of 2009-02-13T23:31:30Z
    yields that date and time, with the fraction of a second when its
    timestamp is a float that has one. *)
Theorem C6_candle_record :
  (forall product_id t low high open close volume instant,
     Timestamp.fromtimestamp t = inr instant ->
     make_candle_record product_id (JArr [t; low; high; open; close; volume])
     = inr {| Exchange := "Coinbase"; Pair := product_id;
              Close_Timestamp := isoformat instant;
              Low := low; High := high; Open_ := open; Close_ := close;
              Volume := volume |})
  /\ (forall seconds,
        min_timestamp <= seconds <= max_timestamp ->
        Timestamp.fromtimestamp (JInt seconds) = inr (seconds * us_per_second))
  /\ (forall product_id seconds low high open close volume,
        min_timestamp <= seconds <= max_timestamp ->
        exists text,
          make_candle_record product_id
            (JArr [JInt seconds; low; high; open; close; volume])
          = inr {| Exchange := "Coinbase"; Pair := product_id;
                   Close_Timestamp := text;
                   Low := low; High := high; Open_ := open; Close_ := close;
                   Volume := volume |}
          /\ iso8601_utc text = Some (seconds * 1000000)
          /\ String.length text = 25%nat)
  /\ make_candle_record "BTC-USD"
       (JArr [JInt 1609459200; JInt 29000; JInt 29500; JInt 29200;
              JInt 29400; JFloat 123.4])
     = inr {| Exchange := "Coinbase"; Pair := "BTC-USD";
              Close_Timestamp := "2021-01-01T00:00:00+00:00";
              Low := JInt 29000; High := JInt 29500; Open_ := JInt 29200;
              Close_ := JInt 29400; Volume := JFloat 123.4 |}
  /\ map (fun t => option_map Close_Timestamp
                     (match make_candle_record "BTC-USD"
                              (JArr [t; JInt 1; JInt 2; JInt 3; JInt 4; JInt 5])
                      with
                      | inr r => Some r
                      | inl _ => None
                      end))
       [JInt 1234567890; JFloat 1234567890.25; JFloat (-0.5);
        JFloat 0.0000015]
     = [Some "2009-02-13T23:31:30+00:00";
        Some "2009-02-13T23:31:30.250000+00:00";
        Some "1969-12-31T23:59:59.500000+00:00";
        Some "1970-01-01T00:00:00.000002+00:00"].
Proof.
  assert (Hrecord :
    forall product_id t low high open close volume instant,
      Timestamp.fromtimestamp t = inr instant ->
      make_candle_record product_id (JArr [t; low; high; open; close; volume])
      = inr {| Exchange := "Coinbase"; Pair := product_id;
               Close_Timestamp := isoformat instant;
               Low := low; High := high; Open_ := open; Close_ := close;
               Volume := volume |}).
  { intros product_id t low high open close volume instant Ht.
    unfold make_candle_record. cbn [getitem nth_error ok and_then].
    rewrite Ht. reflexivity. }
  split; [exact Hrecord |]. split; [exact fromtimestamp_int |].
  split; [| split].
  - intros product_id seconds low high open close volume Hrange.
    exists (isoformat (seconds * us_per_second)).
    split; [apply Hrecord, fromtimestamp_int, Hrange |].
    split; [| apply isoformat_whole_second].
    apply iso8601_utc_isoformat.
    change (datetime_utc 1 1 1) with (-62135596800000000).
    change (datetime_utc 10000 1 1) with 253402300800000000.
    unfold min_timestamp, max_timestamp, us_per_second in *. lia.
  - vm_compute. reflexivity.
  - vm_compute. reflexivity.
Qed.

(** C7: when the request of some pass of a run is answered with a status
    other than 200, the loop ends in that pass with the [Exception] of line
    73; the handler of the function logs it, the function returns normally,
    no further request is sent, and the [finally] block runs once, on the
    records accumulated before that pass.  When this happens to the first
    request, no record is accumulated and no file is written. *)
Theorem C7_non_200_status w product_id granularity k end_time st
    status reason response_body :
  granularity_allowed granularity = true ->
  pass_of_run w product_id granularity k = Some (end_time, st) ->
  server w k = Response status reason response_body ->
  status <> 200 ->
  let final := run w product_id granularity in
  let csv_filename := generate_unique_csv_filename w in
  fst (fetch_loop w product_id granularity end_time st)
  = inl (Exception_ status reason)
  /\ fst final = inr tt
  /\ log (snd final)
     = log st ++ announcement product_id granularity end_time
       ++ [(INFO, ReceivedResponse status reason);
           (DEBUG, ResponseBody response_body);
           (ERROR, ErrorFetchingData (Exception_ status reason))]
       ++ finalization_log csv_filename (candle_data st)
  /\ List.length (requests (snd final)) = S k
  /\ candle_data (snd final) = candle_data st
  /\ files (snd final) = finalization_files csv_filename (candle_data st)
  /\ finalizations (log (snd final)) = 1%nat
  /\ (k = 0%nat -> candle_data (snd final) = [] /\ files (snd final) = []).
Proof.
  intros Hallowed Hpass Hanswer Hstatus final csv_filename.
  rewrite <- (answer_at_pass _ _ _ _ _ _ Hpass) in Hanswer.
  pose proof (iteration_bad_status w product_id granularity end_time st
                status reason response_body Hanswer Hstatus) as Hit.
  destruct (run_raises_at_pass _ _ _ _ _ _ Hallowed Hpass _ _ Hit)
    as (Hloop & Hrun).
  pose proof (finalizations_of_run w product_id granularity) as Hfin.
  rewrite Hallowed in Hfin.
  destruct (pass_of_run_frame _ _ _ _ _ _ Hpass) as (_ & _ & Hlen & _).
  subst final csv_filename. cbv zeta.
  split; [rewrite Hloop; reflexivity |].
  split; [rewrite Hrun; reflexivity |].
  split; [rewrite Hrun; cbn; tidy |].
  split; [rewrite Hrun; cbn; rewrite length_app, Hlen; cbn; lia |].
  split; [rewrite Hrun; cbn; tidy |].
  split; [rewrite Hrun; cbn; tidy |].
  split; [exact Hfin |].
  intros ->. unfold pass_of_run in Hpass. cbn [pass] in Hpass.
  injection Hpass as _ <-. rewrite Hrun. cbn. split; reflexivity.
Qed.

(** An instance of C7: one day of candles, then status 503. *)
Lemma C7_non_200_status_witness :
  let final :=
    run_2026_11_03 [Response 200 "OK" (Decodes (JArr [candle_2021]));
                    Response 503 "Service Unavailable" NotJSON] in
  fst final = inr tt
  /\ List.length (requests (snd final)) = 2%nat
  /\ candle_data (snd final) = [record_2021]
  /\ files (snd final)
     = [{| file_name := "hourly_candles_20261103_120000.csv";
           fieldnames := csv_fieldnames; rows := [record_2021] |}].
Proof.
  cbv zeta. unfold run_2026_11_03.
  edestruct (C7_non_200_status
               (scripted noon_2026_11_03 noon_2026_11_03
                  [Response 200 "OK" (Decodes (JArr [candle_2021]));
                   Response 503 "Service Unavailable" NotJSON])
               "BTC-USD" 3600 1)
    as (_ & Hreturns & _ & Hsent & Hdata & Hfiles & _).
  - reflexivity.
  - vm_compute. reflexivity.
  - reflexivity.
  - discriminate.
  - rewrite Hreturns, Hsent, Hdata, Hfiles. repeat split.
Defined.

(** C8, as stated, fails: a body that is JSON but not an array of
    six-element arrays is not a parse failure for the script.  Here the one
    candle has three elements: [candle[3]] raises [IndexError], which leaves
    the loop and is logged by the handler of the function, not by the
    handler of [json.loads]. *)
Lemma C8_wrong_shape_propagates :
  let w := scripted noon_2026_11_03 noon_2026_11_03
             [Response 200 "OK"
                (Decodes (JArr [JArr [JInt 1; JInt 2; JInt 3]]))] in
  fst (fetch_loop w "BTC-USD" 3600 (fst (loop_entry w)) (snd (loop_entry w)))
  = inl IndexError
  /\ In (ERROR, ErrorFetchingData IndexError)
        (log (snd (run w "BTC-USD" 3600)))
  /\ ~ In (ERROR, ErrorDecodingJSON) (log (snd (run w "BTC-USD" 3600))).
Proof.
  cbv zeta. split; [vm_compute; reflexivity |].
  split.
  - vm_compute. do 9 right. left. reflexivity.
  - vm_compute. intros H.
    repeat (destruct H as [H | H]; [discriminate |]). exact H.
Qed.

(** C8 (amended): when the request of some pass of a run is answered with
    status 200 and a body that is not JSON ([json.loads] raises
    [JSONDecodeError]), the failure is logged, the loop is left by [break]
    with no exception leaving it, the function returns normally, and the
    [finally] block runs on the records accumulated so far. *)
Theorem C8_body_not_json w product_id granularity k end_time st reason :
  granularity_allowed granularity = true ->
  pass_of_run w product_id granularity k = Some (end_time, st) ->
  server w k = Response 200 reason NotJSON ->
  let final := run w product_id granularity in
  let csv_filename := generate_unique_csv_filename w in
  fst (fetch_loop w product_id granularity end_time st) = inr tt
  /\ fst final = inr tt
  /\ log (snd final)
     = log st ++ announcement product_id granularity end_time
       ++ [(INFO, ReceivedResponse 200 reason);
           (DEBUG, ResponseBody NotJSON);
           (ERROR, ErrorDecodingJSON)]
       ++ finalization_log csv_filename (candle_data st)
  /\ List.length (requests (snd final)) = S k
  /\ candle_data (snd final) = candle_data st
  /\ files (snd final) = finalization_files csv_filename (candle_data st).
Proof.
  intros Hallowed Hpass Hanswer final csv_filename.
  rewrite <- (answer_at_pass _ _ _ _ _ _ Hpass) in Hanswer.
  pose proof (iteration_not_json w product_id granularity end_time st
                reason Hanswer) as Hit.
  destruct (run_breaks_at_pass _ _ _ _ _ _ Hallowed Hpass _ Hit)
    as (Hloop & Hrun).
  destruct (pass_of_run_frame _ _ _ _ _ _ Hpass) as (_ & _ & Hlen & _).
  subst final csv_filename. cbv zeta.
  split; [rewrite Hloop; reflexivity |].
  split; [rewrite Hrun; reflexivity |].
  split; [rewrite Hrun; cbn; tidy |].
  split; [rewrite Hrun; cbn; rewrite length_app, Hlen; cbn; lia |].
  split; rewrite Hrun; cbn; tidy.
Qed.

(** An instance of C8 (amended): one day of candles, then a body that is
    not JSON. *)
Lemma C8_body_not_json_witness :
  let final :=
    run_2026_11_03 [Response 200 "OK" (Decodes (JArr [candle_2021]));
                    Response 200 "OK" NotJSON] in
  fst final = inr tt
  /\ List.length (requests (snd final)) = 2%nat
  /\ candle_data (snd final) = [record_2021]
  /\ files (snd final)
     = [{| file_name := "hourly_candles_20261103_120000.csv";
           fieldnames := csv_fieldnames; rows := [record_2021] |}].
Proof.
  cbv zeta. unfold run_2026_11_03.
  edestruct (C8_body_not_json
               (scripted noon_2026_11_03 noon_2026_11_03
                  [Response 200 "OK" (Decodes (JArr [candle_2021]));
                   Response 200 "OK" NotJSON])
               "BTC-USD" 3600 1)
    as (_ & Hreturns & _ & Hsent & Hdata & Hfiles).
  - reflexivity.
  - vm_compute. reflexivity.
  - reflexivity.
  - rewrite Hreturns, Hsent, Hdata, Hfiles. repeat split.
Defined.

(** C9: a [KeyboardInterrupt] raised while the request of some pass is
    sent is not an [Exception], so the handler around the request lets it
    through and it leaves the loop; the [except KeyboardInterrupt] clause of
    the function takes it (no error line is logged), the [finally] block
    writes the records accumulated so far, and the function returns
    normally. *)
Theorem C9_keyboard_interrupt w product_id granularity k end_time st :
  granularity_allowed granularity = true ->
  pass_of_run w product_id granularity k = Some (end_time, st) ->
  server w k = SendRaises KeyboardInterrupt ->
  let final := run w product_id granularity in
  let csv_filename := generate_unique_csv_filename w in
  fst (fetch_loop w product_id granularity end_time st) = inl KeyboardInterrupt
  /\ fst final = inr tt
  /\ log (snd final)
     = log st ++ announcement product_id granularity end_time
       ++ [(INFO, KeyboardInterruptDetected)]
       ++ finalization_log csv_filename (candle_data st)
  /\ candle_data (snd final) = candle_data st
  /\ files (snd final) = finalization_files csv_filename (candle_data st).
Proof.
  intros Hallowed Hpass Hanswer final csv_filename.
  rewrite <- (answer_at_pass _ _ _ _ _ _ Hpass) in Hanswer.
  pose proof (iteration_signal w product_id granularity end_time st
                KeyboardInterrupt Hanswer eq_refl) as Hit.
  destruct (run_raises_at_pass _ _ _ _ _ _ Hallowed Hpass _ _ Hit)
    as (Hloop & Hrun).
  subst final csv_filename. cbv zeta.
  split; [rewrite Hloop; reflexivity |].
  split; [rewrite Hrun; reflexivity |].
  split; [rewrite Hrun; cbn; tidy |].
  split; rewrite Hrun; cbn; tidy.
Qed.

(** An instance of C9: two days of candles, then the interrupt. *)
Lemma C9_keyboard_interrupt_witness :
  let final :=
    run_2026_11_03 [Response 200 "OK" (Decodes (JArr [candle_2021]));
                    Response 200 "OK" (Decodes (JArr [candle_2021]));
                    SendRaises KeyboardInterrupt] in
  fst final = inr tt
  /\ files (snd final)
     = [{| file_name := "hourly_candles_20261103_120000.csv";
           fieldnames := csv_fieldnames;
           rows := [record_2021; record_2021] |}].
Proof.
  cbv zeta. unfold run_2026_11_03.
  edestruct (C9_keyboard_interrupt
               (scripted noon_2026_11_03 noon_2026_11_03
                  [Response 200 "OK" (Decodes (JArr [candle_2021]));
                   Response 200 "OK" (Decodes (JArr [candle_2021]));
                   SendRaises KeyboardInterrupt])
               "BTC-USD" 3600 2)
    as (_ & Hreturns & _ & _ & Hfiles).
  - reflexivity.
  - vm_compute. reflexivity.
  - reflexivity.
  - rewrite Hreturns, Hfiles. repeat split.
Defined.

(** C10: when, in the response to the request of some pass, a candle
    yields no record after candles that did (a candle with fewer than six
    elements yields none), the exception leaves the loop and is logged by
    the handler of the function, the records of the earlier candles of that
    response stay in the accumulation list behind those of the earlier
    responses, and the [finally] block writes them all to the file. *)
Theorem C10_partial_response_kept w product_id granularity k end_time st
    reason good bad rest records e :
  granularity_allowed granularity = true ->
  pass_of_run w product_id granularity k = Some (end_time, st) ->
  server w k = Response 200 reason (Decodes (JArr (good ++ bad :: rest))) ->
  Forall2 (fun c r => make_candle_record product_id c = inr r) good records ->
  make_candle_record product_id bad = inl e ->
  let final := run w product_id granularity in
  let csv_filename := generate_unique_csv_filename w in
  fst (fetch_loop w product_id granularity end_time st) = inl e
  /\ fst final = inr tt
  /\ In (ERROR, ErrorFetchingData e) (log (snd final))
  /\ candle_data (snd final) = candle_data st ++ records
  /\ files (snd final)
     = finalization_files csv_filename (candle_data st ++ records)
  /\ (records <> [] ->
      files (snd final)
      = [{| file_name := csv_filename; fieldnames := csv_fieldnames;
            rows := candle_data st ++ records |}])
  /\ (forall items, (List.length items < 6)%nat ->
        exists e', make_candle_record product_id (JArr items) = inl e').
Proof.
  intros Hallowed Hpass Hanswer Hgood Hbad final csv_filename.
  rewrite <- (answer_at_pass _ _ _ _ _ _ Hpass) in Hanswer.
  pose proof (iteration_candle_raises w product_id granularity end_time st
                reason good bad rest records e Hanswer Hgood Hbad) as Hit.
  destruct (run_raises_at_pass _ _ _ _ _ _ Hallowed Hpass _ _ Hit)
    as (Hloop & Hrun).
  pose proof (make_candle_record_error _ _ _ Hbad) as Hexception.
  subst final csv_filename. cbv zeta.
  split; [rewrite Hloop; reflexivity |].
  split; [rewrite Hrun; cbn; rewrite Hexception; reflexivity |].
  split.
  { rewrite Hrun. cbn. rewrite Hexception. cbn.
    apply in_or_app. right. left. reflexivity. }
  split; [rewrite Hrun; reflexivity |].
  split; [rewrite Hrun; reflexivity |].
  split.
  { intros Hne. rewrite Hrun. cbn.
    destruct (candle_data st ++ records) eqn:Hall; [| reflexivity].
    apply app_eq_nil in Hall. destruct Hall as [_ Hall]. contradiction. }
  intros items. apply make_candle_record_short.
Qed.

(** An instance of C10: one day of candles, then a response whose second
    candle has three elements. *)
Lemma C10_partial_response_kept_witness :
  let final :=
    run_2026_11_03
      [Response 200 "OK" (Decodes (JArr [candle_2021]));
       Response 200 "OK"
         (Decodes (JArr [candle_2021;
                         JArr [JInt 1609455600; JInt 29000; JInt 29500];
                         candle_2021]))] in
  fst final = inr tt
  /\ In (ERROR, ErrorFetchingData IndexError) (log (snd final))
  /\ files (snd final)
     = [{| file_name := "hourly_candles_20261103_120000.csv";
           fieldnames := csv_fieldnames;
           rows := [record_2021; record_2021] |}].
Proof.
  cbv zeta. unfold run_2026_11_03.
  edestruct (fun end_time st =>
               C10_partial_response_kept
                 (scripted noon_2026_11_03 noon_2026_11_03
                    [Response 200 "OK" (Decodes (JArr [candle_2021]));
                     Response 200 "OK"
                       (Decodes
                          (JArr [candle_2021;
                                 JArr [JInt 1609455600; JInt 29000; JInt 29500];
                                 candle_2021]))])
                 "BTC-USD" 3600 1 end_time st "OK" [candle_2021]
                 (JArr [JInt 1609455600; JInt 29000; JInt 29500])
                 [candle_2021] [record_2021] IndexError)
    as (_ & Hreturns & Hlogged & _ & _ & Hfiles & _).
  - reflexivity.
  - vm_compute. reflexivity.
  - reflexivity.
  - repeat constructor.
  - reflexivity.
  - rewrite Hreturns, Hfiles by discriminate.
    split; [reflexivity |]. split; [exact Hlogged | reflexivity].
Defined.

(* ===================================================================== *)
(** * Further properties of the script *)
(* ===================================================================== *)

(** ** The requests of a run *)

(** X1: every request of a run asks for one whole UTC day that is over:
    its window starts and ends at a midnight, 24 hours apart, and ends no
    later than the clock reading the run started from. *)
Theorem X1_requests_whole_past_days w product_id granularity :
  Forall (fun r =>
            req_start r mod us_per_day = 0
            /\ req_end r mod us_per_day = 0
            /\ req_end r - req_start r = us_per_day
            /\ req_end r <= Z.of_N (utc_now w))
    (requests (snd (run w product_id granularity))).
Proof.
  destruct (run_requests w product_id granularity) as (n & Hr & _ & _).
  rewrite Hr. apply Forall_forall. intros r Hin.
  apply In_nth_error in Hin. destruct Hin as (i & Hi).
  apply windows_nth in Hi. destruct Hi as (_ & ->).
  cbn [window req_start req_end].
  pose proof (replace_midnight_aligned (Z.of_N (utc_now w))) as Ha.
  pose proof (replace_midnight_le (Z.of_N (utc_now w))) as Hle.
  repeat split.
  - apply timedelta_aligned, timedelta_aligned. exact Ha.
  - apply timedelta_aligned. exact Ha.
  - change (timedelta 1) with us_per_day. lia.
  - assert (0 <= timedelta (Z.of_nat i))
      by (unfold timedelta; apply Z.mul_nonneg_nonneg; [lia | discriminate]).
    lia.
Qed.

(** X2: a run sends at least one request when its granularity is allowed,
    and never more than one per day from the day before the one it starts
    on back to the floor date, 2015-07-20: with [d] whole days between the
    floor date and the midnight the run starts from, at most [d + 1]
    requests (and one request if the run starts before the floor date). *)
Theorem X2_requests_bounded w product_id granularity :
  let sent := List.length (requests (snd (run w product_id granularity))) in
  (if granularity_allowed granularity then (1 <= sent)%nat else sent = 0%nat)
  /\ Z.of_nat sent
     <= Z.max 1
          ((replace_midnight (Z.of_N (utc_now w)) - floor_date) / us_per_day + 1).
Proof.
  destruct (run_requests w product_id granularity) as (n & Hr & Hn & Hfl).
  cbv zeta. rewrite Hr, windows_length. split.
  - destruct (granularity_allowed granularity) eqn:Hg; [auto |].
    rewrite (run_refused _ _ _ Hg) in Hr. cbn in Hr.
    apply (f_equal (@List.length request)) in Hr.
    rewrite windows_length in Hr. cbn in Hr. congruence.
  - destruct n as [| [| n]]; [lia | lia |].
    specialize (Hfl (S n)). unfold timedelta in Hfl.
    assert (Hday : 0 < us_per_day) by reflexivity.
    assert (Hle : Z.of_nat (S n)
                  <= (replace_midnight (Z.of_N (utc_now w)) - floor_date)
                     / us_per_day).
    { apply Z.div_le_lower_bound; [exact Hday |]. lia. }
    lia.
Qed.

(** ** What the function hands back and writes *)


(** A run on any disk, from the way its loop ends: the [finally] block
    logs that it has nothing to write, or writes the file, or lets the
    exception of the write out in place of the outcome of the [try]
    statement. *)
Lemma run_on_allowed d w product_id granularity r st :
  granularity_allowed granularity = true ->
  fetch_loop w product_id granularity
    (fst (loop_entry w)) (snd (loop_entry w)) = (r, st) ->
  run_on d w product_id granularity
  = match candle_data st with
    | [] =>
        (fst (handled r),
         {| log := log st ++ snd (handled r) ++ [(INFO, NoDataToWrite)];
            requests := requests st; files := files st;
            candle_data := candle_data st |})
    | _ :: _ =>
        match d (generate_unique_csv_filename w) csv_fieldnames
                (candle_data st) with
        | Written =>
            (fst (handled r),
             {| log := log st ++ snd (handled r)
                       ++ [(INFO, WritingRecords (List.length (candle_data st)));
                           (INFO, SuccessfullyWrote
                                    (List.length (candle_data st))
                                    (generate_unique_csv_filename w))];
                requests := requests st;
                files := files st
                         ++ [{| file_name := generate_unique_csv_filename w;
                                fieldnames := csv_fieldnames;
                                rows := candle_data st |}];
                candle_data := candle_data st |})
        | WriteRaises e left_behind =>
            (inl e,
             {| log := log st ++ snd (handled r)
                       ++ [(INFO, WritingRecords (List.length (candle_data st)))];
                requests := requests st;
                files := files st ++ left_behind;
                candle_data := candle_data st |})
        end
    end.
Proof.
  intros Hg Hloop.
  unfold run_on, fetch_and_store_candles_on. rewrite Hg.
  cbn [negb]. unfold bind, ret, raise, lift, logging_info, logging_debug,
    logging_error, logging, candle_data_new.
  cbn [initial_state log requests files candle_data app].
  unfold try_finally, try_except.
  change (fetch_loop w product_id granularity _ _)
    with (fetch_loop w product_id granularity
            (fst (loop_entry w)) (snd (loop_entry w))).
  rewrite Hloop. unfold handled, finalization_on.
  unfold bind, ret, raise, lift, logging_info, logging_debug,
    logging_error, logging, candle_data_get, write_csv_on.
  destruct r as [e | []];
    [destruct (isinstance_Exception e);
       [| destruct (isinstance_KeyboardInterrupt e)] |];
    cbn [fst snd log requests files candle_data];
    destruct (candle_data st) as [| c data] eqn:Hdata;
    cbn [fst snd log requests files candle_data];
    rewrite ?Hdata;
    try (destruct (d (generate_unique_csv_filename w) csv_fieldnames
                     (c :: data)) as [| x left_behind]);
    cbn [fst snd log requests files candle_data];
    rewrite ?Hdata; repeat rewrite <- app_assoc; rewrite ?app_nil_r;
    reflexivity.
Qed.

Lemma run_on_refused d w product_id granularity :
  granularity_allowed granularity = false ->
  run_on d w product_id granularity
  = (inl (ValueError_granularity granularity),
     {| log := [(ERROR, InvalidGranularity granularity)];
        requests := []; files := []; candle_data := [] |}).
Proof.
  intros H. unfold run_on, fetch_and_store_candles_on. rewrite H. reflexivity.
Qed.

(** The loop writes no file. *)
Lemma fetch_loop_no_file w product_id granularity r st :
  fetch_loop w product_id granularity
    (fst (loop_entry w)) (snd (loop_entry w)) = (r, st) ->
  files st = [].
Proof.
  intros Hloop.
  destruct (fetch_loop_frame w product_id granularity
              (fst (loop_entry w)) (snd (loop_entry w)))
    as (_ & _ & _ & _ & Hf & _).
  rewrite Hloop in Hf. exact Hf.
Qed.

(** X3: the files a run leaves, on any disk.  None when no record was
    accumulated.  Otherwise the [finally] block writes one file, under the
    name generated at the start of the run, with the eight columns in the
    order of the source and all the accumulated records as its rows, in the
    order of accumulation, and then logs that it wrote them; if the write
    raises instead ([open] fails, a value cannot be encoded), that
    exception leaves the function, however the loop ended, nothing is
    logged after the line that announces the write, and the disk holds what
    the failed write left. *)
Theorem X3_one_file_with_all_records d w product_id granularity :
  let final := run_on d w product_id granularity in
  let name := generate_unique_csv_filename w in
  let columns := ["Exchange"; "Pair"; "Close Timestamp"; "Low"; "High";
                  "Open"; "Close"; "Volume"] in
  match candle_data (snd final) with
  | [] => files (snd final) = []
  | _ :: _ =>
      let data := candle_data (snd final) in
      match d name columns data with
      | Written =>
          files (snd final)
          = [{| file_name := name; fieldnames := columns; rows := data |}]
          /\ exists lines,
               log (snd final)
               = lines ++ [(INFO, WritingRecords (List.length data));
                           (INFO, SuccessfullyWrote (List.length data) name)]
      | WriteRaises e left_behind =>
          fst final = inl e
          /\ files (snd final) = left_behind
          /\ exists lines,
               log (snd final)
               = lines ++ [(INFO, WritingRecords (List.length data))]
      end
  end.
Proof.
  cbv zeta. destruct (granularity_allowed granularity) eqn:Hg;
    [| rewrite (run_on_refused _ _ _ _ Hg); reflexivity].
  destruct (fetch_loop w product_id granularity
              (fst (loop_entry w)) (snd (loop_entry w)))
    as [r st] eqn:Hloop.
  rewrite (run_on_allowed d _ _ _ _ _ Hg Hloop).
  rewrite (fetch_loop_no_file _ _ _ _ _ Hloop).
  change csv_fieldnames
    with ["Exchange"; "Pair"; "Close Timestamp"; "Low"; "High"; "Open";
          "Close"; "Volume"].
  destruct (candle_data st) as [| c data] eqn:Hdata.
  - reflexivity.
  - destruct (d (generate_unique_csv_filename w) _ (c :: data))
      as [| x left_behind] eqn:Hwrite;
      cbn [fst snd candle_data files log app]; rewrite ?Hdata; cbv iota;
      rewrite ?Hwrite.
    + split; [reflexivity |].
      exists (log st ++ snd (handled r)). rewrite app_assoc. reflexivity.
    + split; [reflexivity |]. split; [reflexivity |].
      exists (log st ++ snd (handled r)). rewrite app_assoc. reflexivity.
Qed.

(** ** Building a record *)

(** A record is built exactly from an array of at least six elements whose
    first element [fromtimestamp] accepts. *)
Lemma make_candle_record_inv product_id candle r :
  make_candle_record product_id candle = inr r ->
  exists t low high open close volume more instant,
    candle = JArr (t :: low :: high :: open :: close :: volume :: more)
    /\ Timestamp.fromtimestamp t = inr instant
    /\ r = {| Exchange := "Coinbase"; Pair := product_id;
              Close_Timestamp := isoformat instant;
              Low := low; High := high; Open_ := open; Close_ := close;
              Volume := volume |}.
Proof.
  unfold make_candle_record. intros H.
  destruct candle as [| b | z | f | s | items | members];
    try (cbn in H; discriminate).
  - (* a string: its first character is no timestamp *)
    destruct s as [| c s]; cbn in H; discriminate.
  - destruct items as [| t [| low [| high [| open [| close [| volume more]]]]]];
      cbn [getitem nth_error and_then ok error] in H;
      try discriminate;
      destruct (Timestamp.fromtimestamp t) as [e | instant] eqn:Ht;
      cbn [and_then] in H; try discriminate.
    injection H as <-.
    exists t, low, high, open, close, volume, more, instant.
    repeat split. exact Ht.
Qed.

Lemma make_candle_record_six product_id t low high open close volume more
    instant :
  Timestamp.fromtimestamp t = inr instant ->
  make_candle_record product_id
    (JArr (t :: low :: high :: open :: close :: volume :: more))
  = inr {| Exchange := "Coinbase"; Pair := product_id;
           Close_Timestamp := isoformat instant;
           Low := low; High := high; Open_ := open; Close_ := close;
           Volume := volume |}.
Proof.
  intros Ht. unfold make_candle_record.
  cbn [getitem nth_error ok and_then]. rewrite Ht. reflexivity.
Qed.

(** X4: a record is built from a candle exactly when the candle is an
    array of at least six elements whose first element [fromtimestamp]
    accepts; the record is then made of the first six elements, and what
    the array holds beyond them is ignored. *)
Theorem X4_record_iff_six_elements product_id candle r :
  make_candle_record product_id candle = inr r
  <-> exists t low high open close volume more instant,
        candle = JArr (t :: low :: high :: open :: close :: volume :: more)
        /\ Timestamp.fromtimestamp t = inr instant
        /\ r = {| Exchange := "Coinbase"; Pair := product_id;
                  Close_Timestamp := isoformat instant;
                  Low := low; High := high; Open_ := open; Close_ := close;
                  Volume := volume |}.
Proof.
  split.
  - apply make_candle_record_inv.
  - intros (t & low & high & open & close & volume & more & instant
            & -> & Ht & ->).
    apply make_candle_record_six. exact Ht.
Qed.

(** An integer is accepted as a timestamp only within the range of
    [datetime]. *)
Lemma ord2ymd_year_inv ordinal :
  1 <= fst (fst (Calendar.ord2ymd ordinal)) <= 9999 ->
  1 <= ordinal <= 3652059.
Proof.
  unfold Calendar.ord2ymd, Calendar.DI400Y, Calendar.DI100Y, Calendar.DI4Y.
  cbv zeta.
  destruct (_ || _) eqn:Hedge.
  - apply orb_true_iff in Hedge. rewrite !Z.eqb_eq in Hedge.
    cbn [fst]. intros H. Z.div_mod_to_equations. lia.
  - apply orb_false_iff in Hedge. rewrite !Z.eqb_neq in Hedge.
    destruct (_ <? _); cbn [fst]; intros H; Z.div_mod_to_equations; lia.
Qed.

Lemma to_datetime_inv sec us instant :
  Timestamp.to_datetime sec us = inr instant ->
  min_timestamp <= sec <= max_timestamp /\ instant = sec * us_per_second + us.
Proof.
  unfold Timestamp.to_datetime. intros H.
  pose proof (ord2ymd_year_inv (sec / seconds_per_day + Calendar.epoch_ordinal))
    as Hinv.
  destruct (Calendar.ord2ymd _) as [[year month] day]. cbn [fst] in Hinv.
  destruct (_ || _); [discriminate |].
  destruct ((year <? 1) || (9999 <? year)) eqn:Hyear; [discriminate |].
  apply orb_false_iff in Hyear. rewrite !Z.ltb_ge in Hyear.
  injection H as <-. split; [| reflexivity].
  specialize (Hinv ltac:(lia)).
  unfold min_timestamp, max_timestamp.
  change seconds_per_day with 86400 in Hinv.
  change Calendar.epoch_ordinal with 719163 in Hinv.
  Z.div_mod_to_equations. lia.
Qed.

Lemma fromtimestamp_int_inv seconds instant :
  Timestamp.fromtimestamp (JInt seconds) = inr instant ->
  min_timestamp <= seconds <= max_timestamp
  /\ instant = seconds * us_per_second.
Proof.
  cbn [Timestamp.fromtimestamp]. unfold Timestamp.of_int.
  destruct (Timestamp.in_time_t seconds); cbn [and_then ok error fst snd];
    [| discriminate].
  intros H. apply to_datetime_inv in H. lia.
Qed.

(** X5: an integer timestamp is accepted exactly when it lies between
    -62135596800 and 253402300799, the first and the last second of the
    years 1 to 9999, and it is then the instant that many seconds after the
    epoch; a candle whose timestamp lies outside yields no record. *)
Theorem X5_integer_timestamp_range seconds :
  (forall instant,
     Timestamp.fromtimestamp (JInt seconds) = inr instant
     <-> (-62135596800 <= seconds <= 253402300799
          /\ instant = seconds * 1000000))
  /\ (forall product_id low high open close volume,
        ~ -62135596800 <= seconds <= 253402300799 ->
        exists e,
          make_candle_record product_id
            (JArr [JInt seconds; low; high; open; close; volume]) = inl e).
Proof.
  assert (Hiff : forall instant,
     Timestamp.fromtimestamp (JInt seconds) = inr instant
     <-> (-62135596800 <= seconds <= 253402300799
          /\ instant = seconds * 1000000)).
  { intros instant. split.
    - intros H. apply fromtimestamp_int_inv in H.
      unfold min_timestamp, max_timestamp, us_per_second in H. lia.
    - intros [Hrange ->]. apply (fromtimestamp_int seconds Hrange). }
  split; [exact Hiff |].
  intros product_id low high open close volume Hout.
  destruct (make_candle_record product_id
              (JArr [JInt seconds; low; high; open; close; volume]))
    as [e | r] eqn:Hmake; [exists e; reflexivity |].
  apply make_candle_record_inv in Hmake.
  destruct Hmake as (t & l & h & o & c & v & more & instant & Heq & Ht & _).
  injection Heq as <- _ _ _ _ _ _.
  apply Hiff in Ht. tauto.
Qed.

(** ** More on one pass of the loop *)

Lemma make_candle_record_string product_id s :
  make_candle_record product_id (JStr s)
  = inl (match s with EmptyString => IndexError | String _ _ => TypeError end).
Proof. unfold make_candle_record. destruct s; reflexivity. Qed.

Section OnePassMore.

Variables (w : world) (product_id : string) (granularity : Z).
Variables (end_time : datetime) (st : state).

Let answer := server w (List.length (requests st)).
Let announced := announcement product_id granularity end_time.
Let asked := [window product_id granularity end_time].

(** Decoded data that is true in a boolean context but cannot be iterated
    over: the [for] statement raises. *)
Lemma iteration_not_iterable reason data e :
  answer = Response 200 reason (Decodes data) -> truthy data = true ->
  iterate data = inl e ->
  iteration w product_id granularity end_time st
  = (inl e,
     extend st (announced ++ [(INFO, ReceivedResponse 200 reason);
                              (DEBUG, ResponseBody (Decodes data));
                              (DEBUG, ReceivedData data)]) asked []).
Proof.
  unfold answer, iteration. unfold_stmt. cbn. intros -> Htrue Hiter. cbn.
  rewrite Htrue, Hiter. cbn. f_equal. state_eq.
Qed.

(** Decoded data whose items yield records up to one that does not. *)
Lemma iteration_item_raises reason data good bad rest records e :
  answer = Response 200 reason (Decodes data) -> truthy data = true ->
  iterate data = inr (good ++ bad :: rest) ->
  Forall2 (fun c r => make_candle_record product_id c = inr r)
    good records ->
  make_candle_record product_id bad = inl e ->
  iteration w product_id granularity end_time st
  = (inl e,
     extend st (announced ++ [(INFO, ReceivedResponse 200 reason);
                              (DEBUG, ResponseBody (Decodes data));
                              (DEBUG, ReceivedData data)]) asked records).
Proof.
  unfold answer, iteration. unfold_stmt. cbn.
  intros -> Htrue Hiter Hgood Hbad. cbn.
  rewrite Htrue, Hiter. cbn.
  rewrite (for_candle_in_raises _ _ _ _ _ _ Hgood Hbad). cbn.
  f_equal. state_eq.
Qed.

(** What a pass can raise: an [Exception], or what arrived from outside
    while the request was sent, while the body was read or in
    [json.loads]. *)
Lemma iteration_raises e st' :
  iteration w product_id granularity end_time st = (inl e, st') ->
  isinstance_Exception e = true \/ lets_in answer e.
Proof.
  unfold answer, iteration. unfold_stmt. cbn.
  destruct (server w _) as [e0 | status reason e0 | status reason b]; cbn.
  - destruct (isinstance_Exception e0) eqn:He0; cbn; [discriminate |].
    intros H. injection H as <- _. right. reflexivity.
  - intros H. injection H as <- _. right. reflexivity.
  - destruct (negb (status =? 200)) eqn:Hstatus; cbn;
      [intros H; injection H as <- _; left; reflexivity |].
    destruct b as [| e0 | data]; cbn; [discriminate | |].
    { intros H. injection H as <- _. right. cbn [lets_in].
      apply negb_false_iff, Z.eqb_eq in Hstatus. split; [exact Hstatus |].
      reflexivity. }
    destruct (negb (truthy data)); cbn; [discriminate |].
    destruct (iterate data) as [e0 | candles] eqn:Hiter; cbn.
    + intros H. injection H as <- _. left.
      destruct data; cbn in Hiter; try discriminate;
        injection Hiter as <-; reflexivity.
    + destruct (for_candle_in product_id candles _) as [[e0 | []] st1] eqn:Hfor;
        cbn.
      * intros H. injection H as <- _. left.
        clear - Hfor. revert Hfor.
        match goal with |- for_candle_in _ _ ?s = _ -> _ => generalize s end.
        induction candles as [| c candles IH]; intros s; cbn;
          [discriminate |].
        unfold_stmt.
        destruct (make_candle_record product_id c) as [e1 | r] eqn:Hc; cbn.
        -- intros H. injection H as <- _.
           eapply make_candle_record_error; eassumption.
        -- apply IH.
      * destruct (_ <? floor_date); cbn; discriminate.
Qed.

End OnePassMore.

(** What the loop can raise: an [Exception], or what arrived from outside
    at the last request of the loop. *)
Lemma fetch_loop_raises w product_id granularity end_time st :
  forall e st',
    fetch_loop w product_id granularity end_time st = (inl e, st') ->
    isinstance_Exception e = true
    \/ exists k, lets_in (server w k) e
                 /\ List.length (requests st') = S k.
Proof.
  funelim (fetch_loop w product_id granularity end_time st);
    try rewrite <- Heqcall; intros x stx Hx.
  - injection Hx as <- <-.
    match goal with
    | Hit : iteration _ _ _ _ _ = _ |- _ =>
        pose proof (iteration_frame w product_id granularity end_time st) as F;
        cbv zeta in F; rewrite Hit in F; cbn [snd] in F;
        destruct (iteration_raises _ _ _ _ _ _ _ Hit) as [He | He]
    end; [left; exact He | right].
    destruct F as (Fr & _). exists (List.length (requests st)).
    split; [exact He |]. rewrite Fr, length_app. cbn. lia.
  - match goal with
    | IH : forall e st', _ = _ -> _ |- _ => apply (IH _ _ Hx)
    end.
  - discriminate.
Qed.

(** ** More on runs that end at a given pass *)

Section RunEndsAtPassMore.

Variables (w : world) (product_id : string) (granularity : Z).
Variables (k : nat) (end_time : datetime) (st : state).

Hypothesis Hallowed : granularity_allowed granularity = true.
Hypothesis Hpass : pass_of_run w product_id granularity k = Some (end_time, st).

Let csv_filename := generate_unique_csv_filename w.

(** Pass [k] raises an [Exception]: the handler of the function logs it,
    the [finally] block runs, the function returns. *)
Lemma run_handles_at_pass e lines records :
  iteration w product_id granularity end_time st
  = (inl e, extend st lines [window product_id granularity end_time] records) ->
  isinstance_Exception e = true ->
  fetch_loop w product_id granularity end_time st
  = (inl e, extend st lines [window product_id granularity end_time] records)
  /\ run w product_id granularity
     = (inr tt,
        {| log := log st ++ lines ++ [(ERROR, ErrorFetchingData e)]
                  ++ finalization_log csv_filename (candle_data st ++ records);
           requests := requests st ++ [window product_id granularity end_time];
           files := finalization_files csv_filename (candle_data st ++ records);
           candle_data := candle_data st ++ records |}).
Proof.
  intros Hit He.
  destruct (run_raises_at_pass _ _ _ _ _ _ Hallowed Hpass _ _ Hit)
    as (Hloop & Hrun).
  split; [exact Hloop |]. rewrite Hrun. unfold handled. rewrite He.
  cbn [fst snd extend log requests files candle_data]. f_equal. f_equal.
  repeat rewrite <- app_assoc. reflexivity.
Qed.

(** Pass [k] ends the loop by [break]. *)
Lemma run_stops_at_pass lines records :
  iteration w product_id granularity end_time st
  = (inr Break,
     extend st lines [window product_id granularity end_time] records) ->
  fetch_loop w product_id granularity end_time st
  = (inr tt, extend st lines [window product_id granularity end_time] records)
  /\ run w product_id granularity
     = (inr tt,
        {| log := log st ++ lines
                  ++ finalization_log csv_filename (candle_data st ++ records);
           requests := requests st ++ [window product_id granularity end_time];
           files := finalization_files csv_filename (candle_data st ++ records);
           candle_data := candle_data st ++ records |}).
Proof.
  intros Hit.
  destruct (run_breaks_at_pass _ _ _ _ _ _ Hallowed Hpass _ Hit)
    as (Hloop & Hrun).
  split; [exact Hloop |]. rewrite Hrun.
  cbn [fst snd extend log requests files candle_data]. f_equal. f_equal.
  repeat rewrite <- app_assoc. reflexivity.
Qed.

End RunEndsAtPassMore.

(** X6: when sending the request of some pass of a run fails with an
    [Exception] (a transport failure), the failure is logged as an error,
    the loop is left by [break] with no exception leaving it, no further
    request is sent, the function returns normally, and the [finally] block
    runs on the records accumulated so far. *)
Theorem X6_send_failure_ends_the_loop w product_id granularity k end_time st e :
  granularity_allowed granularity = true ->
  pass_of_run w product_id granularity k = Some (end_time, st) ->
  server w k = SendRaises e ->
  isinstance_Exception e = true ->
  let final := run w product_id granularity in
  let csv_filename := generate_unique_csv_filename w in
  fst (fetch_loop w product_id granularity end_time st) = inr tt
  /\ fst final = inr tt
  /\ log (snd final)
     = log st ++ announcement product_id granularity end_time
       ++ [(ERROR, FailedToSendRequest e)]
       ++ finalization_log csv_filename (candle_data st)
  /\ List.length (requests (snd final)) = S k
  /\ candle_data (snd final) = candle_data st
  /\ files (snd final) = finalization_files csv_filename (candle_data st).
Proof.
  intros Hallowed Hpass Hanswer He final csv_filename.
  rewrite <- (answer_at_pass _ _ _ _ _ _ Hpass) in Hanswer.
  pose proof (iteration_send_failed w product_id granularity end_time st
                e Hanswer He) as Hit.
  destruct (run_stops_at_pass _ _ _ _ _ _ Hallowed Hpass _ _ Hit)
    as (Hloop & Hrun).
  destruct (pass_of_run_frame _ _ _ _ _ _ Hpass) as (_ & _ & Hlen & _).
  subst final csv_filename. cbv zeta.
  split; [rewrite Hloop; reflexivity |].
  split; [rewrite Hrun; reflexivity |].
  split; [rewrite Hrun; cbn; tidy |].
  split; [rewrite Hrun; cbn; rewrite length_app, Hlen; cbn; lia |].
  split; rewrite Hrun; cbn; tidy.
Qed.

(** An instance of X6: one day of candles, then the connection fails. *)
Lemma X6_send_failure_ends_the_loop_witness :
  let final :=
    run_2026_11_03 [Response 200 "OK" (Decodes (JArr [candle_2021]));
                    SendRaises OSError] in
  fst final = inr tt
  /\ List.length (requests (snd final)) = 2%nat
  /\ candle_data (snd final) = [record_2021]
  /\ files (snd final)
     = [{| file_name := "hourly_candles_20261103_120000.csv";
           fieldnames := csv_fieldnames; rows := [record_2021] |}].
Proof.
  cbv zeta. unfold run_2026_11_03.
  edestruct (fun end_time st =>
               X6_send_failure_ends_the_loop
                 (scripted noon_2026_11_03 noon_2026_11_03
                    [Response 200 "OK" (Decodes (JArr [candle_2021]));
                     SendRaises OSError])
                 "BTC-USD" 3600 1 end_time st OSError)
    as (_ & Hreturns & _ & Hsent & Hdata & Hfiles).
  - reflexivity.
  - vm_compute. reflexivity.
  - reflexivity.
  - reflexivity.
  - rewrite Hreturns, Hsent, Hdata, Hfiles. repeat split.
Defined.

(** X7: when the request of some pass of a run is answered with status 200
    and data that is false in a boolean context (the empty array, but also
    the empty object, [null], [false], 0 and the empty string), the pass
    takes it as the end of the data: it logs so at level INFO, the loop is
    left by [break], no error is logged, the function returns normally, and
    the [finally] block runs on the records accumulated so far. *)
Theorem X7_no_data_ends_the_loop w product_id granularity k end_time st
    reason data :
  granularity_allowed granularity = true ->
  pass_of_run w product_id granularity k = Some (end_time, st) ->
  server w k = Response 200 reason (Decodes data) ->
  In data [JArr []; JObj []; JNull; JBool false; JInt 0; JStr ""] ->
  let final := run w product_id granularity in
  let csv_filename := generate_unique_csv_filename w in
  fst (fetch_loop w product_id granularity end_time st) = inr tt
  /\ fst final = inr tt
  /\ log (snd final)
     = log st ++ announcement product_id granularity end_time
       ++ [(INFO, ReceivedResponse 200 reason);
           (DEBUG, ResponseBody (Decodes data));
           (DEBUG, ReceivedData data);
           (INFO, NoDataAvailable)]
       ++ finalization_log csv_filename (candle_data st)
  /\ List.length (requests (snd final)) = S k
  /\ candle_data (snd final) = candle_data st
  /\ files (snd final) = finalization_files csv_filename (candle_data st).
Proof.
  intros Hallowed Hpass Hanswer Hdata final csv_filename.
  assert (Hfalse : truthy data = false).
  { cbn [In] in Hdata.
    repeat (destruct Hdata as [<- | Hdata]; [reflexivity |]). contradiction. }
  rewrite <- (answer_at_pass _ _ _ _ _ _ Hpass) in Hanswer.
  pose proof (iteration_no_data w product_id granularity end_time st
                reason data Hanswer Hfalse) as Hit.
  destruct (run_stops_at_pass _ _ _ _ _ _ Hallowed Hpass _ _ Hit)
    as (Hloop & Hrun).
  destruct (pass_of_run_frame _ _ _ _ _ _ Hpass) as (_ & _ & Hlen & _).
  subst final csv_filename. cbv zeta.
  split; [rewrite Hloop; reflexivity |].
  split; [rewrite Hrun; reflexivity |].
  split; [rewrite Hrun; cbn; tidy |].
  split; [rewrite Hrun; cbn; rewrite length_app, Hlen; cbn; lia |].
  split; rewrite Hrun; cbn; tidy.
Qed.

(** An instance of X7: one day of candles, then an empty object. *)
Lemma X7_no_data_ends_the_loop_witness :
  let final :=
    run_2026_11_03 [Response 200 "OK" (Decodes (JArr [candle_2021]));
                    Response 200 "OK" (Decodes (JObj []))] in
  fst final = inr tt
  /\ List.length (requests (snd final)) = 2%nat
  /\ candle_data (snd final) = [record_2021]
  /\ files (snd final)
     = [{| file_name := "hourly_candles_20261103_120000.csv";
           fieldnames := csv_fieldnames; rows := [record_2021] |}].
Proof.
  cbv zeta. unfold run_2026_11_03.
  edestruct (fun end_time st =>
               X7_no_data_ends_the_loop
                 (scripted noon_2026_11_03 noon_2026_11_03
                    [Response 200 "OK" (Decodes (JArr [candle_2021]));
                     Response 200 "OK" (Decodes (JObj []))])
                 "BTC-USD" 3600 1 end_time st "OK" (JObj []))
    as (_ & Hreturns & _ & Hsent & Hdata & Hfiles).
  - reflexivity.
  - vm_compute. reflexivity.
  - reflexivity.
  - right. left. reflexivity.
  - rewrite Hreturns, Hsent, Hdata, Hfiles. repeat split.
Defined.

(** X8: when the request of some pass of a run is answered with status 200
    and JSON that is true in a boolean context but is not an array (an
    object such as an error message, a string, a number, [true]), nothing
    is appended to the accumulation list: the [for] statement or the first
    subscript raises [TypeError] (or [IndexError], for an object whose
    first key is the empty string), the handler of the function logs it, the
    function returns normally and the [finally] block runs on the records
    accumulated before. *)
Theorem X8_not_an_array_appends_nothing w product_id granularity k end_time st
    reason data :
  granularity_allowed granularity = true ->
  pass_of_run w product_id granularity k = Some (end_time, st) ->
  server w k = Response 200 reason (Decodes data) ->
  truthy data = true ->
  (forall items, data <> JArr items) ->
  let final := run w product_id granularity in
  let csv_filename := generate_unique_csv_filename w in
  exists e,
    (e = TypeError \/ e = IndexError)
    /\ fst (fetch_loop w product_id granularity end_time st) = inl e
    /\ fst final = inr tt
    /\ log (snd final)
       = log st ++ announcement product_id granularity end_time
         ++ [(INFO, ReceivedResponse 200 reason);
             (DEBUG, ResponseBody (Decodes data));
             (DEBUG, ReceivedData data);
             (ERROR, ErrorFetchingData e)]
         ++ finalization_log csv_filename (candle_data st)
    /\ candle_data (snd final) = candle_data st
    /\ files (snd final) = finalization_files csv_filename (candle_data st).
Proof.
  intros Hallowed Hpass Hanswer Htrue Hshape final csv_filename.
  rewrite <- (answer_at_pass _ _ _ _ _ _ Hpass) in Hanswer.
  assert (Hit : exists e,
    (e = TypeError \/ e = IndexError)
    /\ isinstance_Exception e = true
    /\ iteration w product_id granularity end_time st
       = (inl e,
          extend st
            (announcement product_id granularity end_time
             ++ [(INFO, ReceivedResponse 200 reason);
                 (DEBUG, ResponseBody (Decodes data));
                 (DEBUG, ReceivedData data)])
            [window product_id granularity end_time] [])).
  { destruct data as [| b | z | f | s | items | members].
    - discriminate.
    - exists TypeError. repeat split; [left; reflexivity |].
      apply (iteration_not_iterable _ _ _ _ _ _ _ _ Hanswer Htrue eq_refl).
    - exists TypeError. repeat split; [left; reflexivity |].
      apply (iteration_not_iterable _ _ _ _ _ _ _ _ Hanswer Htrue eq_refl).
    - exists TypeError. repeat split; [left; reflexivity |].
      apply (iteration_not_iterable _ _ _ _ _ _ _ _ Hanswer Htrue eq_refl).
    - destruct s as [| c s]; [discriminate |].
      exists TypeError. repeat split; [left; reflexivity |].
      apply (iteration_item_raises _ _ _ _ _ _ _
               [] (JStr (String c EmptyString)) (characters s) [] _
               Hanswer Htrue eq_refl (Forall2_nil _)).
      apply make_candle_record_string.
    - exfalso. apply (Hshape items). reflexivity.
    - destruct members as [| [key value] members]; [discriminate |].
      exists (match key with
              | EmptyString => IndexError
              | String _ _ => TypeError
              end).
      split; [destruct key; [right | left]; reflexivity |].
      split; [destruct key; reflexivity |].
      apply (iteration_item_raises _ _ _ _ _ _ _
               [] (JStr key) (map (fun kv => JStr (fst kv)) members) [] _
               Hanswer Htrue eq_refl (Forall2_nil _)).
      apply make_candle_record_string. }
  destruct Hit as (e & Hkind & He & Hit). exists e.
  destruct (run_handles_at_pass _ _ _ _ _ _ Hallowed Hpass _ _ _ Hit He)
    as (Hloop & Hrun).
  subst final csv_filename. cbv zeta.
  split; [exact Hkind |].
  split; [rewrite Hloop; reflexivity |].
  split; [rewrite Hrun; reflexivity |].
  split; [rewrite Hrun; cbn; tidy |].
  split; rewrite Hrun; cbn; tidy.
Qed.

(** An instance of X8: one day of candles, then an error message with
    status 200. *)
Lemma X8_not_an_array_appends_nothing_witness :
  let final :=
    run_2026_11_03
      [Response 200 "OK" (Decodes (JArr [candle_2021]));
       Response 200 "OK" (Decodes (JObj [("message", JStr "NotFound")]))] in
  fst final = inr tt
  /\ candle_data (snd final) = [record_2021].
Proof.
  cbv zeta. unfold run_2026_11_03.
  edestruct (fun end_time st =>
               X8_not_an_array_appends_nothing
                 (scripted noon_2026_11_03 noon_2026_11_03
                    [Response 200 "OK" (Decodes (JArr [candle_2021]));
                     Response 200 "OK"
                       (Decodes (JObj [("message", JStr "NotFound")]))])
                 "BTC-USD" 3600 1 end_time st "OK"
                 (JObj [("message", JStr "NotFound")]))
    as (e & _ & _ & Hreturns & _ & Hdata & _).
  - reflexivity.
  - vm_compute. reflexivity.
  - reflexivity.
  - reflexivity.
  - discriminate.
  - rewrite Hreturns, Hdata. split; reflexivity.
Defined.

(** X9: what leaves the function, on any disk, of the exceptions that
    arise where the embedding lets them arise (in the validation, where a
    request is sent, where its response is read and processed, where the
    file is written): the [ValueError] of a refused granularity; the
    exception of a failed write in the [finally] block; or what arrived
    from outside at the last request of the run (while it was sent, while
    the body was read, in [json.loads]), when that is neither an
    [Exception] nor a [KeyboardInterrupt].  So an [Exception] leaves the
    function only from the validation or from the write: none raised in the
    loop reaches the caller. *)
Theorem X9_what_leaves_the_function d w product_id granularity e :
  fst (run_on d w product_id granularity) = inl e ->
  let final := snd (run_on d w product_id granularity) in
  (granularity_allowed granularity = false
   /\ e = ValueError_granularity granularity)
  \/ (granularity_allowed granularity = true
      /\ candle_data final <> []
      /\ exists left_behind,
           d (generate_unique_csv_filename w) csv_fieldnames
             (candle_data final)
           = WriteRaises e left_behind)
  \/ (granularity_allowed granularity = true
      /\ isinstance_Exception e = false
      /\ isinstance_KeyboardInterrupt e = false
      /\ exists k,
           lets_in (server w k) e
           /\ List.length (requests final) = S k).
Proof.
  cbv zeta. destruct (granularity_allowed granularity) eqn:Hg.
  - destruct (fetch_loop w product_id granularity
                (fst (loop_entry w)) (snd (loop_entry w)))
      as [r st] eqn:Hloop.
    rewrite (run_on_allowed d _ _ _ _ _ Hg Hloop).
    assert (Hloop_raised :
      fst (handled r) = inl e ->
      isinstance_Exception e = false
      /\ isinstance_KeyboardInterrupt e = false
      /\ exists k,
           lets_in (server w k) e
           /\ List.length (requests st) = S k).
    { destruct r as [x | []]; cbn [handled]; [| discriminate].
      destruct (isinstance_Exception x) eqn:Hx; [discriminate |].
      destruct (isinstance_KeyboardInterrupt x) eqn:Hk; [discriminate |].
      cbn [fst]. intros H. injection H as <-.
      repeat split; try assumption.
      destruct (fetch_loop_raises _ _ _ _ _ _ _ Hloop) as [He | He];
        [congruence | exact He]. }
    destruct (candle_data st) as [| c data] eqn:Hdata.
    + cbn [fst snd requests candle_data]. intros H.
      right. right. split; [reflexivity |]. apply Hloop_raised, H.
    + destruct (d (generate_unique_csv_filename w) csv_fieldnames (c :: data))
        as [| x left_behind] eqn:Hwrite;
        cbn [fst snd requests candle_data]; intros H.
      * right. right. split; [reflexivity |]. apply Hloop_raised, H.
      * injection H as <-. right. left. split; [reflexivity |].
        split; [discriminate |].
        exists left_behind. exact Hwrite.
  - rewrite (run_on_refused _ _ _ _ Hg). cbn [fst]. intros H.
    injection H as <-. left. split; reflexivity.
Qed.

(** An instance of X9: the exchange has one candle, then no data, and the
    file cannot be opened. *)
Lemma X9_what_leaves_the_function_witness :
  let d : disk := fun _ _ _ => WriteRaises OSError [] in
  let w := scripted noon_2026_11_03 noon_2026_11_03
             [Response 200 "OK" (Decodes (JArr [candle_2021]));
              Response 200 "OK" (Decodes (JArr []))] in
  fst (run_on d w "BTC-USD" 3600) = inl OSError
  /\ candle_data (snd (run_on d w "BTC-USD" 3600)) = [record_2021]
  /\ files (snd (run_on d w "BTC-USD" 3600)) = []
  /\ (granularity_allowed 3600 = true
      /\ candle_data (snd (run_on d w "BTC-USD" 3600)) <> []
      /\ exists left_behind,
           d (generate_unique_csv_filename w) csv_fieldnames
             (candle_data (snd (run_on d w "BTC-USD" 3600)))
           = WriteRaises OSError left_behind).
Proof.
  cbv zeta.
  assert (Hraised :
    fst (run_on (fun _ _ _ => WriteRaises OSError [])
           (scripted noon_2026_11_03 noon_2026_11_03
              [Response 200 "OK" (Decodes (JArr [candle_2021]));
               Response 200 "OK" (Decodes (JArr []))]) "BTC-USD" 3600)
    = inl OSError) by (vm_compute; reflexivity).
  split; [exact Hraised |].
  split; [vm_compute; reflexivity |].
  split; [vm_compute; reflexivity |].
  destruct (X9_what_leaves_the_function _ _ _ _ _ Hraised)
    as [[Hrefused _] | [Hwrite | (_ & Hexception & _)]].
  - vm_compute in Hrefused. discriminate Hrefused.
  - exact Hwrite.
  - discriminate Hexception.
Defined.

(** ** Where the records come from *)

Lemma for_candle_in_records product_id data :
  forall st,
    exists added,
      candle_data (snd (for_candle_in product_id data st))
      = candle_data st ++ added
      /\ Forall (fun r => exists c, make_candle_record product_id c = inr r)
           added.
Proof.
  induction data as [| candle rest IH]; intros st; cbn [for_candle_in].
  - exists []. split; [symmetry; apply app_nil_r | constructor].
  - unfold_stmt.
    destruct (make_candle_record product_id candle) as [e | r] eqn:Hc; cbn.
    + exists []. split; [symmetry; apply app_nil_r | constructor].
    + destruct (IH {| log := log st; requests := requests st;
                      files := files st;
                      candle_data := candle_data st ++ [r] |})
        as (added & Heq & Hall).
      cbn [candle_data] in Heq.
      exists (r :: added). split.
      * rewrite Heq, <- app_assoc. reflexivity.
      * constructor; [exists candle; exact Hc | exact Hall].
Qed.

Lemma iteration_records w product_id granularity end_time st :
  exists added,
    candle_data (snd (iteration w product_id granularity end_time st))
    = candle_data st ++ added
    /\ Forall (fun r => exists c, make_candle_record product_id c = inr r)
         added.
Proof.
  assert (Hnil : forall l : list candle_record,
            exists added,
              l = l ++ added
              /\ Forall (fun r => exists c,
                                    make_candle_record product_id c = inr r)
                   added)
    by (intros l; exists []; split;
        [symmetry; apply app_nil_r | constructor]).
  unfold iteration. unfold_stmt. cbn.
  destruct (server w _) as [e | status reason e | status reason b]; cbn.
  - destruct (isinstance_Exception e); cbn; apply Hnil.
  - apply Hnil.
  - destruct (negb (status =? 200)); cbn; [apply Hnil |].
    destruct (json_loads b) as [e | [data |]]; cbn;
      [apply Hnil | | apply Hnil].
    destruct (negb (truthy data)); cbn; [apply Hnil |].
    destruct (iterate data) as [e | candles]; cbn; [apply Hnil |].
    match goal with
    | |- context [for_candle_in product_id candles ?s] =>
        destruct (for_candle_in_records product_id candles s)
          as (added & Heq & Hall);
        destruct (for_candle_in product_id candles s) as [[e | []] st1]
    end; cbn [snd candle_data] in Heq; cbn.
    + exists added. split; assumption.
    + destruct (_ <? floor_date); cbn; exists added; split; assumption.
Qed.

Lemma fetch_loop_records w product_id granularity end_time st :
  exists added,
    candle_data (snd (fetch_loop w product_id granularity end_time st))
    = candle_data st ++ added
    /\ Forall (fun r => exists c, make_candle_record product_id c = inr r)
         added.
Proof.
  funelim (fetch_loop w product_id granularity end_time st);
    try rewrite <- Heqcall;
    destruct (iteration_records w product_id granularity end_time st)
      as (added & Heq & Hall);
    match goal with
    | Hit : iteration _ _ _ _ _ = _ |- _ => rewrite Hit in Heq
    end; cbn [snd] in Heq.
  - exists added. split; assumption.
  - match goal with
    | IH : ex _ |- _ => destruct IH as (more & Hmore & Hmoreall)
    end.
    exists (added ++ more). split.
    + rewrite Hmore, Heq, <- app_assoc. reflexivity.
    + apply Forall_app. split; assumption.
  - exists added. split; assumption.
Qed.



(** ** A run down to the floor date *)

(** X11: when the exchange has candles for every day asked (each request
    answered with status 200 and a non-empty array of candles that all yield
    records), the run goes back to the floor date and stops there by
    itself: its last request is for the last day whose end is not before
    2015-07-20 (or its first request, if it starts before that date), the
    pass of that request logs that the stopping date is reached, the
    function returns normally, and the accumulation list holds the records
    of all the candles received, in the order received. *)
Theorem X11_stops_at_the_floor_date w product_id granularity
    (responses : list (list json)) (last : list json) :
  granularity_allowed granularity = true ->
  Forall (fun candles =>
            candles <> []
            /\ Forall (fun c => exists r, make_candle_record product_id c = inr r)
                 candles)
    (responses ++ [last]) ->
  (forall i candles,
     nth_error (responses ++ [last]) i = Some candles ->
     exists reason, server w i = Response 200 reason (Decodes (JArr candles))) ->
  (responses = []
   \/ floor_date
      <= replace_midnight (Z.of_N (utc_now w))
         - timedelta (Z.of_nat (List.length responses))) ->
  replace_midnight (Z.of_N (utc_now w))
  - timedelta (Z.of_nat (List.length responses)) - timedelta 1 < floor_date ->
  let final := run w product_id granularity in
  fst final = inr tt
  /\ List.length (requests (snd final)) = S (List.length responses)
  /\ In (INFO, ReachedStoppingDate) (log (snd final))
  /\ map inr (candle_data (snd final))
     = map (make_candle_record product_id) (List.concat (responses ++ [last])).
Proof.
  intros Hallowed Hgood Hserver Hfloor Hbelow final.
  destruct (passes_of_full_days w product_id granularity (responses ++ [last])
              Hgood Hserver (List.length responses))
    as (st & Hpass & Hdata).
  { rewrite length_app. lia. }
  { destruct Hfloor as [-> | Hfloor]; [left; reflexivity | right; exact Hfloor]. }
  rewrite firstn_app, firstn_all, Nat.sub_diag in Hdata.
  cbn [firstn] in Hdata. rewrite app_nil_r in Hdata.
  assert (Hnth : nth_error (responses ++ [last]) (List.length responses)
                 = Some last).
  { rewrite nth_error_app2 by lia. rewrite Nat.sub_diag. reflexivity. }
  destruct (Hserver _ _ Hnth) as [reason Hanswer].
  rewrite <- (answer_at_pass _ _ _ _ _ _ Hpass) in Hanswer.
  pose proof (proj1 (Forall_forall _ _) Hgood last
                (nth_error_In _ _ Hnth)) as [Hne Hall].
  destruct (all_records _ _ Hall) as [records Hrecords].
  pose proof (iteration_candles w product_id granularity
                (replace_midnight (Z.of_N (utc_now w))
                 - timedelta (Z.of_nat (List.length responses)))
                st reason last records Hanswer Hne Hrecords) as Hit.
  cbv zeta in Hit.
  apply Z.ltb_lt in Hbelow. rewrite Hbelow in Hit.
  destruct (run_stops_at_pass _ _ _ _ _ _ Hallowed Hpass _ _ Hit)
    as (_ & Hrun).
  destruct (pass_of_run_frame _ _ _ _ _ _ Hpass) as (_ & _ & Hlen & _).
  subst final. cbv zeta. rewrite Hrun.
  cbn [fst snd log requests candle_data].
  split; [reflexivity |].
  split; [rewrite length_app, Hlen; cbn; lia |].
  split.
  { apply in_or_app. right. apply in_or_app. left.
    apply in_or_app. right. left. reflexivity. }
  rewrite map_app, Hdata, (records_map _ _ _ Hrecords), <- map_app.
  f_equal. rewrite concat_app. cbn [List.concat]. rewrite app_nil_r.
  reflexivity.
Qed.

(** An instance of X11: a run started at noon of 2015-07-21 asks for
    2015-07-20 and for 2015-07-19, and stops. *)
Lemma X11_stops_at_the_floor_date_witness :
  let final :=
    run (scripted 1437480000000000 1437480000000000
           [Response 200 "OK" (Decodes (JArr [candle_2021; candle_2021]));
            Response 200 "OK" (Decodes (JArr [candle_2021]));
            Response 200 "OK" (Decodes (JArr [candle_2021]))])
      "BTC-USD" 3600 in
  fst final = inr tt
  /\ List.length (requests (snd final)) = 2%nat
  /\ candle_data (snd final) = [record_2021; record_2021; record_2021].
Proof.
  cbv zeta.
  set (w := scripted 1437480000000000 1437480000000000
              [Response 200 "OK" (Decodes (JArr [candle_2021; candle_2021]));
               Response 200 "OK" (Decodes (JArr [candle_2021]));
               Response 200 "OK" (Decodes (JArr [candle_2021]))]).
  assert (Hc : make_candle_record "BTC-USD" candle_2021 = inr record_2021)
    by (vm_compute; reflexivity).
  assert (Hr : exists r, make_candle_record "BTC-USD" candle_2021 = inr r)
    by (exists record_2021; exact Hc).
  assert (Hgood :
    Forall (fun candles =>
              candles <> []
              /\ Forall (fun c => exists r,
                                    make_candle_record "BTC-USD" c = inr r)
                   candles)
      ([[candle_2021; candle_2021]] ++ [[candle_2021]])).
  { apply Forall_cons;
      [split;
         [discriminate
         | apply Forall_cons;
             [exact Hr | apply Forall_cons; [exact Hr | apply Forall_nil]]]
      | apply Forall_cons;
          [split;
             [discriminate | apply Forall_cons; [exact Hr | apply Forall_nil]]
          | apply Forall_nil]]. }
  assert (Hserver :
    forall i candles,
      nth_error ([[candle_2021; candle_2021]] ++ [[candle_2021]]) i
      = Some candles ->
      exists reason, server w i = Response 200 reason (Decodes (JArr candles))).
  { intros [| [| i]] candles H; cbn [nth_error app] in H.
    - injection H as <-. exists "OK". reflexivity.
    - injection H as <-. exists "OK". reflexivity.
    - destruct i; discriminate. }
  assert (Hfloor :
    [[candle_2021; candle_2021]] = []
    \/ floor_date
       <= replace_midnight (Z.of_N (utc_now w))
          - timedelta (Z.of_nat (List.length [[candle_2021; candle_2021]])))
    by (right; vm_compute; discriminate).
  assert (Hbelow :
    replace_midnight (Z.of_N (utc_now w))
    - timedelta (Z.of_nat (List.length [[candle_2021; candle_2021]]))
    - timedelta 1 < floor_date)
    by (vm_compute; reflexivity).
  pose proof (X11_stops_at_the_floor_date w "BTC-USD" 3600
                [[candle_2021; candle_2021]] [candle_2021]
                eq_refl Hgood Hserver Hfloor Hbelow) as H.
  cbv zeta in H. cbn [List.concat map app List.length] in H. rewrite Hc in H.
  destruct H as (Hreturns & Hsent & _ & Hdata).
  split; [exact Hreturns |]. split; [exact Hsent |].
  apply (@map_inr_injective exc). exact Hdata.
Defined.

(** ** Dates, and how they are written *)

(** X12: [replace(hour=0, minute=0, second=0, microsecond=0)] keeps the
    date and sets the time of day to zero: the cursor the loop starts from
    is [datetime(year, month, day, tzinfo=UTC)] of the current UTC date. *)
Theorem X12_midnight_of_the_same_day (t : datetime) :
  let f := fields_of t in
  fields_of (replace_midnight t)
  = {| f_year := f_year f; f_month := f_month f; f_day := f_day f;
       f_hour := 0; f_minute := 0; f_second := 0; f_microsecond := 0 |}
  /\ replace_midnight t = datetime_utc (f_year f) (f_month f) (f_day f).
Proof. cbv zeta. exact (replace_midnight_date t). Qed.

Ltac split_padded H :=
  apply append_inj in H; [| rewrite !length_zero_padded; reflexivity];
  let Hfield := fresh "Hfield" in
  destruct H as [Hfield H];
  apply zero_padded_inj in Hfield; [| cbn; lia | cbn; lia].

(** X13: the name [generate_unique_csv_filename] gives is unique to the
    second, no further: two calls (local clocks within the years 1970 to
    9999) give the same name exactly when their clocks read the same
    second. *)
Theorem X13_filename_unique_to_the_second (w w' : world) :
  Z.of_N (local_now w) < datetime_utc 10000 1 1 ->
  Z.of_N (local_now w') < datetime_utc 10000 1 1 ->
  generate_unique_csv_filename w = generate_unique_csv_filename w'
  <-> Z.of_N (local_now w) / us_per_second
      = Z.of_N (local_now w') / us_per_second.
Proof.
  intros Hw Hw'. unfold generate_unique_csv_filename. cbv zeta.
  set (t := Z.of_N (local_now w)) in *.
  set (t' := Z.of_N (local_now w')) in *.
  assert (Ht : datetime_utc 1 1 1 <= t < datetime_utc 10000 1 1).
  { split; [| exact Hw].
    change (datetime_utc 1 1 1) with (-62135596800000000). subst t. lia. }
  assert (Ht' : datetime_utc 1 1 1 <= t' < datetime_utc 10000 1 1).
  { split; [| exact Hw'].
    change (datetime_utc 1 1 1) with (-62135596800000000). subst t'. lia. }
  split.
  - intros H.
    apply append_inj in H; [| reflexivity]. destruct H as [_ H].
    pose proof (fields_of_range t Ht) as Hyear.
    pose proof (fields_of_range t' Ht') as Hyear'.
    destruct (fields_of_sound t) as (_ & Hm & Hd & Hh & Hmin & Hs & Hus).
    destruct (fields_of_sound t') as (_ & Hm' & Hd' & Hh' & Hmin' & Hs' & Hus').
    pose proof (fields_of_inj_second t t') as Hinj.
    unfold strftime_Ymd_HMS in H. cbv zeta in H.
    repeat rewrite append_assoc in H.
    split_padded H. split_padded H. split_padded H.
    apply append_inj in H; [| reflexivity]. destruct H as [_ H].
    split_padded H. split_padded H.
    apply append_inj in H; [| rewrite !length_zero_padded; reflexivity].
    destruct H as [H _].
    apply zero_padded_inj in H; [| cbn; lia | cbn; lia].
    specialize (Hinj Hfield Hfield0 Hfield1 Hfield2 Hfield3 H).
    rewrite !microsecond_of in Hinj.
    change us_per_second with 1000000 in *.
    Z.div_mod_to_equations. lia.
  - intros H. rewrite (fields_of_second t t' H). reflexivity.
Qed.

(** An instance of X13: noon of 2026-11-03 and a quarter of a second
    later. *)
Lemma X13_filename_unique_to_the_second_witness :
  generate_unique_csv_filename (scripted noon_2026_11_03 noon_2026_11_03 [])
  = generate_unique_csv_filename
      (scripted (noon_2026_11_03 + 250000) noon_2026_11_03 []).
Proof.
  apply X13_filename_unique_to_the_second.
  - vm_compute. reflexivity.
  - vm_compute. reflexivity.
  - vm_compute. reflexivity.
Defined.

(** [isoformat] loses nothing: within the years a [datetime] can hold, the
    text determines the instant, to the microsecond. *)
Lemma isoformat_inj (t t' : datetime) :
  datetime_utc 1 1 1 <= t < datetime_utc 10000 1 1 ->
  datetime_utc 1 1 1 <= t' < datetime_utc 10000 1 1 ->
  isoformat t = isoformat t' -> t = t'.
Proof.
  intros Ht Ht' H.
  pose proof (fields_of_range t Ht) as Hyear.
  pose proof (fields_of_range t' Ht') as Hyear'.
  destruct (fields_of_sound t) as (_ & Hm & Hd & Hh & Hmin & Hs & Hus).
  destruct (fields_of_sound t') as (_ & Hm' & Hd' & Hh' & Hmin' & Hs' & Hus').
  pose proof (fields_of_inj_second t t') as Hinj.
  unfold isoformat in H. cbv zeta in H.
  split_padded H.
  apply append_inj in H; [| reflexivity]. destruct H as [_ H].
  split_padded H.
  apply append_inj in H; [| reflexivity]. destruct H as [_ H].
  split_padded H.
  apply append_inj in H; [| reflexivity]. destruct H as [_ H].
  split_padded H.
  apply append_inj in H; [| reflexivity]. destruct H as [_ H].
  split_padded H.
  apply append_inj in H; [| reflexivity]. destruct H as [_ H].
  split_padded H.
  specialize (Hinj Hfield Hfield0 Hfield1 Hfield2 Hfield3 Hfield4).
  assert (Hmicro : f_microsecond (fields_of t) = f_microsecond (fields_of t')).
  { destruct (Z.eqb_spec (f_microsecond (fields_of t)) 0) as [Hz | Hz];
      destruct (Z.eqb_spec (f_microsecond (fields_of t')) 0) as [Hz' | Hz'].
    - congruence.
    - cbn in H. discriminate H.
    - cbn in H. discriminate H.
    - rewrite !append_assoc in H.
      apply append_inj in H; [| reflexivity]. destruct H as [_ H].
      apply append_inj in H; [| rewrite !length_zero_padded; reflexivity].
      destruct H as [H _].
      apply zero_padded_inj in H; [exact H | cbn; lia | cbn; lia]. }
  lia.
Qed.

(** X14: the [Close Timestamp] of a record tells the candle's timestamp:
    two candles with integer timestamps whose records carry the same text
    have the same timestamp. *)
Theorem X14_close_timestamp_tells_the_second product_id product_id'
    (seconds seconds' : Z) (others others' : list json)
    (r r' : candle_record) :
  make_candle_record product_id (JArr (JInt seconds :: others)) = inr r ->
  make_candle_record product_id' (JArr (JInt seconds' :: others')) = inr r' ->
  Close_Timestamp r = Close_Timestamp r' ->
  seconds = seconds'.
Proof.
  intros Hr Hr' Htext.
  apply make_candle_record_inv in Hr, Hr'.
  destruct Hr as (t & ? & ? & ? & ? & ? & ? & instant & Hc & Ht & ->).
  destruct Hr' as (t' & ? & ? & ? & ? & ? & ? & instant' & Hc' & Ht' & ->).
  injection Hc as <- _. injection Hc' as <- _.
  apply fromtimestamp_int_inv in Ht, Ht'.
  destruct Ht as [Hrange ->]. destruct Ht' as [Hrange' ->].
  cbn [Close_Timestamp] in Htext.
  apply isoformat_inj in Htext.
  - change us_per_second with 1000000 in Htext. lia.
  - change (datetime_utc 1 1 1) with (-62135596800000000).
    change (datetime_utc 10000 1 1) with 253402300800000000.
    unfold min_timestamp, max_timestamp, us_per_second in *. lia.
  - change (datetime_utc 1 1 1) with (-62135596800000000).
    change (datetime_utc 10000 1 1) with 253402300800000000.
    unfold min_timestamp, max_timestamp, us_per_second in *. lia.
Qed.

(** An instance of X14: two candles of 2021-01-01T00:00:00Z, for different
    products and with different prices. *)
Lemma X14_close_timestamp_tells_the_second_witness :
  let other :=
    {| Exchange := "Coinbase"; Pair := "ETH-USD";
       Close_Timestamp := "2021-01-01T00:00:00+00:00";
       Low := JInt 1; High := JInt 2; Open_ := JInt 3; Close_ := JInt 4;
       Volume := JInt 5 |} in
  make_candle_record "BTC-USD" candle_2021 = inr record_2021
  /\ make_candle_record "ETH-USD"
       (JArr [JInt 1609459200; JInt 1; JInt 2; JInt 3; JInt 4; JInt 5])
     = inr other
  /\ Close_Timestamp record_2021 = Close_Timestamp other
  /\ 1609459200 = 1609459200.
Proof.
  cbv zeta.
  assert (H1 : make_candle_record "BTC-USD" candle_2021 = inr record_2021)
    by (vm_compute; reflexivity).
  assert (H2 : make_candle_record "ETH-USD"
                 (JArr [JInt 1609459200; JInt 1; JInt 2; JInt 3; JInt 4;
                        JInt 5])
               = inr {| Exchange := "Coinbase"; Pair := "ETH-USD";
                        Close_Timestamp := "2021-01-01T00:00:00+00:00";
                        Low := JInt 1; High := JInt 2; Open_ := JInt 3;
                        Close_ := JInt 4; Volume := JInt 5 |})
    by (vm_compute; reflexivity).
  split; [exact H1 |]. split; [exact H2 |]. split; [reflexivity |].
  exact (X14_close_timestamp_tells_the_second _ _ _ _ _ _ _ _ H1 H2 eq_refl).
Defined.

(** ** The script as a whole *)

(** Nothing in the script reads the log, statement by statement. *)
Lemma log_blind_ret {A} (a : A) : log_blind (ret a).
Proof. intros lines st. reflexivity. Qed.

Lemma log_blind_raise {A} (e : exc) : log_blind (@raise A e).
Proof. intros lines st. reflexivity. Qed.

Lemma log_blind_lift {A} (r : result A) : log_blind (lift r).
Proof. intros lines st. reflexivity. Qed.

Lemma log_blind_logging l m : log_blind (logging l m).
Proof.
  intros lines st. unfold logging, after_lines.
  cbn [fst snd log requests files candle_data].
  rewrite app_assoc. reflexivity.
Qed.

Lemma log_blind_candle_data_new : log_blind candle_data_new.
Proof. intros lines st. reflexivity. Qed.

Lemma log_blind_candle_data_append r : log_blind (candle_data_append r).
Proof. intros lines st. reflexivity. Qed.

Lemma log_blind_candle_data_get : log_blind candle_data_get.
Proof. intros lines st. reflexivity. Qed.

Lemma log_blind_send w r : log_blind (send w r).
Proof. intros lines st. reflexivity. Qed.

Lemma log_blind_write_csv_on d name columns data :
  log_blind (write_csv_on d name columns data).
Proof.
  intros lines st. unfold write_csv_on.
  destruct (d name columns data); reflexivity.
Qed.

Lemma log_blind_write_csv name columns data :
  log_blind (write_csv name columns data).
Proof. apply log_blind_write_csv_on. Qed.

Lemma log_blind_bind {A B} (m : stmt A) (k : A -> stmt B) :
  log_blind m -> (forall a, log_blind (k a)) -> log_blind (bind m k).
Proof.
  intros Hm Hk lines st. unfold bind. rewrite Hm.
  destruct (m st) as [[e | a] st']; cbn [fst snd]; [reflexivity |].
  apply Hk.
Qed.

Lemma log_blind_try_except body on_Exception on_KeyboardInterrupt :
  log_blind body -> (forall e, log_blind (on_Exception e)) ->
  log_blind on_KeyboardInterrupt ->
  log_blind (try_except body on_Exception on_KeyboardInterrupt).
Proof.
  intros Hbody Hexc Hint lines st. unfold try_except. rewrite Hbody.
  destruct (body st) as [[e | []] st']; cbn [fst snd]; [| reflexivity].
  destruct (isinstance_Exception e); [apply Hexc |].
  destruct (isinstance_KeyboardInterrupt e); [apply Hint | reflexivity].
Qed.

Lemma log_blind_try_finally body cleanup :
  log_blind body -> log_blind cleanup ->
  log_blind (try_finally body cleanup).
Proof.
  intros Hbody Hcleanup lines st. unfold try_finally. rewrite Hbody.
  destruct (body st) as [r st']; cbn [fst snd]. rewrite Hcleanup.
  destruct (cleanup st') as [[e | []] st'']; reflexivity.
Qed.

Create HintDb log_blind.

#[local] Hint Resolve log_blind_ret log_blind_raise log_blind_lift
  log_blind_logging log_blind_candle_data_new log_blind_candle_data_append
  log_blind_candle_data_get log_blind_send log_blind_write_csv_on
  log_blind_write_csv : log_blind.

Ltac log_blind :=
  repeat first
    [ progress auto with log_blind
    | progress unfold logging_info, logging_debug, logging_error
    | apply log_blind_bind; [| intros ?]
    | apply log_blind_try_finally
    | apply log_blind_try_except; [| intros ? |]
    | match goal with
      | |- log_blind (if ?b then _ else _) => destruct b
      | |- log_blind (match ?x with _ => _ end) => destruct x
      end ].

Lemma log_blind_for_candle_in product_id data :
  log_blind (for_candle_in product_id data).
Proof.
  induction data as [| candle rest IH]; cbn [for_candle_in]; log_blind.
Qed.

Lemma log_blind_iteration w product_id granularity end_time :
  log_blind (iteration w product_id granularity end_time).
Proof.
  pose proof (log_blind_for_candle_in product_id) as Hfor.
  unfold iteration, logging_info, logging_debug, logging_error. cbv zeta.
  log_blind.
Qed.

Lemma log_blind_fetch_loop w product_id granularity end_time :
  log_blind (fetch_loop w product_id granularity end_time).
Proof.
  intros lines st. revert lines.
  funelim (fetch_loop w product_id granularity end_time st);
    try rewrite <- Heqcall; intros lines;
    rewrite fetch_loop_eq, log_blind_iteration;
    match goal with
    | Hit : iteration _ _ _ _ _ = _ |- _ => rewrite Hit
    end; cbn [fst snd]; try reflexivity.
  match goal with
  | IH : forall lines, _ = _ |- _ => apply IH
  end.
Qed.

Lemma log_blind_finalization_on d csv_filename :
  log_blind (finalization_on d csv_filename).
Proof. unfold finalization_on, logging_info. log_blind. Qed.

Lemma log_blind_finalization csv_filename :
  log_blind (finalization csv_filename).
Proof. apply log_blind_finalization_on. Qed.

Lemma log_blind_fetch_and_store_candles_on d w product_id granularity :
  log_blind (fetch_and_store_candles_on d w product_id granularity).
Proof.
  pose proof (log_blind_fetch_loop w product_id granularity) as Hloop.
  pose proof (log_blind_finalization_on d (generate_unique_csv_filename w))
    as Hfin.
  unfold fetch_and_store_candles_on, logging_info, logging_error. cbv zeta.
  log_blind.
Qed.

Lemma log_blind_fetch_and_store_candles w product_id granularity :
  log_blind (fetch_and_store_candles w product_id granularity).
Proof. apply log_blind_fetch_and_store_candles_on. Qed.

(** No [Exception] leaves the function when the granularity is allowed. *)
Lemma run_raises_no_Exception w product_id granularity e :
  granularity_allowed granularity = true ->
  fst (run w product_id granularity) = inl e ->
  isinstance_Exception e = false.
Proof.
  intros Hg.
  destruct (fetch_loop w product_id granularity
              (fst (loop_entry w)) (snd (loop_entry w)))
    as [r st] eqn:Hloop.
  rewrite (run_allowed _ _ _ _ _ Hg Hloop). cbn [fst].
  destruct r as [x | []]; cbn [handled]; [| discriminate].
  destruct (isinstance_Exception x) eqn:Hx; [discriminate |].
  destruct (isinstance_KeyboardInterrupt x); [discriminate |].
  cbn [fst]. intros H. injection H as <-. exact Hx.
Qed.

(** X15: the script is the call [fetch_and_store_candles("BTC-USD", 3600)]
    after one log line.  The granularity it passes is an allowed one, so at
    least one request is sent; what the call returns or raises, its
    requests, its file and its accumulation list are the script's, and its
    log is the starting line followed by the call's log.  The script's own
    [except Exception] clause adds nothing: no [Exception] leaves the call,
    the file, when there is one, being written without error. *)
Theorem X15_script_is_one_call w :
  let call := run w "BTC-USD" 3600 in
  main w initial_state
  = (fst call, after_lines [(INFO, StartingProcess)] (snd call))
  /\ requests (snd call) <> [].
Proof.
  cbv zeta.
  assert (Hmain :
    main w initial_state
    = (fst (run w "BTC-USD" 3600),
       after_lines [(INFO, StartingProcess)] (snd (run w "BTC-USD" 3600)))).
  { unfold main, main_on, bind, logging_info, logging.
    cbn [initial_state log requests files candle_data app].
    change (fetch_and_store_candles_on writable)
      with fetch_and_store_candles.
    change {| log := [(INFO, StartingProcess)]; requests := [];
              files := []; candle_data := [] |}
      with (after_lines [(INFO, StartingProcess)] initial_state).
    rewrite log_blind_fetch_and_store_candles.
    fold (run w "BTC-USD" 3600).
    pose proof (run_raises_no_Exception w "BTC-USD" 3600) as Hno.
    destruct (run w "BTC-USD" 3600) as [[e | []] st]; cbn [fst snd] in *;
      [| reflexivity].
    rewrite (Hno e eq_refl eq_refl). reflexivity. }
  split; [exact Hmain |].
  destruct (run_requests w "BTC-USD" 3600) as (n & Hr & Hn & _).
  rewrite Hr. specialize (Hn eq_refl).
  destruct n as [| n]; [lia |].
  rewrite windows_S. discriminate.
Qed.

(** ** The path of the requests *)

Lemma contains_app c (a b : string) :
  contains c (a ++ b) = contains c a || contains c b.
Proof.
  induction a as [| x a IH]; cbn [append contains]; [reflexivity |].
  rewrite IH, orb_assoc. reflexivity.
Qed.

Lemma before_all c s : contains c s = false -> before c s = s.
Proof.
  induction s as [| x s IH]; cbn [contains before]; [reflexivity |].
  intros H. apply orb_false_iff in H. destruct H as [Hx Hs].
  rewrite Hx, (IH Hs). reflexivity.
Qed.

Lemma contains_before c s : contains c (before c s) = false.
Proof.
  induction s as [| x s IH]; cbn [before]; [reflexivity |].
  destruct (x =? c)%char eqn:Hx; [reflexivity |].
  cbn [contains]. rewrite Hx, IH. reflexivity.
Qed.

Lemma contains_before_other c c' s :
  contains c s = false -> contains c (before c' s) = false.
Proof.
  induction s as [| x s IH]; cbn [contains before]; [reflexivity |].
  intros H. apply orb_false_iff in H. destruct H as [Hx Hs].
  destruct (x =? c')%char; [reflexivity |].
  cbn [contains]. rewrite Hx, (IH Hs). reflexivity.
Qed.

Lemma contains_before_params c url :
  contains c url = false -> contains c (before_params url) = false.
Proof.
  induction url as [| x url IH]; cbn [contains before_params];
    [reflexivity |].
  intros H. apply orb_false_iff in H. destruct H as [Hx Hs].
  destruct (contains "/" url);
    [cbn [contains]; rewrite Hx, (IH Hs); reflexivity |].
  destruct (x =? ";")%char; [reflexivity |].
  cbn [contains]. rewrite Hx, (IH Hs). reflexivity.
Qed.

Lemma remove_unsafe_none s :
  contains "009" s = false -> contains "013" s = false ->
  contains "010" s = false ->
  remove_unsafe s = s.
Proof.
  induction s as [| x s IH]; cbn [contains remove_unsafe]; [reflexivity |].
  intros Ht Hr Hn.
  apply orb_false_iff in Ht, Hr, Hn.
  destruct Ht as [Ht Ht'], Hr as [Hr Hr'], Hn as [Hn Hn'].
  unfold unsafe_url_byte. rewrite Ht, Hr, Hn. cbn [orb].
  rewrite (IH Ht' Hr' Hn'). reflexivity.
Qed.

(** The last segment of the base URL has no parameters. *)
Lemma before_params_candles (a : string) :
  before_params (a ++ "/candles") = (a ++ "/candles")%string.
Proof.
  induction a as [| x a IH]; [reflexivity |].
  cbn [append before_params]. rewrite contains_app.
  replace (contains "/" "/candles") with true by reflexivity.
  rewrite orb_true_r, IH. reflexivity.
Qed.

Lemma url_path_plain product_id :
  (forall c, In c ["009"; "010"; "013"; "#"; "?"]%char ->
             contains c product_id = false) ->
  url_path product_id = ("/products/" ++ product_id ++ "/candles")%string.
Proof.
  intros H. unfold url_path.
  assert (Hnone : forall c,
            In c ["009"; "010"; "013"; "#"; "?"]%char ->
            contains c ("/products/" ++ product_id ++ "/candles") = false).
  { intros c Hc. rewrite !contains_app, (H c Hc).
    cbn [In] in Hc.
    repeat (destruct Hc as [<- | Hc]; [reflexivity |]). destruct Hc. }
  rewrite remove_unsafe_none
    by (apply Hnone; cbn [In]; auto 6).
  rewrite (before_all "#") by (apply Hnone; cbn [In]; auto 6).
  rewrite (before_all "?") by (apply Hnone; cbn [In]; auto 6).
  rewrite <- append_assoc. apply before_params_candles.
Qed.

Lemma url_path_no_query product_id :
  contains "?" (url_path product_id) = false
  /\ contains "#" (url_path product_id) = false.
Proof.
  unfold url_path. split.
  - apply contains_before_params, contains_before.
  - apply contains_before_params, contains_before_other, contains_before.
Qed.

(** X16: the path of every request of a run is the path [urlparse] finds
    in the base URL.  It holds no [?] and no [#], so that the query the
    script appends is the whole query of the request; it is
    [/products/<product_id>/candles] when the product has no tab, line
    feed, carriage return, [#] or [?]; a product such as [BTC-USD?x] is cut:
    its requests go to [/products/BTC-USD]. *)
Theorem X16_path_of_the_requests w product_id granularity :
  Forall (fun r =>
            contains "?" (req_path r) = false
            /\ contains "#" (req_path r) = false
            /\ ((forall c, In c ["009"; "010"; "013"; "#"; "?"]%char ->
                           contains c product_id = false) ->
                req_path r = ("/products/" ++ product_id ++ "/candles")%string))
    (requests (snd (run w product_id granularity)))
  /\ Forall (fun r => req_path r = "/products/BTC-USD")
       (requests (snd (run w "BTC-USD?x" granularity))).
Proof.
  assert (Hpath : forall p,
    Forall (fun r => req_path r = url_path p)
      (requests (snd (run w p granularity)))).
  { intros p.
    destruct (run_requests w p granularity) as (n & Hr & _ & _).
    rewrite Hr. apply Forall_forall. intros r Hin.
    apply In_nth_error in Hin. destruct Hin as (i & Hi).
    apply windows_nth in Hi. destruct Hi as (_ & ->). reflexivity. }
  split.
  - eapply Forall_impl; [| apply Hpath].
    intros r ->. destruct (url_path_no_query product_id) as [Hq Hf].
    split; [exact Hq |]. split; [exact Hf |]. apply url_path_plain.
  - eapply Forall_impl; [| apply Hpath]. intros r ->. reflexivity.
Qed.

(** ** Failures while a response is read *)

Section OnePassRead.

Variables (w : world) (product_id : string) (granularity : Z).
Variables (end_time : datetime) (st : state).

Let answer := server w (List.length (requests st)).
Let announced := announcement product_id granularity end_time.
Let asked := [window product_id granularity end_time].

(** [response.read().decode()] raises: the exception leaves the loop
    before the body is logged and before the status is looked at. *)
Lemma iteration_read_raises status reason e :
  answer = ReadRaises status reason e ->
  iteration w product_id granularity end_time st
  = (inl e,
     extend st (announced ++ [(INFO, ReceivedResponse status reason)])
       asked []).
Proof.
  unfold answer, iteration. unfold_stmt. cbn. intros ->. cbn.
  f_equal. state_eq.
Qed.

(** [json.loads] raises something the [except] clause of line 78 does not
    catch: the exception leaves the loop. *)
Lemma iteration_loads_raises reason e :
  answer = Response 200 reason (LoadsRaises e) ->
  iteration w product_id granularity end_time st
  = (inl e,
     extend st (announced ++ [(INFO, ReceivedResponse 200 reason);
                              (DEBUG, ResponseBody (LoadsRaises e))])
       asked []).
Proof.
  unfold answer, iteration. unfold_stmt. cbn. intros ->. cbn.
  f_equal. state_eq.
Qed.

End OnePassRead.

(** X17: when, at some pass of a run, reading the body of the response
    raises an [Exception] (the connection breaks, the bytes are not UTF-8),
    or [json.loads] raises one that is not a [JSONDecodeError] (a
    [RecursionError], a [ValueError] on a number of too many digits), the
    exception is not taken for a body that is not JSON: it leaves the loop,
    the handler of the function logs it, no decoding error is logged, the
    function returns normally and the [finally] block runs on the records
    accumulated before. *)
Theorem X17_read_failure_reaches_the_handler w product_id granularity k
    end_time st e :
  granularity_allowed granularity = true ->
  pass_of_run w product_id granularity k = Some (end_time, st) ->
  (exists status reason, server w k = ReadRaises status reason e)
  \/ (exists reason, server w k = Response 200 reason (LoadsRaises e)) ->
  isinstance_Exception e = true ->
  let final := run w product_id granularity in
  let csv_filename := generate_unique_csv_filename w in
  fst (fetch_loop w product_id granularity end_time st) = inl e
  /\ fst final = inr tt
  /\ (exists lines,
        log (snd final)
        = log st ++ announcement product_id granularity end_time
          ++ lines ++ [(ERROR, ErrorFetchingData e)]
          ++ finalization_log csv_filename (candle_data st)
        /\ ~ In (ERROR, ErrorDecodingJSON) lines)
  /\ List.length (requests (snd final)) = S k
  /\ candle_data (snd final) = candle_data st
  /\ files (snd final) = finalization_files csv_filename (candle_data st).
Proof.
  intros Hallowed Hpass Hanswer He final csv_filename.
  assert (Hit : exists lines,
    iteration w product_id granularity end_time st
    = (inl e,
       extend st (announcement product_id granularity end_time ++ lines)
         [window product_id granularity end_time] [])
    /\ ~ In (ERROR, ErrorDecodingJSON) lines).
  { destruct Hanswer as [(status & reason & Hanswer) | (reason & Hanswer)];
      rewrite <- (answer_at_pass _ _ _ _ _ _ Hpass) in Hanswer.
    - eexists. split;
        [apply (iteration_read_raises _ _ _ _ _ _ _ _ Hanswer) |].
      intros [H | []]. discriminate H.
    - eexists. split;
        [apply (iteration_loads_raises _ _ _ _ _ _ _ Hanswer) |].
      intros [H | [H | []]]; discriminate H. }
  destruct Hit as (lines & Hit & Hlines).
  destruct (run_handles_at_pass _ _ _ _ _ _ Hallowed Hpass _ _ _ Hit He)
    as (Hloop & Hrun).
  destruct (pass_of_run_frame _ _ _ _ _ _ Hpass) as (_ & _ & Hlen & _).
  subst final csv_filename. cbv zeta.
  split; [rewrite Hloop; reflexivity |].
  split; [rewrite Hrun; reflexivity |].
  split.
  { exists lines. split; [| exact Hlines]. rewrite Hrun. cbn. tidy. }
  split; [rewrite Hrun; cbn; rewrite length_app, Hlen; cbn; lia |].
  split; rewrite Hrun; cbn; tidy.
Qed.

(** An instance of X17: one day of candles, then a response whose body
    cannot be read. *)
Lemma X17_read_failure_reaches_the_handler_witness :
  let final :=
    run_2026_11_03 [Response 200 "OK" (Decodes (JArr [candle_2021]));
                    ReadRaises 200 "OK" OSError] in
  fst final = inr tt
  /\ List.length (requests (snd final)) = 2%nat
  /\ candle_data (snd final) = [record_2021]
  /\ files (snd final)
     = [{| file_name := "hourly_candles_20261103_120000.csv";
           fieldnames := csv_fieldnames; rows := [record_2021] |}].
Proof.
  cbv zeta. unfold run_2026_11_03.
  edestruct (fun end_time st =>
               X17_read_failure_reaches_the_handler
                 (scripted noon_2026_11_03 noon_2026_11_03
                    [Response 200 "OK" (Decodes (JArr [candle_2021]));
                     ReadRaises 200 "OK" OSError])
                 "BTC-USD" 3600 1 end_time st OSError)
    as (_ & Hreturns & _ & Hsent & Hdata & Hfiles).
  - reflexivity.
  - vm_compute. reflexivity.
  - left. exists 200, "OK". reflexivity.
  - reflexivity.
  - rewrite Hreturns, Hsent, Hdata, Hfiles. repeat split.
Defined.

(** ** The script when the file cannot be written *)

(** A pass that gets candles of which the first yields a record appends
    that record, whatever becomes of the others. *)
Lemma iteration_first_candle w product_id granularity end_time st reason
    c candles r :
  server w (List.length (requests st))
  = Response 200 reason (Decodes (JArr (c :: candles))) ->
  make_candle_record product_id c = inr r ->
  exists added,
    candle_data (snd (iteration w product_id granularity end_time st))
    = candle_data st ++ r :: added.
Proof.
  intros Hanswer Hc. unfold iteration. unfold_stmt. cbn.
  rewrite Hanswer. cbn.
  change (truthy (JArr (c :: candles))) with true. cbn.
  unfold_stmt. rewrite Hc. cbn.
  match goal with
  | |- context [for_candle_in product_id candles ?s] =>
      pose proof (for_candle_in_frame product_id candles s) as Hframe;
      destruct (for_candle_in product_id candles s) as [[e | []] st1]
  end; cbn in Hframe; destruct Hframe as (_ & _ & _ & added & Hdata); cbn.
  - exists added. rewrite Hdata, <- app_assoc. reflexivity.
  - destruct (_ <? floor_date); cbn; exists added;
      rewrite Hdata, <- app_assoc; reflexivity.
Qed.

(** A run whose first request is answered with such candles ends with a
    record to write. *)
Lemma loop_keeps_first_record w product_id granularity reason c candles r :
  server w 0 = Response 200 reason (Decodes (JArr (c :: candles))) ->
  make_candle_record product_id c = inr r ->
  exists more,
    candle_data
      (snd (fetch_loop w product_id granularity
              (fst (loop_entry w)) (snd (loop_entry w))))
    = r :: more.
Proof.
  intros Hanswer Hc.
  destruct (iteration_first_candle w product_id granularity
              (fst (loop_entry w)) (snd (loop_entry w)) reason c candles r
              Hanswer Hc) as (added & Hfirst).
  change (candle_data (snd (loop_entry w))) with (@nil candle_record)
    in Hfirst.
  cbn [app] in Hfirst.
  rewrite fetch_loop_eq.
  destruct (iteration w product_id granularity (fst (loop_entry w))
              (snd (loop_entry w))) as [[e | [end_time' |]] st1];
    cbn [snd] in *.
  - exists added. exact Hfirst.
  - destruct (fetch_loop_records w product_id granularity end_time' st1)
      as (added' & Heq & _).
    rewrite Heq, Hfirst. exists (added ++ added'). reflexivity.
  - exists added. exact Hfirst.
Qed.

(** The script on any disk, from the call it makes. *)
Lemma main_on_call d w :
  main_on d w initial_state
  = let call := run_on d w "BTC-USD" 3600 in
    let st := after_lines [(INFO, StartingProcess)] (snd call) in
    match fst call with
    | inr tt => (inr tt, st)
    | inl e =>
        if isinstance_Exception e then logging_error (UnexpectedError e) st
        else (inl e, st)
    end.
Proof.
  unfold main_on, bind, logging_info, logging.
  cbn [initial_state log requests files candle_data app].
  change {| log := [(INFO, StartingProcess)]; requests := [];
            files := []; candle_data := [] |}
    with (after_lines [(INFO, StartingProcess)] initial_state).
  rewrite log_blind_fetch_and_store_candles_on.
  fold (run_on d w "BTC-USD" 3600). cbv zeta.
  destruct (run_on d w "BTC-USD" 3600) as [[e | []] st]; reflexivity.
Qed.

(** X18: when the exchange has candles (the first request is answered
    with candles of which the first yields a record) and the file cannot be
    written (the write raises an [Exception], whatever the file), the
    exception leaves the function through its [finally] block and is taken
    by the [except Exception] clause of the script: the last two lines of
    the log are the announcement of the write and the unexpected error, the
    script ends normally, and the disk holds what the failed write left. *)
Theorem X18_script_logs_a_failed_write d w e left_behind reason c candles r :
  (forall name columns data, d name columns data = WriteRaises e left_behind) ->
  isinstance_Exception e = true ->
  server w 0 = Response 200 reason (Decodes (JArr (c :: candles))) ->
  make_candle_record "BTC-USD" c = inr r ->
  let final := main_on d w initial_state in
  fst final = inr tt
  /\ files (snd final) = left_behind
  /\ (exists more, candle_data (snd final) = r :: more)
  /\ exists lines,
       log (snd final)
       = (INFO, StartingProcess) :: lines
         ++ [(INFO, WritingRecords (List.length (candle_data (snd final))));
             (ERROR, UnexpectedError e)].
Proof.
  intros Hdisk He Hanswer Hc. cbv zeta.
  rewrite main_on_call. cbv zeta.
  destruct (loop_keeps_first_record w "BTC-USD" 3600 reason c candles r
              Hanswer Hc) as (more & Hmore).
  destruct (fetch_loop w "BTC-USD" 3600
              (fst (loop_entry w)) (snd (loop_entry w)))
    as [res st] eqn:Hloop.
  cbn [snd] in Hmore.
  rewrite (run_on_allowed d w "BTC-USD" 3600 res st eq_refl Hloop).
  rewrite (fetch_loop_no_file _ _ _ _ _ Hloop), Hmore, Hdisk.
  cbn [fst snd]. rewrite He.
  unfold logging_error, logging, after_lines.
  cbn [fst snd log requests files candle_data app List.length].
  split; [reflexivity |]. split; [reflexivity |].
  split; [exists more; reflexivity |].
  exists (log st ++ snd (handled res)).
  repeat rewrite <- app_assoc. reflexivity.
Qed.

(** An instance of X18: one candle, then no data, and a disk that is
    full. *)
Lemma X18_script_logs_a_failed_write_witness :
  let d : disk := fun _ _ _ => WriteRaises OSError [] in
  let w := scripted noon_2026_11_03 noon_2026_11_03
             [Response 200 "OK" (Decodes (JArr [candle_2021]));
              Response 200 "OK" (Decodes (JArr []))] in
  fst (main_on d w initial_state) = inr tt
  /\ files (snd (main_on d w initial_state)) = []
  /\ In (ERROR, UnexpectedError OSError) (log (snd (main_on d w initial_state))).
Proof.
  cbv zeta.
  assert (Hc : make_candle_record "BTC-USD" candle_2021 = inr record_2021)
    by (vm_compute; reflexivity).
  destruct (X18_script_logs_a_failed_write
              (fun _ _ _ => WriteRaises OSError [])
              (scripted noon_2026_11_03 noon_2026_11_03
                 [Response 200 "OK" (Decodes (JArr [candle_2021]));
                  Response 200 "OK" (Decodes (JArr []))])
              OSError [] "OK" candle_2021 [] record_2021
              (fun _ _ _ => eq_refl) eq_refl eq_refl Hc)
    as (Hreturns & Hfiles & _ & lines & Hlog).
  split; [exact Hreturns |]. split; [exact Hfiles |].
  rewrite Hlog. right. apply in_or_app. right. right. left. reflexivity.
Defined.
